(** * Reconciliation engine of the AWS provider: a shallow embedding

    The Go sources embedded here are

    - [internal/service/ecr/repository.go]   (package ecr),
    - the ECS task-set resource               (package ecs),
    - the RAM resource-share resource         (package ram),
    - the Elastic Beanstalk solution-stack data source,
    - [internal/service/ssm/tags_gen.go]      (package ssm).

    Go values are modelled as follows.  A pointer that the code tests
    against [nil] is an [option]; a slice is a [list]; a Go map from
    string to string is a [gmap string string]; an [error] is an
    [option error] ([None] is the nil error).  A function that talks to
    the remote API is a state transformer over a [World]: the resource
    data [d] it mutates and the log of the remote calls issued so far.
    The remote service is an oracle that answers a call from the number
    of calls issued before it, so that it may answer differently over
    time.  A run-time panic is the [Panic] result.

    Nested configuration blocks that never influence the control flow
    (encryption configuration, image scanning, capacity providers, ...)
    are left out of the request and response records. *)

From Stdlib Require Import Ascii.
From stdpp Require Import base strings list gmap pretty.

Local Open Scope string_scope.

(** ** Go errors *)

(** The error values the code builds or inspects.  [AwsError] is an
    [awserr.Error] of the SDK; [Errorf] is [fmt.Errorf] without [%w];
    [ErrorfW] is [fmt.Errorf] whose format ends in [%w]. *)
#[warnings="-register-all"]
Inductive error : Type :=
  | AwsError (code message : string)
  | NotFoundError (lastError : option error) (message : string)
  | EmptyResultError
  | TooManyResultsError (count : nat)
  | TimeoutError (lastError : option error)
  | Errorf (message : string)
  | ErrorfW (message : string) (wrapped : error).

(** [errors.As(err, &awsErr)]: the first SDK error on the unwrap chain. *)
Fixpoint asAwsError (e : error) : option (string * string) :=
  match e with
  | AwsError c m => Some (c, m)
  | NotFoundError (Some e') _ => asAwsError e'
  | ErrorfW _ e' => asAwsError e'
  | _ => None
  end.

(** [err.Error()] *)
Fixpoint errorString (e : error) : string :=
  match e with
  | AwsError c m => c ++ ": " ++ m
  | NotFoundError _ m => if decide (m = "") then "couldn't find resource" else m
  | EmptyResultError => "empty result"
  | TooManyResultsError n => "too many results: wanted 1, got " ++ pretty n
  | TimeoutError _ => "timeout while waiting for state"
  | Errorf m => m
  | ErrorfW m e' => m ++ errorString e'
  end.

Module tfawserr.

(** [tfawserr.ErrCodeEquals(err, codes...)] *)
Definition ErrCodeEquals (err : option error) (codes : list string) : bool :=
  match err with
  | Some e =>
      match asAwsError e with
      | Some (c, _) => bool_decide (c ∈ codes)
      | None => false
      end
  | None => false
  end.

(** [strings.Contains] *)
Fixpoint Contains (s sub : string) : bool :=
  String.prefix sub s ||
  match s with
  | EmptyString => false
  | String _ s' => Contains s' sub
  end.

(** [tfawserr.ErrMessageContains(err, code, message)] *)
Definition ErrMessageContains (err : option error) (code message : string) : bool :=
  match err with
  | Some e =>
      match asAwsError e with
      | Some (c, m) => bool_decide (c = code) && Contains m message
      | None => false
      end
  | None => false
  end.

End tfawserr.

(** ** Diagnostics *)

Inductive Severity := SevError | SevWarning.

Record Diagnostic := { severity : Severity; summary : string }.

Abbreviation Diagnostics := (list Diagnostic).

Module sdkdiag.

(** Modelled from the spec: [sdkdiag.AppendErrorf] is not among the
    sources.  "Diagnostics are a sequence of (severity, message)
    pairs": the formatted message is appended with error severity. *)
Definition AppendErrorf (diags : Diagnostics) (message : string) : Diagnostics :=
  diags ++ [{| severity := SevError; summary := message |}].

End sdkdiag.

(** A diagnostic list reports a failure when it holds an error. *)
Definition HasError (diags : Diagnostics) : bool :=
  existsb (λ x, match severity x with SevError => true | SevWarning => false end) diags.

(** ** What lies outside the sources *)

(** The behaviour of code that is not part of the embedded files and
    on which the spec fixes no value: the error signature of a partition
    that does not support an operation, the poll interval of the waiter
    (in seconds), the regular-expression engine (for a valid
    expression), the propagation time-out of the packages and the
    create time-out of the task set (in seconds). *)
Record Externals := {
  unsupportedSignature : string → string → bool;
  pollInterval : nat;
  regexpMatchString : string → string → bool;
  propagationTimeout : nat;
  taskSetCreateTimeout : nat;
}.

(** ** Results of Go functions *)

(** A Go call either returns or panics. *)
Inductive go (A : Type) : Type :=
  | Ret (a : A)
  | Panic (reason : string).
Arguments Ret {A} a.
Arguments Panic {A} reason.

(** ** Tags *)

Record Tag := { Key : string; Value : string }.

Record IgnoreConfig := { Keys : list string; KeyPrefixes : list string }.

Module tftags.

Abbreviation KeyValueTags := (gmap string string).

(** Modelled from the spec: the "reserved prefix" of the tags that the
    platform injects itself. *)
Definition AwsTagKeyPrefix : string := "aws:".

(** Modelled from the spec: package [tftags] is not among the sources.
    "removes keys matching an ignore predicate (... keys starting with
    a reserved prefix ...)": the reserved prefix of the platform. *)
Definition IgnoreAWS (tags : KeyValueTags) : KeyValueTags :=
  filter (λ kv, String.prefix AwsTagKeyPrefix kv.1 = false) tags.

(** Modelled from the spec: "... or keys in an explicit-ignore list",
    the configured prefixes and keys of the deployment. *)
Definition IgnoreConfig (ic : IgnoreConfig) (tags : KeyValueTags) : KeyValueTags :=
  filter (λ kv, existsb (λ p, String.prefix p kv.1) (KeyPrefixes ic) = false
                ∧ kv.1 ∉ Keys ic) tags.

(** Modelled from the spec: "merge(default, resource): union with
    resource-tag precedence on collisions". *)
Definition MergeTags (defaults resource : KeyValueTags) : KeyValueTags :=
  resource ∪ defaults.

(** Modelled from the spec: "default-tag subtraction"; the view "never
    includes keys present only in the default-tag set (unless
    explicitly overridden per-resource)": an entry equal to a default
    entry is dropped, an entry that overrides a default is kept. *)
Definition RemoveDefaultConfig (defaults : KeyValueTags) (tags : KeyValueTags) : KeyValueTags :=
  filter (λ kv, defaults !! kv.1 ≠ Some kv.2) tags.

(** Modelled from the spec: "removed = keys present in old absent
    from new". *)
Definition Removed (old new : KeyValueTags) : KeyValueTags :=
  filter (λ kv, new !! kv.1 = None) old.

(** Modelled from the spec: "updated = keys in new whose value differs
    from old or that are entirely new". *)
Definition Updated (old new : KeyValueTags) : KeyValueTags :=
  filter (λ kv, old !! kv.1 ≠ Some kv.2) new.

(** Modelled from the spec: the keys of a tag set, [tags.Keys()]. *)
Definition KeysOf (tags : KeyValueTags) : list string := (map_to_list tags).*1.

(** [len(tags) > 0] *)
Definition nonEmpty (tags : KeyValueTags) : bool := bool_decide (0 < size tags).

End tftags.

(** [Tags] of the generated [tags_gen.go]: one [Tag] per entry. *)
Definition Tags (tags : gmap string string) : list Tag :=
  (λ kv, {| Key := kv.1; Value := kv.2 |}) <$> map_to_list tags.

(** [KeyValueTags] of the generated [tags_gen.go]: a later entry of the
    slice overwrites an earlier one with the same key. *)
Definition KeyValueTags (tags : list Tag) : gmap string string :=
  foldl (λ m t, <[Key t := Value t]> m) ∅ tags.

Module verify.

Definition AwsPartitionID : string := "aws".

(** Modelled from the spec: [verify.ErrorISOUnsupported] is not among
    the sources.  "the error matches the unsupported signature AND the
    current deployment partition is not the primary/default
    partition"; the signature is one of remote rejections, read off
    the SDK error on the unwrap chain. *)
Definition ErrorISOUnsupported (X : Externals) (partition : string) (err : option error) : bool :=
  negb (bool_decide (partition = AwsPartitionID)) &&
  match err with
  | Some e =>
      match asAwsError e with
      | Some (c, m) => unsupportedSignature X c m
      | None => false
      end
  | None => false
  end.

End verify.

(** ** Resource data, the world and its monad *)

(** [schema.ResourceData]: the identity, the new-resource mark, the
    scalar attributes by name, the ["tags"] and ["tags_all"] attributes
    and the configured time-outs (in seconds). *)
Record ResourceData := {
  rdId : string;
  rdIsNewResource : bool;
  rdStrings : gmap string string;
  rdBools : gmap string bool;
  rdTags : gmap string string;
  rdTagsAll : gmap string string;
  rdTimeouts : gmap string nat;
}.

(** The state a provider function runs in: the resource data, the
    remote calls issued so far (oldest first) and the lines written
    with [log.Printf]. *)
Record World (R : Type) := {
  d : ResourceData;
  calls : list R;
  logged : list string;
}.
Arguments d {R} _.
Arguments calls {R} _.
Arguments logged {R} _.

Definition M (R A : Type) : Type := World R → A * World R.

#[global] Instance M_ret {R} : MRet (M R) := λ A a w, (a, w).
#[global] Instance M_bind {R} : MBind (M R) :=
  λ A B f m w, let '(a, w') := m w in f a w'.

(** The result of [m] passed through [f]. *)
Definition liftM {R A B} (f : A → B) (m : M R A) : M R B :=
  λ w, let '(a, w') := m w in (f a, w').

(** A remote call: logged, and answered by the oracle from the number
    of calls issued before it. *)
Definition invoke {R A} (req : R) (answer : nat → A) : M R A :=
  λ w, (answer (length (calls w)),
        {| d := d w; calls := calls w ++ [req]; logged := logged w |}).

Definition updateData {R} (f : ResourceData → ResourceData) : M R unit :=
  λ w, (tt, {| d := f (d w); calls := calls w; logged := logged w |}).

Definition readData {R A} (f : ResourceData → A) : M R A :=
  λ w, (f (d w), w).

Module log.

(** [log.Printf] *)
Definition Printf {R} (line : string) : M R unit :=
  λ w, (tt, {| d := d w; calls := calls w; logged := logged w ++ [line] |}).

End log.

Module aws.

(** [aws.StringValue]: the empty string for a nil pointer. *)
Definition StringValue (p : option string) : string := default "" p.

End aws.

Module schema.

Definition TimeoutDelete : string := "delete".

(** [d.Id()] *)
Definition Id {R} : M R string := readData rdId.

(** [d.IsNewResource()] *)
Definition IsNewResource {R} : M R bool := readData rdIsNewResource.

(** [d.SetId(v)] *)
Definition SetId {R} (v : string) : M R unit :=
  updateData (λ x, {| rdId := v; rdIsNewResource := rdIsNewResource x;
                      rdStrings := rdStrings x; rdBools := rdBools x;
                      rdTags := rdTags x; rdTagsAll := rdTagsAll x;
                      rdTimeouts := rdTimeouts x |}).

(** [d.Get(key).(string)] *)
Definition GetString {R} (key : string) : M R string :=
  readData (λ x, default "" (rdStrings x !! key)).

(** [d.Get(key).(bool)] *)
Definition GetBool {R} (key : string) : M R bool :=
  readData (λ x, default false (rdBools x !! key)).

(** [d.Get("tags").(map[string]interface{})] *)
Definition GetTags {R} : M R (gmap string string) := readData rdTags.

(** [d.GetOk("tags")]: the value, and whether it is not the zero value. *)
Definition GetOkTags {R} : M R (gmap string string * bool) :=
  readData (λ x, (rdTags x, bool_decide (0 < size (rdTags x)))).

(** [d.Timeout(key)] *)
Definition Timeout {R} (key : string) : M R nat :=
  readData (λ x, default 0 (rdTimeouts x !! key)).

(** [d.Set(key, v)] for a string or a string pointer. *)
Definition SetString {R} (key : string) (v : option string) : M R unit :=
  updateData (λ x, {| rdId := rdId x; rdIsNewResource := rdIsNewResource x;
                      rdStrings := <[key := aws.StringValue v]> (rdStrings x);
                      rdBools := rdBools x;
                      rdTags := rdTags x; rdTagsAll := rdTagsAll x;
                      rdTimeouts := rdTimeouts x |}).

(** [d.Set("tags", v)] *)
Definition SetTags {R} (v : gmap string string) : M R unit :=
  updateData (λ x, {| rdId := rdId x; rdIsNewResource := rdIsNewResource x;
                      rdStrings := rdStrings x; rdBools := rdBools x;
                      rdTags := v; rdTagsAll := rdTagsAll x;
                      rdTimeouts := rdTimeouts x |}).

(** [d.Set("tags_all", v)] *)
Definition SetTagsAll {R} (v : gmap string string) : M R unit :=
  updateData (λ x, {| rdId := rdId x; rdIsNewResource := rdIsNewResource x;
                      rdStrings := rdStrings x; rdBools := rdBools x;
                      rdTags := rdTags x; rdTagsAll := v;
                      rdTimeouts := rdTimeouts x |}).

End schema.

(** [conns.AWSClient], as far as the resources read it. *)
Record AWSClient := {
  Partition : string;
  DefaultTagsConfig : gmap string string;
  IgnoreTagsConfig : IgnoreConfig;
}.

(** [%s] of an error value. *)
Definition fmtError (err : option error) : string :=
  match err with
  | Some e => errorString e
  | None => "%!s(<nil>)"
  end.

(** [append(diags, more...)] where [more] comes from a call that may panic. *)
Definition appendDiags (diags : Diagnostics) (more : go Diagnostics) : go Diagnostics :=
  match more with
  | Ret ds => Ret (diags ++ ds)%list
  | Panic r => Panic r
  end.

(** ** The retry and wait engine *)

Module tfresource.

(** Modelled from the spec: the errors of the NotFound kind, seen
    through [%w]. *)
Fixpoint isNotFound (e : error) : bool :=
  match e with
  | NotFoundError _ _ => true
  | EmptyResultError => true
  | ErrorfW _ e' => isNotFound e'
  | _ => false
  end.

(** Modelled from the spec: package [tfresource] is not among the
    sources.  "NotFound, when the remote call itself signals a
    not-found error code, OR when zero records are returned, OR when the
    single returned record fails the secondary exact-match check"; too
    many results is a terminal failure and a time-out is a kind of its
    own. *)
Definition NotFound (err : option error) : bool :=
  match err with
  | Some e => isNotFound e
  | None => false
  end.

(** Modelled from the spec: "zero records are returned" is a NotFound. *)
Definition NewEmptyResultError : error := EmptyResultError.

(** Modelled from the spec: "TerminalFailure(too many results), when
    more than one record is returned". *)
Definition NewTooManyResultsError (count : nat) : error := TooManyResultsError count.

(** Modelled from the spec: the retryable outcome of a deletion-wait
    whose probe still finds the resource. *)
Definition ErrFoundResource : error := Errorf "found resource".

(** Modelled from the spec: "polling interval is a fixed small
    duration".  The polls that fit in a budget of [timeout] seconds:
    one at once, then one per interval while the deadline has not
    passed. *)
Definition maxPolls (X : Externals) (timeout : nat) : nat :=
  S (timeout / pollInterval X).

(** Modelled from the spec: the state machine of section 4.3.  Each
    poll invokes the probe; the classifier says whether its error is
    retryable.  "Success(state): return state"; "RetryableFailure:
    remain in Polling, poll again, UNLESS elapsed time exceeds the
    caller-specified timeout, in which case transition to TimedOut";
    "TerminalFailure: transition immediately to Failed".  The time-out
    error carries the last observed error. *)
Fixpoint poll {R A} (polls : nat) (f : M R (option A * option error))
    (retryable : option error → bool * option error)
    (last : option error) : M R (option A * option error) :=
  match polls with
  | 0 => mret (None, Some (TimeoutError last))
  | S n =>
      r ← f;
      let '(retry, err) := retryable r.2 in
      if retry : bool then poll n f retryable err
      else match err with
           | Some e => mret (None, Some e)
           | None => mret (r.1, None)
           end
  end.

(** Modelled from the spec: "Retry-when: retry a mutating call itself
    while a classifier function says the error is transient", under "a
    caller-supplied deadline". *)
Definition RetryWhen {R A} (X : Externals) (timeout : nat)
    (f : M R (option A * option error))
    (retryable : option error → bool * option error) : M R (option A * option error) :=
  poll (maxPolls X timeout) f retryable None.

(** Modelled from the spec: "for creation-wait, NotFound is retryable
    (resource not yet visible)". *)
Definition RetryWhenNewResourceNotFound {R A} (X : Externals) (timeout : nat)
    (f : M R (option A * option error)) (isNewResource : bool) : M R (option A * option error) :=
  RetryWhen X timeout f
    (λ err, if isNewResource && NotFound err then (true, err) else (false, err)).

(** Modelled from the spec: "for deletion-wait, NotFound is the success
    condition"; a resource that is still found is polled again. *)
Definition RetryUntilNotFound {R A} (X : Externals) (timeout : nat)
    (f : M R (option A * option error)) : M R (option A * option error) :=
  RetryWhen X timeout f
    (λ err, if NotFound err then (false, None)
            else match err with
                 | Some e => (false, Some e)
                 | None => (true, Some ErrFoundResource)
                 end).

End tfresource.

(** A Go function returning [(value, error)] seen as the pair
    [(interface{}, error)] that the retry helpers expect. *)
Definition asPair {A} (r : error + A) : option A * option error :=
  match r with
  | inl e => (None, Some e)
  | inr a => (Some a, None)
  end.

(** ** Package ecr: the repository resource *)

Module ecr.

Definition ErrCodeRepositoryNotFoundException : string := "RepositoryNotFoundException".
Definition ErrCodeRepositoryNotEmptyException : string := "RepositoryNotEmptyException".

Record Repository := {
  RepositoryArn : option string;
  RepositoryName : option string;
  RegistryId : option string;
  RepositoryUri : option string;
  ImageTagMutability : option string;
}.

Record DescribeRepositoriesInput := { RepositoryNames : list string }.

Record DescribeRepositoriesOutput := { Repositories : list (option Repository) }.

Record CreateRepositoryInput := {
  ciImageTagMutability : string;
  ciRepositoryName : string;
  ciTags : option (list Tag);
}.

Record CreateRepositoryOutput := { coRepository : option Repository }.

Record DeleteRepositoryInput := {
  diForce : bool;
  diRegistryId : string;
  diRepositoryName : string;
}.

(** The calls of the ECR API that the resource issues. *)
Inductive Request :=
  | DescribeRepositories (input : DescribeRepositoriesInput)
  | CreateRepository (input : CreateRepositoryInput)
  | DeleteRepository (input : DeleteRepositoryInput)
  | ListTagsForResource (arn : string)
  | TagResource (arn : string) (tags : list Tag)
  | UntagResource (arn : string) (tagKeys : list string).

(** [*ecr.ECR]: the partition of the client and the remote service. *)
Record Conn := {
  PartitionID : string;
  onDescribeRepositories :
    nat → DescribeRepositoriesInput → option DescribeRepositoriesOutput * option error;
  onCreateRepository :
    nat → CreateRepositoryInput → option CreateRepositoryOutput * option error;
  onDeleteRepository : nat → DeleteRepositoryInput → option error;
  onListTagsForResource : nat → string → list Tag * option error;
  onTagResource : nat → string → list Tag → option error;
  onUntagResource : nat → string → list string → option error;
}.

Definition DescribeRepositoriesWithContext (conn : Conn) (input : DescribeRepositoriesInput)
  : M Request (option DescribeRepositoriesOutput * option error) :=
  invoke (DescribeRepositories input) (λ n, onDescribeRepositories conn n input).

Definition CreateRepositoryWithContext (conn : Conn) (input : CreateRepositoryInput)
  : M Request (option CreateRepositoryOutput * option error) :=
  invoke (CreateRepository input) (λ n, onCreateRepository conn n input).

Definition DeleteRepositoryWithContext (conn : Conn) (input : DeleteRepositoryInput)
  : M Request (option error) :=
  invoke (DeleteRepository input) (λ n, onDeleteRepository conn n input).

Definition ListTagsForResourceWithContext (conn : Conn) (arn : string)
  : M Request (list Tag * option error) :=
  invoke (ListTagsForResource arn) (λ n, onListTagsForResource conn n arn).

Definition TagResourceWithContext (conn : Conn) (arn : string) (tags : list Tag)
  : M Request (option error) :=
  invoke (TagResource arn tags) (λ n, onTagResource conn n arn tags).

Definition UntagResourceWithContext (conn : Conn) (arn : string) (keys : list string)
  : M Request (option error) :=
  invoke (UntagResource arn keys) (λ n, onUntagResource conn n arn keys).

(** Modelled from the spec: [ecr/tags_gen.go] is not among the sources;
    it comes from the generator that wrote [ssm/tags_gen.go] and has its
    shape.  "list-tags": the tags of the resource, or the error. *)
Definition ListTags (conn : Conn) (identifier : string)
  : M Request (gmap string string * option error) :=
  '(output, err) ← ListTagsForResourceWithContext conn identifier;
  match err with
  | Some _ => mret (∅, err)
  | None => mret (KeyValueTags output, None)
  end.

(** Modelled from the spec: [ecr/tags_gen.go] is not among the sources;
    it comes from the generator that wrote [ssm/tags_gen.go] and has its
    shape.  "update tags via 4.1's diff": the removed keys are untagged,
    the updated tags are written, both after the platform's own tags
    are ignored. *)
Definition UpdateTags (conn : Conn) (identifier : string)
    (oldTagsMap newTagsMap : gmap string string) : M Request (option error) :=
  let oldTags := oldTagsMap in
  let newTags := newTagsMap in
  err ← (let removedTags := tftags.Removed oldTags newTags in
         if tftags.nonEmpty removedTags then
           err ← UntagResourceWithContext conn identifier
                   (tftags.KeysOf (tftags.IgnoreAWS removedTags));
           match err with
           | Some e => mret (Some (ErrorfW ("untagging resource (" ++ identifier ++ "): ") e))
           | None => mret None
           end
         else mret None);
  match err with
  | Some _ => mret err
  | None =>
      let updatedTags := tftags.Updated oldTags newTags in
      if tftags.nonEmpty updatedTags then
        err ← TagResourceWithContext conn identifier (Tags (tftags.IgnoreAWS updatedTags));
        match err with
        | Some e => mret (Some (ErrorfW ("tagging resource (" ++ identifier ++ "): ") e))
        | None => mret None
        end
      else mret None
  end.

(** [FindRepository] *)
Definition FindRepository (conn : Conn) (input : DescribeRepositoriesInput)
  : M Request (error + Repository) :=
  '(output, err) ← DescribeRepositoriesWithContext conn input;
  if tfawserr.ErrCodeEquals err [ErrCodeRepositoryNotFoundException] then
    mret (inl (NotFoundError err ""))
  else
    match err with
    | Some e => mret (inl e)
    | None =>
        match output with
        | None => mret (inl tfresource.NewEmptyResultError)
        | Some output =>
            match Repositories output with
            | [] => mret (inl tfresource.NewEmptyResultError)
            | None :: _ => mret (inl tfresource.NewEmptyResultError)
            | Some first :: _ =>
                let count := length (Repositories output) in
                if bool_decide (1 < count) then
                  mret (inl (tfresource.NewTooManyResultsError count))
                else mret (inr first)
            end
        end
    end.

(** [FindRepositoryByName] *)
Definition FindRepositoryByName (conn : Conn) (name : string)
  : M Request (error + Repository) :=
  let input := {| RepositoryNames := [name] |} in
  r ← FindRepository conn input;
  match r with
  | inl err => mret (inl err)
  | inr output =>
      (* Eventual consistency check. *)
      if bool_decide (aws.StringValue (RepositoryName output) ≠ name) then
        mret (inl (NotFoundError None ""))
      else mret (inr output)
  end.

(** [resourceRepositoryRead] *)
Definition resourceRepositoryRead (X : Externals) (meta : AWSClient) (conn : Conn)
  : M Request (go Diagnostics) :=
  let diags : Diagnostics := [] in
  let defaultTagsConfig := DefaultTagsConfig meta in
  let ignoreTagsConfig := IgnoreTagsConfig meta in
  id ← schema.Id;
  isNew ← schema.IsNewResource;
  '(outputRaw, err) ← tfresource.RetryWhenNewResourceNotFound X (propagationTimeout X)
                        (liftM asPair (FindRepositoryByName conn id)) isNew;
  if negb isNew && tfresource.NotFound err then
    log.Printf ("[WARN] ECR Repository (" ++ id ++ ") not found, removing from state");;
    schema.SetId "";;
    mret (Ret diags)
  else
    match outputRaw with
    | None => mret (Panic "interface conversion: interface {} is nil, not *ecr.Repository")
    | Some repository =>
        let arn := aws.StringValue (RepositoryArn repository) in
        schema.SetString "arn" (Some arn);;
        schema.SetString "image_tag_mutability" (ImageTagMutability repository);;
        schema.SetString "name" (RepositoryName repository);;
        schema.SetString "registry_id" (RegistryId repository);;
        schema.SetString "repository_url" (RepositoryUri repository);;
        '(tags, err) ← ListTags conn arn;
        (* Some partitions (i.e., ISO) may not support tagging, giving error *)
        if negb (bool_decide (Partition meta = verify.AwsPartitionID))
           && verify.ErrorISOUnsupported X (PartitionID conn) err then
          log.Printf ("[WARN] failed listing tags for ECR Repository (" ++ id ++ "): "
                      ++ fmtError err);;
          mret (Ret diags)
        else
          match err with
          | Some _ =>
              mret (Ret (sdkdiag.AppendErrorf diags
                           ("listing tags for ECR Repository (" ++ id ++ "): " ++ fmtError err)))
          | None =>
              let tags := tftags.IgnoreConfig ignoreTagsConfig (tftags.IgnoreAWS tags) in
              schema.SetTags (tftags.RemoveDefaultConfig defaultTagsConfig tags);;
              schema.SetTagsAll tags;;
              mret (Ret diags)
          end
    end.

(** [resourceRepositoryCreate] *)
Definition resourceRepositoryCreate (X : Externals) (meta : AWSClient) (conn : Conn)
  : M Request (go Diagnostics) :=
  let diags : Diagnostics := [] in
  let defaultTagsConfig := DefaultTagsConfig meta in
  resourceTags ← schema.GetTags;
  let tags := tftags.MergeTags defaultTagsConfig resourceTags in
  name ← schema.GetString "name";
  imageTagMutability ← schema.GetString "image_tag_mutability";
  let inputTags :=
    if tftags.nonEmpty tags then Some (Tags (tftags.IgnoreAWS tags)) else None in
  let input := {| ciImageTagMutability := imageTagMutability;
                  ciRepositoryName := name;
                  ciTags := inputTags |} in
  '(output, err) ← CreateRepositoryWithContext conn input;
  (* Some partitions (i.e., ISO) may not support tag-on-create *)
  '(input, output, err) ←
    (if bool_decide (is_Some (ciTags input))
        && negb (bool_decide (Partition meta = verify.AwsPartitionID))
        && verify.ErrorISOUnsupported X (PartitionID conn) err then
       log.Printf ("[WARN] failed creating ECR Repository (" ++ name ++ ") with tags: "
                   ++ fmtError err ++ ". Trying create without tags.");;
       let input := {| ciImageTagMutability := ciImageTagMutability input;
                       ciRepositoryName := ciRepositoryName input;
                       ciTags := None |} in
       '(output, err) ← CreateRepositoryWithContext conn input;
       mret (input, output, err)
     else mret (input, output, err));
  match err with
  | Some _ =>
      mret (Ret (sdkdiag.AppendErrorf diags
                   ("creating ECR Repository (" ++ name ++ "): " ++ fmtError err)))
  | None =>
      match output ≫= coRepository with
      | None => mret (Panic "invalid memory address or nil pointer dereference")
      | Some repository =>
          schema.SetId (aws.StringValue (RepositoryName repository));;
          (* Some partitions (i.e., ISO) may not support tag-on-create, attempt tag after create *)
          if bool_decide (ciTags input = None)
             && tftags.nonEmpty tags
             && negb (bool_decide (Partition meta = verify.AwsPartitionID)) then
            err ← UpdateTags conn (aws.StringValue (RepositoryArn repository)) ∅ tags;
            (* If default tags only, log and continue. Otherwise, error. *)
            '(v, ok) ← schema.GetOkTags;
            id ← schema.Id;
            if (negb ok || bool_decide (size v = 0))
               && verify.ErrorISOUnsupported X (PartitionID conn) err then
              log.Printf ("[WARN] failed adding tags after create for ECR Repository ("
                          ++ id ++ "): " ++ fmtError err);;
              liftM (appendDiags diags) (resourceRepositoryRead X meta conn)
            else
              match err with
              | Some _ =>
                  mret (Ret (sdkdiag.AppendErrorf diags
                               ("adding tags after create for ECR Repository (" ++ id ++ "): "
                                ++ fmtError err)))
              | None => liftM (appendDiags diags) (resourceRepositoryRead X meta conn)
              end
          else liftM (appendDiags diags) (resourceRepositoryRead X meta conn)
      end
  end.

(** [resourceRepositoryDelete] *)
Definition resourceRepositoryDelete (X : Externals) (meta : AWSClient) (conn : Conn)
  : M Request Diagnostics :=
  let diags : Diagnostics := [] in
  id ← schema.Id;
  log.Printf ("[DEBUG] Deleting ECR Repository: " ++ id);;
  force ← schema.GetBool "force_delete";
  registryId ← schema.GetString "registry_id";
  err ← DeleteRepositoryWithContext conn
          {| diForce := force; diRegistryId := registryId; diRepositoryName := id |};
  if tfawserr.ErrCodeEquals err [ErrCodeRepositoryNotFoundException] then
    mret diags
  else if tfawserr.ErrCodeEquals err [ErrCodeRepositoryNotEmptyException] then
    mret (sdkdiag.AppendErrorf diags
            ("ECR Repository (" ++ id ++ ") not empty, consider using force_delete: "
             ++ fmtError err))
  else
    match err with
    | Some _ =>
        mret (sdkdiag.AppendErrorf diags
                ("deleting ECR Repository (" ++ id ++ "): " ++ fmtError err))
    | None =>
        timeout ← schema.Timeout schema.TimeoutDelete;
        '(_, err) ← tfresource.RetryUntilNotFound X timeout
                      (liftM asPair (FindRepositoryByName conn id));
        match err with
        | Some _ =>
            mret (sdkdiag.AppendErrorf diags
                    ("waiting for ECR Repository (" ++ id ++ ") delete: " ++ fmtError err))
        | None => mret diags
        end
    end.

End ecr.

(** ** Package ecs: the task-set resource *)

Module ecs.

Definition ErrCodeClusterNotFoundException : string := "ClusterNotFoundException".
Definition ErrCodeServiceNotFoundException : string := "ServiceNotFoundException".
Definition ErrCodeTaskSetNotFoundException : string := "TaskSetNotFoundException".
Definition ErrCodeInvalidParameterException : string := "InvalidParameterException".

Record TaskSet := {
  tsId : option string;
  TaskSetArn : option string;
  tsStatus : option string;
  tsStabilityStatus : option string;
  tsTaskDefinition : option string;
  tsExternalId : option string;
  tsLaunchType : option string;
  tsPlatformVersion : option string;
  tsTags : list Tag;
}.

Record CreateTaskSetInput := {
  ciCluster : string;
  ciService : string;
  ciTaskDefinition : string;
  ciTags : option (list Tag);
}.

Record CreateTaskSetOutput := { coTaskSet : option TaskSet }.

Record DescribeTaskSetsInput := {
  dsCluster : string;
  dsInclude : option (list string);
  dsService : string;
  dsTaskSets : list string;
}.

Record DescribeTaskSetsOutput := { TaskSets : list TaskSet }.

Record DeleteTaskSetInput := {
  diCluster : string;
  diService : string;
  diTaskSet : string;
  diForce : bool;
}.

Definition TaskSetFieldTags : string := "TAGS".

(** The calls of the ECS API that the resource issues; the two waiters
    of the package stand for the polling they do. *)
Inductive Request :=
  | CreateTaskSet (input : CreateTaskSetInput)
  | DescribeTaskSets (input : DescribeTaskSetsInput)
  | DeleteTaskSet (input : DeleteTaskSetInput)
  | WaitTaskSetStable (timeout : nat) (taskSetId service cluster : string)
  | WaitTaskSetDeleted (taskSetId service cluster : string)
  | TagResource (arn : string) (tags : list Tag)
  | UntagResource (arn : string) (tagKeys : list string).

(** [*ecs.ECS]: the partition of the client and the remote service.
    [waitTaskSetStable] and [waitTaskSetDeleted] are not among the
    sources; what they return is left to the oracle. *)
Record Conn := {
  PartitionID : string;
  onCreateTaskSet : nat → CreateTaskSetInput → option CreateTaskSetOutput * option error;
  onDescribeTaskSets : nat → DescribeTaskSetsInput → option DescribeTaskSetsOutput * option error;
  onDeleteTaskSet : nat → DeleteTaskSetInput → option error;
  onWaitTaskSetStable : nat → nat → string → string → string → option error;
  onWaitTaskSetDeleted : nat → string → string → string → option error;
  onTagResource : nat → string → list Tag → option error;
  onUntagResource : nat → string → list string → option error;
}.

Definition CreateTaskSetWithContext (conn : Conn) (input : CreateTaskSetInput)
  : M Request (option CreateTaskSetOutput * option error) :=
  invoke (CreateTaskSet input) (λ n, onCreateTaskSet conn n input).

Definition DescribeTaskSetsWithContext (conn : Conn) (input : DescribeTaskSetsInput)
  : M Request (option DescribeTaskSetsOutput * option error) :=
  invoke (DescribeTaskSets input) (λ n, onDescribeTaskSets conn n input).

Definition DeleteTaskSetWithContext (conn : Conn) (input : DeleteTaskSetInput)
  : M Request (option error) :=
  invoke (DeleteTaskSet input) (λ n, onDeleteTaskSet conn n input).

Definition waitTaskSetStable (conn : Conn) (timeout : nat) (taskSetId service cluster : string)
  : M Request (option error) :=
  invoke (WaitTaskSetStable timeout taskSetId service cluster)
         (λ n, onWaitTaskSetStable conn n timeout taskSetId service cluster).

Definition waitTaskSetDeleted (conn : Conn) (taskSetId service cluster : string)
  : M Request (option error) :=
  invoke (WaitTaskSetDeleted taskSetId service cluster)
         (λ n, onWaitTaskSetDeleted conn n taskSetId service cluster).

Definition TagResourceWithContext (conn : Conn) (arn : string) (tags : list Tag)
  : M Request (option error) :=
  invoke (TagResource arn tags) (λ n, onTagResource conn n arn tags).

Definition UntagResourceWithContext (conn : Conn) (arn : string) (keys : list string)
  : M Request (option error) :=
  invoke (UntagResource arn keys) (λ n, onUntagResource conn n arn keys).

(** Modelled from the spec: [ecs/tags_gen.go] is not among the sources;
    it comes from the generator that wrote [ssm/tags_gen.go] and has its
    shape.  "update tags via 4.1's diff": the removed keys are untagged,
    the updated tags are written, both after the platform's own tags
    are ignored. *)
Definition UpdateTags (conn : Conn) (identifier : string)
    (oldTagsMap newTagsMap : gmap string string) : M Request (option error) :=
  let oldTags := oldTagsMap in
  let newTags := newTagsMap in
  err ← (let removedTags := tftags.Removed oldTags newTags in
         if tftags.nonEmpty removedTags then
           err ← UntagResourceWithContext conn identifier
                   (tftags.KeysOf (tftags.IgnoreAWS removedTags));
           match err with
           | Some e => mret (Some (ErrorfW ("untagging resource (" ++ identifier ++ "): ") e))
           | None => mret None
           end
         else mret None);
  match err with
  | Some _ => mret err
  | None =>
      let updatedTags := tftags.Updated oldTags newTags in
      if tftags.nonEmpty updatedTags then
        err ← TagResourceWithContext conn identifier (Tags (tftags.IgnoreAWS updatedTags));
        match err with
        | Some e => mret (Some (ErrorfW ("tagging resource (" ++ identifier ++ "): ") e))
        | None => mret None
        end
      else mret None
  end.

(** [strings.Split(s, sep)] for a separator of one byte. *)
Fixpoint Split (s : string) (sep : Ascii.ascii) : list string :=
  match s with
  | EmptyString => [""]
  | String c s' =>
      if decide (c = sep) then "" :: Split s' sep
      else match Split s' sep with
           | field :: fields => String c field :: fields
           | [] => [String c ""]
           end
  end.

(** [%q] of a string without characters that need escaping. *)
Definition quote (s : string) : string :=
  String (Ascii.ascii_of_nat 34) s ++ String (Ascii.ascii_of_nat 34) "".

(** The identity that [resourceTaskSetCreate] sets:
    [fmt.Sprintf("%s,%s,%s", taskSetId, service, cluster)]. *)
Definition TaskSetFormatID (taskSetId service cluster : string) : string :=
  taskSetId ++ "," ++ service ++ "," ++ cluster.

(** [TaskSetParseID] *)
Definition TaskSetParseID (id : string) : error + (string * string * string) :=
  let parts := Split id ","%char in
  match parts with
  | [p0; p1; p2] =>
      if decide (p0 = "" ∨ p1 = "" ∨ p2 = "") then
        inl (Errorf ("unexpected format of ID (" ++ quote id
                     ++ "), expected TASK_SET_ID,SERVICE,CLUSTER"))
      else inr (p0, p1, p2)
  | _ =>
      inl (Errorf ("unexpected format of ID (" ++ quote id
                   ++ "), expected TASK_SET_ID,SERVICE,CLUSTER"))
  end.

(** [retryTaskSetCreate] *)
Definition retryTaskSetCreate (X : Externals) (conn : Conn) (input : CreateTaskSetInput)
  : M Request (option CreateTaskSetOutput * option error) :=
  '(outputRaw, err) ← tfresource.RetryWhen X (propagationTimeout X + taskSetCreateTimeout X)
      (CreateTaskSetWithContext conn input)
      (λ err,
         if tfawserr.ErrCodeEquals err [ErrCodeClusterNotFoundException;
                                        ErrCodeServiceNotFoundException;
                                        ErrCodeTaskSetNotFoundException]
            || tfawserr.ErrMessageContains err ErrCodeInvalidParameterException
                 "does not have an associated load balancer"
         then (true, err)
         else (false, err));
  match outputRaw ≫= coTaskSet with
  | None => mret (None, Some (Errorf "error creating ECS TaskSet: empty output"))
  | Some _ => mret (outputRaw, err)
  end.

(** [resourceTaskSetRead] *)
Definition resourceTaskSetRead (X : Externals) (meta : AWSClient) (conn : Conn)
  : M Request Diagnostics :=
  let diags : Diagnostics := [] in
  let defaultTagsConfig := DefaultTagsConfig meta in
  let ignoreTagsConfig := IgnoreTagsConfig meta in
  id ← schema.Id;
  match TaskSetParseID id with
  | inl err =>
      mret (sdkdiag.AppendErrorf diags
              ("reading ECS Task Set (" ++ id ++ "): " ++ errorString err))
  | inr (taskSetId, service, cluster) =>
      let input := {| dsCluster := cluster; dsInclude := Some [TaskSetFieldTags];
                      dsService := service; dsTaskSets := [taskSetId] |} in
      '(out, err) ← DescribeTaskSetsWithContext conn input;
      isNew ← schema.IsNewResource;
      if negb isNew && tfawserr.ErrCodeEquals err [ErrCodeClusterNotFoundException;
                                                   ErrCodeServiceNotFoundException;
                                                   ErrCodeTaskSetNotFoundException] then
        log.Printf ("[WARN] ECS Task Set (" ++ id ++ ") not found, removing from state");;
        schema.SetId "";;
        mret diags
      else
        (* Some partitions (i.e., ISO) may not support tagging, giving error *)
        '(out, err) ←
          (if verify.ErrorISOUnsupported X (PartitionID conn) err then
             log.Printf ("[WARN] ECS tagging failed describing Task Set (" ++ id
                         ++ ") with tags: " ++ fmtError err ++ "; retrying without tags");;
             DescribeTaskSetsWithContext conn
               {| dsCluster := dsCluster input; dsInclude := None;
                  dsService := dsService input; dsTaskSets := dsTaskSets input |}
           else mret (out, err));
        match err with
        | Some _ =>
            mret (sdkdiag.AppendErrorf diags
                    ("reading ECS Task Set (" ++ id ++ "): " ++ fmtError err))
        | None =>
            match default [] (TaskSets <$> out) with
            | [] =>
                if isNew then
                  mret (sdkdiag.AppendErrorf diags
                          ("reading ECS Task Set (" ++ id ++ "): empty output after creation"))
                else
                  log.Printf ("[WARN] ECS Task Set (" ++ id ++ ") not found, removing from state");;
                  schema.SetId "";;
                  mret diags
            | taskSet :: _ =>
                schema.SetString "arn" (TaskSetArn taskSet);;
                schema.SetString "cluster" (Some cluster);;
                schema.SetString "launch_type" (tsLaunchType taskSet);;
                schema.SetString "platform_version" (tsPlatformVersion taskSet);;
                schema.SetString "external_id" (tsExternalId taskSet);;
                schema.SetString "service" (Some service);;
                schema.SetString "status" (tsStatus taskSet);;
                schema.SetString "stability_status" (tsStabilityStatus taskSet);;
                schema.SetString "task_definition" (tsTaskDefinition taskSet);;
                schema.SetString "task_set_id" (tsId taskSet);;
                let tags := tftags.IgnoreConfig ignoreTagsConfig
                              (tftags.IgnoreAWS (KeyValueTags (tsTags taskSet))) in
                schema.SetTags (tftags.RemoveDefaultConfig defaultTagsConfig tags);;
                schema.SetTagsAll tags;;
                mret diags
            end
        end
  end.

(** [resourceTaskSetCreate] *)
Definition resourceTaskSetCreate (X : Externals) (meta : AWSClient) (conn : Conn)
  : M Request (go Diagnostics) :=
  let diags : Diagnostics := [] in
  let defaultTagsConfig := DefaultTagsConfig meta in
  resourceTags ← schema.GetTags;
  let tags := tftags.MergeTags defaultTagsConfig resourceTags in
  cluster ← schema.GetString "cluster";
  service ← schema.GetString "service";
  taskDefinition ← schema.GetString "task_definition";
  let inputTags :=
    if tftags.nonEmpty tags then Some (Tags (tftags.IgnoreAWS tags)) else None in
  let input := {| ciCluster := cluster; ciService := service;
                  ciTaskDefinition := taskDefinition; ciTags := inputTags |} in
  '(output, err) ← retryTaskSetCreate X conn input;
  (* Some partitions (i.e., ISO) may not support tag-on-create *)
  '(input, output, err) ←
    (if bool_decide (is_Some (ciTags input))
        && verify.ErrorISOUnsupported X (PartitionID conn) err then
       log.Printf ("[WARN] ECS tagging failed creating Task Set with tags: "
                   ++ fmtError err ++ ". Trying create without tags.");;
       let input := {| ciCluster := ciCluster input; ciService := ciService input;
                       ciTaskDefinition := ciTaskDefinition input; ciTags := None |} in
       '(output, err) ← retryTaskSetCreate X conn input;
       mret (input, output, err)
     else mret (input, output, err));
  match err with
  | Some _ =>
      mret (Ret (sdkdiag.AppendErrorf diags ("creating ECS TaskSet: " ++ fmtError err)))
  | None =>
      match output ≫= coTaskSet with
      | None => mret (Panic "invalid memory address or nil pointer dereference")
      | Some taskSet =>
          let taskSetId := aws.StringValue (tsId taskSet) in
          schema.SetId (TaskSetFormatID taskSetId service cluster);;
          id ← schema.Id;
          waitUntilStable ← schema.GetBool "wait_until_stable";
          werr ← (if waitUntilStable : bool then
                    (* time.ParseDuration of the attribute *)
                    timeout ← schema.Timeout "wait_until_stable_timeout";
                    waitTaskSetStable conn timeout taskSetId service cluster
                  else mret None);
          match werr with
          | Some _ =>
              mret (Ret (sdkdiag.AppendErrorf diags
                           ("waiting for ECS Task Set (" ++ id ++ ") to be stable: "
                            ++ fmtError werr)))
          | None =>
              (* Some partitions (i.e., ISO) may not support tag-on-create, attempt tag after create *)
              if bool_decide (ciTags input = None) && tftags.nonEmpty tags then
                err ← UpdateTags conn (aws.StringValue (TaskSetArn taskSet)) ∅ tags;
                '(v, ok) ← schema.GetOkTags;
                if (negb ok || bool_decide (size v = 0))
                   && verify.ErrorISOUnsupported X (PartitionID conn) err then
                  (* If default tags only, log and continue. Otherwise, error. *)
                  log.Printf ("[WARN] ECS tagging failed adding tags after create for Task Set ("
                              ++ id ++ "): " ++ fmtError err);;
                  liftM Ret (resourceTaskSetRead X meta conn)
                else
                  match err with
                  | Some _ =>
                      mret (Ret (sdkdiag.AppendErrorf diags
                                   ("ECS tagging failed adding tags after create for Task Set ("
                                    ++ id ++ "): " ++ fmtError err)))
                  | None => liftM Ret (resourceTaskSetRead X meta conn)
                  end
              else liftM Ret (resourceTaskSetRead X meta conn)
          end
      end
  end.

(** [resourceTaskSetDelete] *)
Definition resourceTaskSetDelete (X : Externals) (meta : AWSClient) (conn : Conn)
  : M Request Diagnostics :=
  let diags : Diagnostics := [] in
  id ← schema.Id;
  match TaskSetParseID id with
  | inl err =>
      mret (sdkdiag.AppendErrorf diags
              ("deleting ECS Task Set (" ++ id ++ "): " ++ errorString err))
  | inr (taskSetId, service, cluster) =>
      force ← schema.GetBool "force_delete";
      let input := {| diCluster := cluster; diService := service;
                      diTaskSet := taskSetId; diForce := force |} in
      err ← DeleteTaskSetWithContext conn input;
      if tfawserr.ErrCodeEquals err [ErrCodeTaskSetNotFoundException] then
        mret diags
      else
        match err with
        | Some _ =>
            mret (sdkdiag.AppendErrorf diags
                    ("deleting ECS Task Set (" ++ id ++ "): " ++ fmtError err))
        | None =>
            err ← waitTaskSetDeleted conn taskSetId service cluster;
            match err with
            | Some _ =>
                if tfawserr.ErrCodeEquals err [ErrCodeTaskSetNotFoundException] then
                  mret diags
                else
                  mret (sdkdiag.AppendErrorf diags
                          ("deleting ECS Task Set (" ++ id ++ "): waiting for completion: "
                           ++ fmtError err))
            | None => mret diags
            end
        end
  end.

End ecs.

(** ** Package ram: the resource-share resource *)

Module ram.

Definition ErrCodeUnknownResourceException : string := "UnknownResourceException".

Inductive Request :=
  | DeleteResourceShare (resourceShareArn : string)
  | WaitResourceShareDeleted (arn : string) (timeout : nat).

(** [*ram.RAM].  [WaitResourceShareOwnedBySelfDeleted] is not among the
    sources; what it returns is left to the oracle. *)
Record Conn := {
  onDeleteResourceShare : nat → string → option error;
  onWaitResourceShareOwnedBySelfDeleted : nat → string → nat → option error;
}.

Definition DeleteResourceShareWithContext (conn : Conn) (arn : string)
  : M Request (option error) :=
  invoke (DeleteResourceShare arn) (λ n, onDeleteResourceShare conn n arn).

Definition WaitResourceShareOwnedBySelfDeleted (conn : Conn) (arn : string) (timeout : nat)
  : M Request (option error) :=
  invoke (WaitResourceShareDeleted arn timeout)
         (λ n, onWaitResourceShareOwnedBySelfDeleted conn n arn timeout).

(** [resourceResourceShareDelete] *)
Definition resourceResourceShareDelete (conn : Conn) : M Request Diagnostics :=
  let diags : Diagnostics := [] in
  id ← schema.Id;
  log.Printf ("[DEBUG] Deleting RAM Resource Share: " ++ id);;
  err ← DeleteResourceShareWithContext conn id;
  if tfawserr.ErrCodeEquals err [ErrCodeUnknownResourceException] then
    mret diags
  else
    match err with
    | Some _ =>
        mret (sdkdiag.AppendErrorf diags
                ("deleting RAM Resource Share (" ++ id ++ "): " ++ fmtError err))
    | None =>
        timeout ← schema.Timeout schema.TimeoutDelete;
        err ← WaitResourceShareOwnedBySelfDeleted conn id timeout;
        match err with
        | Some _ =>
            mret (sdkdiag.AppendErrorf diags
                    ("waiting for RAM Resource Share (" ++ id ++ ") delete: " ++ fmtError err))
        | None => mret diags
        end
    end.

End ram.

(** ** Package elasticbeanstalk: the solution-stack data source *)

Module elasticbeanstalk.

Inductive Request :=
  | ListAvailableSolutionStacks.

Record ListAvailableSolutionStacksOutput := { SolutionStacks : list (option string) }.

Record Conn := {
  onListAvailableSolutionStacks :
    nat → option ListAvailableSolutionStacksOutput * option error;
}.

Definition ListAvailableSolutionStacksWithContext (conn : Conn)
  : M Request (option ListAvailableSolutionStacksOutput * option error) :=
  invoke ListAvailableSolutionStacks (onListAvailableSolutionStacks conn).

(** Returns the most recent solution stack out of a slice of stacks:
    [solutionStacks[0]], which panics on an empty slice. *)
Definition mostRecentSolutionStack (solutionStacks : list (option string)) : go (option string) :=
  match solutionStacks with
  | first :: _ => Ret first
  | [] => Panic "index out of range [0] with length 0"
  end.

(** The loop of [dataSourceSolutionStackRead] that keeps the names the
    expression matches; [*solutionStack] panics on a nil entry. *)
Fixpoint filterSolutionStacks (X : Externals) (nameRegex : string)
    (stacks : list (option string)) (filtered : list (option string))
  : go (list (option string)) :=
  match stacks with
  | [] => Ret filtered
  | None :: _ => Panic "invalid memory address or nil pointer dereference"
  | Some name :: rest =>
      if regexpMatchString X nameRegex name then
        filterSolutionStacks X nameRegex rest (filtered ++ [Some name])
      else filterSolutionStacks X nameRegex rest filtered
  end.

(** [dataSourceSolutionStackRead] performs the API lookup. *)
Definition dataSourceSolutionStackRead (X : Externals) (conn : Conn)
  : M Request (go Diagnostics) :=
  let diags : Diagnostics := [] in
  nameRegex ← schema.GetString "name_regex";
  log.Printf "[DEBUG] Reading Elastic Beanstalk Solution Stack: ";;
  '(resp, err) ← ListAvailableSolutionStacksWithContext conn;
  match err with
  | Some _ =>
      mret (Ret (sdkdiag.AppendErrorf diags
                   ("reading Elastic Beanstalk Solution Stack: " ++ fmtError err)))
  | None =>
      match resp with
      | None => mret (Panic "invalid memory address or nil pointer dereference")
      | Some resp =>
          match filterSolutionStacks X nameRegex (SolutionStacks resp) [] with
          | Panic r => mret (Panic r)
          | Ret filteredSolutionStacks =>
              let finish (solutionStack : option string) : M Request (go Diagnostics) :=
                schema.SetId (aws.StringValue solutionStack);;
                schema.SetString "name" solutionStack;;
                mret (Ret diags) in
              match filteredSolutionStacks with
              | [] =>
                  mret (Ret (sdkdiag.AppendErrorf diags
                    "Your query returned no results. Please change your search criteria and try again."))
              | [single] =>
                  (* Query returned single result. *)
                  finish single
              | _ =>
                  recent ← schema.GetBool "most_recent";
                  log.Printf ("[DEBUG] aws_elastic_beanstalk_solution_stack - multiple results found and `most_recent` is set to: "
                              ++ (if recent : bool then "true" else "false"));;
                  if recent : bool then
                    match mostRecentSolutionStack filteredSolutionStacks with
                    | Ret solutionStack => finish solutionStack
                    | Panic r => mret (Panic r)
                    end
                  else
                    mret (Ret (sdkdiag.AppendErrorf diags
                      "Your query returned more than one result. Please try a more specific search criteria, or set `most_recent` attribute to true."))
              end
          end
      end
  end.

End elasticbeanstalk.

(** ** Package ssm: the generated tag helpers *)

Module ssm.

Inductive Request :=
  | ListTagsForResource (resourceId resourceType : string)
  | RemoveTagsFromResource (resourceId resourceType : string) (tagKeys : list string)
  | AddTagsToResource (resourceId resourceType : string) (tags : list Tag).

(** [ssmiface.SSMAPI] *)
Record Conn := {
  onListTagsForResource : nat → string → string → list Tag * option error;
  onRemoveTagsFromResource : nat → string → string → list string → option error;
  onAddTagsToResource : nat → string → string → list Tag → option error;
}.

Definition ListTagsForResourceWithContext (conn : Conn) (resourceId resourceType : string)
  : M Request (list Tag * option error) :=
  invoke (ListTagsForResource resourceId resourceType)
         (λ n, onListTagsForResource conn n resourceId resourceType).

Definition RemoveTagsFromResourceWithContext (conn : Conn) (resourceId resourceType : string)
    (tagKeys : list string) : M Request (option error) :=
  invoke (RemoveTagsFromResource resourceId resourceType tagKeys)
         (λ n, onRemoveTagsFromResource conn n resourceId resourceType tagKeys).

Definition AddTagsToResourceWithContext (conn : Conn) (resourceId resourceType : string)
    (tags : list Tag) : M Request (option error) :=
  invoke (AddTagsToResource resourceId resourceType tags)
         (λ n, onAddTagsToResource conn n resourceId resourceType tags).

(** [ListTags] lists ssm service tags. *)
Definition ListTags (conn : Conn) (identifier resourceType : string)
  : M Request (gmap string string * option error) :=
  '(output, err) ← ListTagsForResourceWithContext conn identifier resourceType;
  match err with
  | Some _ => mret (∅, err)
  | None => mret (KeyValueTags output, None)
  end.

(** [UpdateTags] updates ssm service tags. *)
Definition UpdateTags (conn : Conn) (identifier resourceType : string)
    (oldTagsMap newTagsMap : gmap string string) : M Request (option error) :=
  let oldTags := oldTagsMap in
  let newTags := newTagsMap in
  err ← (let removedTags := tftags.Removed oldTags newTags in
         if tftags.nonEmpty removedTags then
           err ← RemoveTagsFromResourceWithContext conn identifier resourceType
                   (tftags.KeysOf (tftags.IgnoreAWS removedTags));
           match err with
           | Some e => mret (Some (ErrorfW ("untagging resource (" ++ identifier ++ "): ") e))
           | None => mret None
           end
         else mret None);
  match err with
  | Some _ => mret err
  | None =>
      let updatedTags := tftags.Updated oldTags newTags in
      if tftags.nonEmpty updatedTags then
        err ← AddTagsToResourceWithContext conn identifier resourceType
                (Tags (tftags.IgnoreAWS updatedTags));
        match err with
        | Some e => mret (Some (ErrorfW ("tagging resource (" ++ identifier ++ "): ") e))
        | None => mret None
        end
      else mret None
  end.

End ssm.

(** ** Blocks of the configuration *)

(** A value of type [interface{}] inside a block of the configuration:
    nil, or a value of one of the dynamic types that the helpers below
    assert or store.  [int] and [int64] are different dynamic types. *)
Inductive Any :=
  | ANil
  | AString (s : string)
  | ABool (b : bool)
  | AInt (n : Z)
  | AInt64 (n : Z).

(** ** Package ecr: the configuration blocks of the repository *)

Module ecrblocks.

Record EncryptionConfiguration := {
  EncryptionType : option string;
  KmsKey : option string;
}.

(** [expandRepositoryEncryptionConfiguration]; an entry of [data] is a
    block or nil.  The type assertions [.(string)] panic on a value that
    is not a string, and so on a missing [encryption_type]. *)
Definition expandRepositoryEncryptionConfiguration (data : list (option (gmap string Any)))
  : go (option EncryptionConfiguration) :=
  match data with
  | [] | None :: _ => Ret None
  | Some ec :: _ =>
      match ec !! "encryption_type" with
      | Some (AString encryptionType) =>
          match ec !! "kms_key" with
          | Some (AString s) =>
              Ret (Some {| EncryptionType := Some encryptionType;
                           KmsKey := if decide (s = "") then None else Some s |})
          | Some _ => Panic "interface conversion: interface {} is not string"
          | None => Ret (Some {| EncryptionType := Some encryptionType; KmsKey := None |})
          end
      | _ => Panic "interface conversion: interface {} is not string"
      end
  end.

(** [flattenRepositoryEncryptionConfiguration] *)
Definition flattenRepositoryEncryptionConfiguration (ec : option EncryptionConfiguration)
  : list (gmap string Any) :=
  match ec with
  | None => []
  | Some ec =>
      [{[ "encryption_type" := AString (aws.StringValue (EncryptionType ec));
          "kms_key" := AString (aws.StringValue (KmsKey ec)) ]}]
  end.

End ecrblocks.

(** ** Package fsx: the tiering policy of an ONTAP volume *)

Module fsx.

Record TieringPolicy := {
  CoolingPeriod : option Z;
  Name : option string;
}.

(** [expandOntapVolumeTieringPolicy]; [cfg[0].(map[string]interface{})]
    panics on a nil entry.  [int64(v)] of an [int] keeps the number. *)
Definition expandOntapVolumeTieringPolicy (cfg : list (option (gmap string Any)))
  : go (option TieringPolicy) :=
  match cfg with
  | [] => Ret None
  | None :: _ => Panic "interface conversion: interface {} is nil, not map[string]interface {}"
  | Some conf :: _ =>
      (* Cooling period only accepts a minimum of 2 but int will return 0 not nil if unset.
         Therefore we only set it if it is 2 or more *)
      let coolingPeriod :=
        match conf !! "cooling_period" with
        | Some (AInt v) => if decide (2 ≤ v)%Z then Some v else None
        | _ => None
        end in
      let name :=
        match conf !! "name" with
        | Some (AString v) => Some v
        | _ => None
        end in
      Ret (Some {| CoolingPeriod := coolingPeriod; Name := name |})
  end.

(** [flattenOntapVolumeTieringPolicy]; [aws.Int64Value] of a nil pointer
    is 0, and the number is stored as an [int64]. *)
Definition flattenOntapVolumeTieringPolicy (rs : option TieringPolicy)
  : list (gmap string Any) :=
  match rs with
  | None => []
  | Some rs =>
      let minCoolingPeriod := 2%Z in
      let m : gmap string Any := ∅ in
      let m := if decide (minCoolingPeriod ≤ default 0 (CoolingPeriod rs))%Z
               then <["cooling_period" := AInt64 (default 0%Z (CoolingPeriod rs))]> m
               else m in
      let m := match Name rs with
               | Some _ => <["name" := AString (aws.StringValue (Name rs))]> m
               | None => m
               end in
      [m]
  end.

End fsx.

(** ** Package lightsail: the public domain names of a container service *)

Module lightsail.




End lightsail.

(** ** Sample data for the examples *)

Definition noData : ResourceData :=
  {| rdId := ""; rdIsNewResource := false; rdStrings := ∅; rdBools := ∅;
     rdTags := ∅; rdTagsAll := ∅; rdTimeouts := ∅ |}.

Definition start {R} (x : ResourceData) : World R :=
  {| d := x; calls := []; logged := [] |}.

(** A platform whose unsupported-operation signature is the error code
    [UnsupportedOperation], polled every 5 seconds. *)
Definition sampleExternals : Externals :=
  {| unsupportedSignature := λ c _, bool_decide (c = "UnsupportedOperation");
     pollInterval := 5;
     regexpMatchString := λ re s, String.prefix re s;
     propagationTimeout := 10;
     taskSetCreateTimeout := 20 |}.

Definition isoMeta : AWSClient :=
  {| Partition := "aws-iso"; DefaultTagsConfig := {[ "env" := "prod" ]};
     IgnoreTagsConfig := {| Keys := []; KeyPrefixes := [] |} |}.

Definition sampleStacks : elasticbeanstalk.Conn :=
  {| elasticbeanstalk.onListAvailableSolutionStacks := λ _,
       (Some {| elasticbeanstalk.SolutionStacks :=
                  [Some "64bit Amazon Linux 2 v3.4 running Go 1";
                   Some "64bit Windows Server 2019";
                   Some "64bit Amazon Linux 2 v5.8 running Go 1"] |}, None) |}.

Definition stackQuery : ResourceData :=
  {| rdId := ""; rdIsNewResource := false;
     rdStrings := {[ "name_regex" := "64bit Amazon Linux 2" ]};
     rdBools := {[ "most_recent" := true ]};
     rdTags := ∅; rdTagsAll := ∅; rdTimeouts := ∅ |}.

Definition sampleRepository (name : string) : ecr.Repository :=
  {| ecr.RepositoryArn := Some ("arn:aws-iso:ecr:repository/" ++ name);
     ecr.RepositoryName := Some name;
     ecr.RegistryId := Some "123456789012";
     ecr.RepositoryUri := Some ("123456789012.dkr.ecr/" ++ name);
     ecr.ImageTagMutability := Some "MUTABLE" |}.

(** An ECR service in partition [partition] that answers every describe
    call with [describe], every create call with [create], every delete
    call with [delete] and every tagging call with [tagging]. *)
Definition ecrService (partition : string)
    (describe : option ecr.DescribeRepositoriesOutput * option error)
    (create : ecr.CreateRepositoryInput → option ecr.CreateRepositoryOutput * option error)
    (delete : option error) (tagging : option error) : ecr.Conn :=
  {| ecr.PartitionID := partition;
     ecr.onDescribeRepositories := λ _ _, describe;
     ecr.onCreateRepository := λ _, create;
     ecr.onDeleteRepository := λ _ _, delete;
     ecr.onListTagsForResource := λ _ _, ([], tagging);
     ecr.onTagResource := λ _ _ _, tagging;
     ecr.onUntagResource := λ _ _ _, tagging |}.

Definition describes (entries : list (option ecr.Repository))
  : option ecr.DescribeRepositoriesOutput * option error :=
  (Some {| ecr.Repositories := entries |}, None).

Definition creates (input : ecr.CreateRepositoryInput)
  : option ecr.CreateRepositoryOutput * option error :=
  (Some {| ecr.coRepository := Some (sampleRepository (ecr.ciRepositoryName input)) |}, None).

Definition repositoryData (id : string) (new : bool) (tags : gmap string string) : ResourceData :=
  {| rdId := id; rdIsNewResource := new;
     rdStrings := {[ "name" := id; "registry_id" := "123456789012";
                     "image_tag_mutability" := "MUTABLE" ]};
     rdBools := {[ "force_delete" := false ]};
     rdTags := tags; rdTagsAll := ∅;
     rdTimeouts := {[ "delete" := 20 ]} |}.

Definition notFound (code : string) : option error :=
  Some (AwsError code "the resource does not exist").

(** A RAM service whose delete call answers [delete] and whose
    delete-wait answers [wait]. *)
Definition ramService (delete wait : option error) : ram.Conn :=
  {| ram.onDeleteResourceShare := λ _ _, delete;
     ram.onWaitResourceShareOwnedBySelfDeleted := λ _ _ _, wait |}.

(** An ECS service; every describe call finds nothing. *)
Definition ecsService (partition : string)
    (create : ecs.CreateTaskSetInput → option ecs.CreateTaskSetOutput * option error)
    (describe : option ecs.DescribeTaskSetsOutput * option error)
    (delete wait tagging : option error) : ecs.Conn :=
  {| ecs.PartitionID := partition;
     ecs.onCreateTaskSet := λ _, create;
     ecs.onDescribeTaskSets := λ _ _, describe;
     ecs.onDeleteTaskSet := λ _ _, delete;
     ecs.onWaitTaskSetStable := λ _ _ _ _ _, None;
     ecs.onWaitTaskSetDeleted := λ _ _ _ _, wait;
     ecs.onTagResource := λ _ _ _, tagging;
     ecs.onUntagResource := λ _ _ _, tagging |}.

Definition taskSetData (id : string) (new : bool) (tags : gmap string string) : ResourceData :=
  {| rdId := id; rdIsNewResource := new;
     rdStrings := {[ "cluster" := "main"; "service" := "web"; "task_definition" := "web:7" ]};
     rdBools := {[ "force_delete" := false; "wait_until_stable" := false ]};
     rdTags := tags; rdTagsAll := ∅; rdTimeouts := ∅ |}.

Definition sampleTaskSetInput : ecs.CreateTaskSetInput :=
  {| ecs.ciCluster := "main"; ecs.ciService := "web"; ecs.ciTaskDefinition := "web:7";
     ecs.ciTags := Some [{| Key := "env"; Value := "prod" |}] |}.


(** An SSM service that rejects every removal of tags. *)
Definition refusingParameters : ssm.Conn :=
  {| ssm.onListTagsForResource := λ _ _ _, ([], None);
     ssm.onRemoveTagsFromResource := λ _ _ _ _,
       Some (AwsError "InvalidResourceId" "no such parameter");
     ssm.onAddTagsToResource := λ _ _ _ _, None |}.

(** ** Predicates of the statements *)

(** The byte [c] occurs in [s]. *)
Fixpoint hasByte (c : ascii) (s : string) : bool :=
  match s with
  | EmptyString => false
  | String c' s' => bool_decide (c' = c) || hasByte c s'
  end.

(** The entries of a describe response; none for a nil response. *)
Definition records (output : option ecr.DescribeRepositoriesOutput)
  : list (option ecr.Repository) :=
  default [] (ecr.Repositories <$> output).

(** The tag keys that a request of the ECR API sends. *)
Definition ecrSentKeys (r : ecr.Request) : list string :=
  match r with
  | ecr.CreateRepository input => Key <$> default [] (ecr.ciTags input)
  | ecr.TagResource _ tags => Key <$> tags
  | ecr.UntagResource _ keys => keys
  | _ => []
  end.

(** The tag keys that a request of the SSM API sends. *)
Definition ssmSentKeys (r : ssm.Request) : list string :=
  match r with
  | ssm.AddTagsToResource _ _ tags => Key <$> tags
  | ssm.RemoveTagsFromResource _ _ keys => keys
  | ssm.ListTagsForResource _ _ => []
  end.

(** No key of the list bears the reserved prefix of the platform. *)
Definition unreserved (keys : list string) : Prop :=
  Forall (λ k, String.prefix tftags.AwsTagKeyPrefix k = false) keys.

(** The request sends no tag key with the reserved prefix. *)
Definition ecrUnreserved (r : ecr.Request) : Prop := unreserved (ecrSentKeys r).

Definition ssmUnreserved (r : ssm.Request) : Prop := unreserved (ssmSentKeys r).


(** The function [m] takes every world to a world related to it by [Q]. *)
Definition along {R A} (Q : relation (World R)) (m : M R A) : Prop :=
  ∀ w, Q w (m w).2.

(** The log of calls has only grown, by calls that satisfy [P]. *)
Definition issuing {R} (P : R → Prop) : relation (World R) :=
  λ w w', ∃ new, calls w' = (calls w ++ new)%list ∧ Forall P new.

(** The ["tags"] attribute is as it was, or it is what the default-tag
    subtraction leaves of some tag set. *)
Definition showing {R} (defaults : gmap string string) : relation (World R) :=
  λ w w', rdTags (d w') = rdTags (d w)
          ∨ ∃ tags, rdTags (d w') = tftags.RemoveDefaultConfig defaults tags.

(** The fields joined with the separator between them ([strings.Join]). *)
Fixpoint Join (fields : list string) (sep : ascii) : string :=
  match fields with
  | [] => ""
  | [f] => f
  | f :: fs => f ++ String sep (Join fs sep)
  end.

(** The request of the ECR API only reads. *)
Definition ecrReadOnly (r : ecr.Request) : Prop :=
  match r with
  | ecr.DescribeRepositories _ | ecr.ListTagsForResource _ => True
  | _ => False
  end.

(** The request of the ECR API deletes the repository or describes it. *)
Definition ecrDeleteOrDescribe (r : ecr.Request) : Prop :=
  match r with
  | ecr.DeleteRepository _ | ecr.DescribeRepositories _ => True
  | _ => False
  end.

(** The request of the ECS API only reads. *)
Definition ecsReadOnly (r : ecs.Request) : Prop :=
  match r with
  | ecs.DescribeTaskSets _ => True
  | _ => False
  end.

(** The resource data is as it was. *)
Definition keeping {R} : relation (World R) := λ w w', d w' = d w.

(** The request of the ECS API deletes the task set or waits for that. *)
Definition ecsDeleting (r : ecs.Request) : Prop :=
  match r with
  | ecs.DeleteTaskSet _ | ecs.WaitTaskSetDeleted _ _ _ => True
  | _ => False
  end.

(** * Properties *)

(** ** Composite identities of task sets *)

Section SplitFacts.

Variable sep : ascii.

Lemma Split_not_nil s : ecs.Split s sep ≠ [].
Proof.
  destruct s as [|c s]; simpl; [done|].
  destruct (decide (c = sep)); [done|].
  destruct (ecs.Split s sep); done.
Qed.

Lemma Split_no_sep s : hasByte sep s = false → ecs.Split s sep = [s].
Proof.
  induction s as [|c s IH]; simpl; [done|].
  intros H. apply orb_false_elim in H as [Hc Hs].
  apply bool_decide_eq_false in Hc.
  destruct (decide (c = sep)); [done|].
  by rewrite (IH Hs).
Qed.

Lemma Split_field_sep a rest :
  hasByte sep a = false →
  ecs.Split (a ++ String sep rest) sep = a :: ecs.Split rest sep.
Proof.
  induction a as [|c a IH]; simpl.
  - intros _. by destruct (decide (sep = sep)).
  - intros H. apply orb_false_elim in H as [Hc Ha].
    apply bool_decide_eq_false in Hc.
    destruct (decide (c = sep)); [done|].
    by rewrite (IH Ha).
Qed.

End SplitFacts.

Lemma TaskSetFormatID_Split a b c :
  hasByte "," a = false → hasByte "," b = false → hasByte "," c = false →
  ecs.Split (ecs.TaskSetFormatID a b c) "," = [a; b; c].
Proof.
  intros Ha Hb Hc. unfold ecs.TaskSetFormatID.
  change (a ++ "," ++ b ++ "," ++ c) with (a ++ String "," (b ++ String "," c)).
  rewrite !Split_field_sep by done.
  by rewrite Split_no_sep.
Qed.

(** C2, as amended.  For non-empty parts that hold no comma, parsing the
    formatted identity gives back the three parts; and a string whose
    number of comma-separated fields is not three, or one of whose
    fields is empty, is rejected with the malformed-identity error. *)
Theorem TaskSetParseID_roundtrip :
  (∀ taskSetId service cluster,
     taskSetId ≠ "" → service ≠ "" → cluster ≠ "" →
     hasByte "," taskSetId = false →
     hasByte "," service = false →
     hasByte "," cluster = false →
     ecs.TaskSetParseID (ecs.TaskSetFormatID taskSetId service cluster)
     = inr (taskSetId, service, cluster))
  ∧ (∀ id,
       length (ecs.Split id ",") ≠ 3 ∨ "" ∈ ecs.Split id "," →
       ecs.TaskSetParseID id
       = inl (Errorf ("unexpected format of ID (" ++ ecs.quote id
                      ++ "), expected TASK_SET_ID,SERVICE,CLUSTER"))).
Proof.
  split.
  - intros a b c Ha Hb Hc Na Nb Nc. unfold ecs.TaskSetParseID.
    rewrite TaskSetFormatID_Split by done.
    destruct (decide _) as [H|H]; [|done]. by destruct H as [?|[?|?]].
  - intros id H. unfold ecs.TaskSetParseID.
    destruct (ecs.Split id ",") as [|p0 [|p1 [|p2 [|p3 ps]]]]; try done.
    destruct (decide _) as [H'|H']; [done|].
    destruct H as [H|H]; [done|].
    rewrite !elem_of_cons, elem_of_nil in H.
    destruct H as [<-|[<-|[<-|[]]]]; exfalso; apply H'; auto.
Qed.

Lemma TaskSetParseID_roundtrip_witness :
  ecs.TaskSetParseID (ecs.TaskSetFormatID "ts-1" "web" "main") = inr ("ts-1", "web", "main")
  ∧ ecs.TaskSetParseID "ts-1,,main"
    = inl (Errorf ("unexpected format of ID (" ++ ecs.quote "ts-1,,main"
                   ++ "), expected TASK_SET_ID,SERVICE,CLUSTER")).
Proof.
  split.
  - apply (proj1 TaskSetParseID_roundtrip); done.
  - apply (proj2 TaskSetParseID_roundtrip). right. vm_compute.
    apply list_elem_of_In. simpl. tauto.
Defined.

(** C2 as stated fails: a part may be non-empty and hold a comma, and
    then the formatted identity has four fields and is rejected. *)
Lemma TaskSetParseID_comma_counterexample :
  "a,b" ≠ "" ∧ "web" ≠ "" ∧ "main" ≠ ""
  ∧ ecs.TaskSetParseID (ecs.TaskSetFormatID "a,b" "web" "main") ≠ inr ("a,b", "web", "main").
Proof. repeat split; done. Qed.

(** ** The solution-stack data source *)

(** Unfolds the monad of the provider functions. *)
Ltac run :=
  unfold schema.Id, schema.IsNewResource, schema.SetId, schema.GetString,
    schema.GetBool, schema.GetTags, schema.GetOkTags, schema.Timeout, log.Printf;
  unfold liftM, invoke, readData, updateData;
  unfold mbind, mret, M_bind, M_ret;
  cbn [fst snd d calls logged
       rdId rdIsNewResource rdStrings rdBools rdTags rdTagsAll rdTimeouts].

(** Reduces the matches and applications that [run] leaves. *)
Ltac step :=
  cbn [fst snd d calls logged length app Nat.add andb orb negb
       rdId rdIsNewResource rdStrings rdBools rdTags rdTagsAll rdTimeouts].

Lemma filterSolutionStacks_names X re names acc :
  elasticbeanstalk.filterSolutionStacks X re (Some <$> names) acc
  = Ret (acc ++ (Some <$> List.filter (regexpMatchString X re) names))%list.
Proof.
  revert acc. induction names as [|n names IH]; intros acc; simpl.
  - by rewrite app_nil_r.
  - destruct (regexpMatchString X re n); [|done].
    rewrite IH. simpl. by rewrite <- app_assoc.
Qed.

(** C10.  On a non-empty list [mostRecentSolutionStack] returns the
    first element; hence when two or more names of the response match
    and [most_recent] is set, the data source selects the first match
    in the order of the response. *)
Theorem mostRecentSolutionStack_is_first :
  (∀ first rest,
     elasticbeanstalk.mostRecentSolutionStack (first :: rest) = Ret first)
  ∧ (∀ X conn (w : World elasticbeanstalk.Request) names n1 n2 more,
       elasticbeanstalk.onListAvailableSolutionStacks conn (length (calls w))
       = (Some {| elasticbeanstalk.SolutionStacks := Some <$> names |}, None) →
       List.filter (regexpMatchString X (default "" (rdStrings (d w) !! "name_regex"))) names
       = n1 :: n2 :: more →
       rdBools (d w) !! "most_recent" = Some true →
       let '(r, w') := elasticbeanstalk.dataSourceSolutionStackRead X conn w in
       r = Ret [] ∧ rdId (d w') = n1 ∧ rdStrings (d w') !! "name" = Some n1).
Proof.
  split; [done|].
  intros X conn w names n1 n2 more Hresp Hfilter Hrecent.
  unfold elasticbeanstalk.dataSourceSolutionStackRead,
    elasticbeanstalk.ListAvailableSolutionStacksWithContext, schema.SetString.
  run. rewrite Hresp. cbn [elasticbeanstalk.SolutionStacks].
  rewrite filterSolutionStacks_names, Hfilter. simpl.
  rewrite Hrecent. simpl.
  split; [done|]. split; [done|]. by rewrite lookup_insert_eq.
Qed.

Lemma mostRecentSolutionStack_is_first_witness :
  let '(r, w') :=
    elasticbeanstalk.dataSourceSolutionStackRead sampleExternals sampleStacks (start stackQuery) in
  r = Ret [] ∧ rdId (d w') = "64bit Amazon Linux 2 v3.4 running Go 1"
  ∧ rdStrings (d w') !! "name" = Some "64bit Amazon Linux 2 v3.4 running Go 1".
Proof.
  apply (proj2 mostRecentSolutionStack_is_first sampleExternals sampleStacks
           (start stackQuery)
           ["64bit Amazon Linux 2 v3.4 running Go 1";
            "64bit Windows Server 2019";
            "64bit Amazon Linux 2 v5.8 running Go 1"]
           "64bit Amazon Linux 2 v3.4 running Go 1"
           "64bit Amazon Linux 2 v5.8 running Go 1" []);
    reflexivity.
Defined.

(** ** The finder of the repository resource *)

(** C1, as amended.  [FindRepositoryByName] issues exactly one describe
    call and classifies its answer: a not-found error code, no entry, a
    nil first entry, or a single record whose name differs from the
    requested one give a NotFound-kind error; a single record with the
    requested name is returned; more than one entry with a non-nil
    first entry gives the too-many-results error, which is not of the
    NotFound kind. *)
Theorem FindRepositoryByName_classifies (conn : ecr.Conn) (name : string)
    (w : World ecr.Request) output err :
  ecr.onDescribeRepositories conn (length (calls w)) {| ecr.RepositoryNames := [name] |}
  = (output, err) →
  let '(r, w') := ecr.FindRepositoryByName conn name w in
  calls w' = (calls w ++ [ecr.DescribeRepositories {| ecr.RepositoryNames := [name] |}])%list
  ∧ d w' = d w
  ∧ (tfawserr.ErrCodeEquals err [ecr.ErrCodeRepositoryNotFoundException] = true →
     ∃ e, r = inl e ∧ tfresource.NotFound (Some e) = true)
  ∧ (err = None → records output = [] →
     ∃ e, r = inl e ∧ tfresource.NotFound (Some e) = true)
  ∧ (∀ rest, err = None → records output = None :: rest →
     ∃ e, r = inl e ∧ tfresource.NotFound (Some e) = true)
  ∧ (∀ record, err = None → records output = [Some record] →
     aws.StringValue (ecr.RepositoryName record) ≠ name →
     ∃ e, r = inl e ∧ tfresource.NotFound (Some e) = true)
  ∧ (∀ record, err = None → records output = [Some record] →
     aws.StringValue (ecr.RepositoryName record) = name →
     r = inr record)
  ∧ (∀ record rest, err = None → records output = Some record :: rest → rest ≠ [] →
     r = inl (TooManyResultsError (length (records output)))
     ∧ tfresource.NotFound (Some (TooManyResultsError (length (records output)))) = false).
Proof.
  intros Hresp.
  unfold ecr.FindRepositoryByName, ecr.FindRepository, ecr.DescribeRepositoriesWithContext.
  run. rewrite Hresp.
  destruct (tfawserr.ErrCodeEquals err _) eqn:Hcode.
  { simpl. repeat split; eauto; intros; subst; done. }
  destruct err as [e|].
  { simpl. repeat split; intros; done. }
  destruct output as [[entries]|]; simpl.
  2: { repeat split; eauto; intros; done. }
  destruct entries as [|[first|] rest]; simpl.
  - repeat split; eauto; intros; done.
  - destruct rest as [|second rest]; unfold records; simpl.
    + destruct (decide (aws.StringValue (ecr.RepositoryName first) = name)) as [Heq|Hne].
      * rewrite bool_decide_eq_false_2 by (intros Hn; by apply Hn).
        repeat split; intros; simplify_eq; done.
      * rewrite bool_decide_eq_true_2 by done.
        repeat split; eauto; intros; simplify_eq; done.
    + repeat split; intros; simplify_eq; done.
  - repeat split; eauto; intros; done.
Qed.

Lemma FindRepositoryByName_classifies_witness :
  let conn := ecrService "aws" (describes [Some (sampleRepository "app");
                                           Some (sampleRepository "app-2")])
                creates None None in
  let '(r, w') := ecr.FindRepositoryByName conn "app" (start noData) in
  r = inl (TooManyResultsError 2)
  ∧ calls w' = [ecr.DescribeRepositories {| ecr.RepositoryNames := ["app"] |}].
Proof.
  intros conn.
  pose proof (FindRepositoryByName_classifies conn "app" (start noData) _ _ eq_refl) as H.
  destruct (ecr.FindRepositoryByName conn "app" (start noData)) as [r w'].
  destruct H as (Hcalls & _ & _ & _ & _ & _ & _ & Hmany).
  split; [|exact Hcalls].
  apply (Hmany (sampleRepository "app") [Some (sampleRepository "app-2")]); done.
Defined.

(** C1 as stated fails when the first entry of the answer is nil: two
    entries come back, one of them the requested repository, and the
    finder yields the empty-result error of the NotFound kind, neither
    the too-many-results error nor the record. *)
Lemma FindRepositoryByName_nil_first_counterexample :
  let conn := ecrService "aws" (describes [None; Some (sampleRepository "app")])
                creates None None in
  1 < length (records (ecr.onDescribeRepositories conn 0
                         {| ecr.RepositoryNames := ["app"] |}).1)
  ∧ (ecr.FindRepositoryByName conn "app" (start noData)).1 = inl EmptyResultError
  ∧ (ecr.FindRepositoryByName conn "app" (start noData)).1 ≠ inl (TooManyResultsError 2)
  ∧ (ecr.FindRepositoryByName conn "app" (start noData)).1 ≠ inr (sampleRepository "app")
  ∧ tfresource.NotFound (Some EmptyResultError) = true.
Proof. vm_compute. repeat split; try done; lia. Qed.

(** ** Delete *)

(** C7.  When the delete call fails with the repository-not-empty code,
    Delete returns one error diagnostic that points to [force_delete];
    the delete call is the only remote call: it is not retried and the
    wait for deletion is not entered. *)
Theorem resourceRepositoryDelete_not_empty (X : Externals) (meta : AWSClient)
    (conn : ecr.Conn) (w : World ecr.Request) err :
  let input := {| ecr.diForce := default false (rdBools (d w) !! "force_delete");
                  ecr.diRegistryId := default "" (rdStrings (d w) !! "registry_id");
                  ecr.diRepositoryName := rdId (d w) |} in
  ecr.onDeleteRepository conn (length (calls w)) input = err →
  tfawserr.ErrCodeEquals err [ecr.ErrCodeRepositoryNotEmptyException] = true →
  let '(diags, w') := ecr.resourceRepositoryDelete X meta conn w in
  diags = [{| severity := SevError;
              summary := "ECR Repository (" ++ rdId (d w)
                         ++ ") not empty, consider using force_delete: " ++ fmtError err |}]
  ∧ calls w' = (calls w ++ [ecr.DeleteRepository input])%list.
Proof.
  intros input Hresp Hcode.
  unfold ecr.resourceRepositoryDelete, ecr.DeleteRepositoryWithContext.
  run. fold input. rewrite Hresp.
  assert (tfawserr.ErrCodeEquals err [ecr.ErrCodeRepositoryNotFoundException] = false) as ->.
  { unfold tfawserr.ErrCodeEquals in *. destruct err as [e|]; [|done].
    destruct (asAwsError e) as [[c m]|]; [|done].
    apply bool_decide_eq_true in Hcode. apply bool_decide_eq_false.
    rewrite list_elem_of_singleton in *. by subst. }
  rewrite Hcode. done.
Qed.

Lemma resourceRepositoryDelete_not_empty_witness :
  let conn := ecrService "aws" (describes []) creates
                (Some (AwsError "RepositoryNotEmptyException" "it holds images")) None in
  let '(diags, w') :=
    ecr.resourceRepositoryDelete sampleExternals isoMeta conn
      (start (repositoryData "app" false ∅)) in
  diags = [{| severity := SevError;
              summary := "ECR Repository (app) not empty, consider using force_delete: RepositoryNotEmptyException: it holds images" |}]
  ∧ calls w' = [ecr.DeleteRepository {| ecr.diForce := false;
                                        ecr.diRegistryId := "123456789012";
                                        ecr.diRepositoryName := "app" |}].
Proof.
  intros conn.
  apply (resourceRepositoryDelete_not_empty sampleExternals isoMeta conn
           (start (repositoryData "app" false ∅))
           (Some (AwsError "RepositoryNotEmptyException" "it holds images")));
    reflexivity.
Defined.

Lemma ErrCodeEquals_None codes : tfawserr.ErrCodeEquals None codes = false.
Proof. done. Qed.

(** C6, as amended.  A delete call that fails with the not-found code of
    the service makes Delete return no diagnostic, with the delete call
    as the only remote call, for the repository, the task set and the
    resource share.  A not-found code from the delete-wait is a success
    for the task set only; the repository resource leaves absence to
    its waiter, which ends the wait without error when the finder
    reports NotFound, and the resource share reports every error of its
    delete-wait. *)
Theorem Delete_of_absent_resource :
  (∀ X meta (conn : ecr.Conn) (w : World ecr.Request) err,
     let input := {| ecr.diForce := default false (rdBools (d w) !! "force_delete");
                     ecr.diRegistryId := default "" (rdStrings (d w) !! "registry_id");
                     ecr.diRepositoryName := rdId (d w) |} in
     ecr.onDeleteRepository conn (length (calls w)) input = err →
     tfawserr.ErrCodeEquals err [ecr.ErrCodeRepositoryNotFoundException] = true →
     let '(diags, w') := ecr.resourceRepositoryDelete X meta conn w in
     diags = [] ∧ calls w' = (calls w ++ [ecr.DeleteRepository input])%list)
  ∧ (∀ X meta (conn : ecr.Conn) (w : World ecr.Request) output err,
       let input := {| ecr.diForce := default false (rdBools (d w) !! "force_delete");
                       ecr.diRegistryId := default "" (rdStrings (d w) !! "registry_id");
                       ecr.diRepositoryName := rdId (d w) |} in
       let probe := {| ecr.RepositoryNames := [rdId (d w)] |} in
       ecr.onDeleteRepository conn (length (calls w)) input = None →
       ecr.onDescribeRepositories conn (S (length (calls w))) probe = (output, err) →
       tfawserr.ErrCodeEquals err [ecr.ErrCodeRepositoryNotFoundException] = true →
       let '(diags, w') := ecr.resourceRepositoryDelete X meta conn w in
       diags = []
       ∧ calls w' = (calls w ++ [ecr.DeleteRepository input; ecr.DescribeRepositories probe])%list)
  ∧ (∀ X meta (conn : ecs.Conn) (w : World ecs.Request) taskSetId service cluster err,
       let input := {| ecs.diCluster := cluster; ecs.diService := service;
                       ecs.diTaskSet := taskSetId;
                       ecs.diForce := default false (rdBools (d w) !! "force_delete") |} in
       ecs.TaskSetParseID (rdId (d w)) = inr (taskSetId, service, cluster) →
       ecs.onDeleteTaskSet conn (length (calls w)) input = err →
       tfawserr.ErrCodeEquals err [ecs.ErrCodeTaskSetNotFoundException] = true →
       let '(diags, w') := ecs.resourceTaskSetDelete X meta conn w in
       diags = [] ∧ calls w' = (calls w ++ [ecs.DeleteTaskSet input])%list)
  ∧ (∀ X meta (conn : ecs.Conn) (w : World ecs.Request) taskSetId service cluster err,
       let input := {| ecs.diCluster := cluster; ecs.diService := service;
                       ecs.diTaskSet := taskSetId;
                       ecs.diForce := default false (rdBools (d w) !! "force_delete") |} in
       ecs.TaskSetParseID (rdId (d w)) = inr (taskSetId, service, cluster) →
       ecs.onDeleteTaskSet conn (length (calls w)) input = None →
       ecs.onWaitTaskSetDeleted conn (S (length (calls w))) taskSetId service cluster = err →
       tfawserr.ErrCodeEquals err [ecs.ErrCodeTaskSetNotFoundException] = true →
       let '(diags, w') := ecs.resourceTaskSetDelete X meta conn w in
       diags = []
       ∧ calls w' = (calls w ++ [ecs.DeleteTaskSet input;
                                 ecs.WaitTaskSetDeleted taskSetId service cluster])%list)
  ∧ (∀ (conn : ram.Conn) (w : World ram.Request) err,
       ram.onDeleteResourceShare conn (length (calls w)) (rdId (d w)) = err →
       tfawserr.ErrCodeEquals err [ram.ErrCodeUnknownResourceException] = true →
       let '(diags, w') := ram.resourceResourceShareDelete conn w in
       diags = [] ∧ calls w' = (calls w ++ [ram.DeleteResourceShare (rdId (d w))])%list)
  ∧ (∀ (conn : ram.Conn) (w : World ram.Request) e,
       ram.onDeleteResourceShare conn (length (calls w)) (rdId (d w)) = None →
       ram.onWaitResourceShareOwnedBySelfDeleted conn (S (length (calls w))) (rdId (d w))
         (default 0 (rdTimeouts (d w) !! schema.TimeoutDelete)) = Some e →
       let '(diags, w') := ram.resourceResourceShareDelete conn w in
       diags = [{| severity := SevError;
                   summary := "waiting for RAM Resource Share (" ++ rdId (d w)
                              ++ ") delete: " ++ errorString e |}]).
Proof.
  repeat apply conj.
  - intros X meta conn w err input Hresp Hcode.
    unfold ecr.resourceRepositoryDelete, ecr.DeleteRepositoryWithContext.
    run. fold input. by rewrite Hresp, Hcode.
  - intros X meta conn w output err input probe Hdel Hprobe Hcode.
    unfold ecr.resourceRepositoryDelete, ecr.DeleteRepositoryWithContext,
      tfresource.RetryUntilNotFound, tfresource.RetryWhen, tfresource.maxPolls.
    cbn [tfresource.poll].
    unfold ecr.FindRepositoryByName, ecr.FindRepository, ecr.DescribeRepositoriesWithContext.
    run. fold input. rewrite Hdel, !ErrCodeEquals_None. step.
    rewrite length_app, Nat.add_comm. step. fold probe.
    rewrite Hprobe, Hcode. cbn. by rewrite <- app_assoc.
  - intros X meta conn w ts svc cl err input Hid Hresp Hcode.
    unfold ecs.resourceTaskSetDelete, ecs.DeleteTaskSetWithContext.
    run. rewrite Hid. step. fold input. by rewrite Hresp, Hcode.
  - intros X meta conn w ts svc cl err input Hid Hdel Hwait Hcode.
    unfold ecs.resourceTaskSetDelete, ecs.DeleteTaskSetWithContext, ecs.waitTaskSetDeleted.
    run. rewrite Hid. step. fold input. rewrite Hdel, !ErrCodeEquals_None. step.
    rewrite length_app, Nat.add_comm. step.
    rewrite Hwait, Hcode. destruct err; [|done]. cbn. by rewrite <- app_assoc.
  - intros conn w err Hresp Hcode.
    unfold ram.resourceResourceShareDelete, ram.DeleteResourceShareWithContext.
    run. by rewrite Hresp, Hcode.
  - intros conn w e Hdel Hwait.
    unfold ram.resourceResourceShareDelete, ram.DeleteResourceShareWithContext,
      ram.WaitResourceShareOwnedBySelfDeleted.
    run. rewrite Hdel, !ErrCodeEquals_None. step.
    rewrite length_app, Nat.add_comm. step.
    by rewrite Hwait.
Qed.

Lemma Delete_of_absent_resource_witness :
  let conn := ecsService "aws" (λ _, (None, None)) (None, None) None
                (notFound "TaskSetNotFoundException") None in
  let '(diags, w') :=
    ecs.resourceTaskSetDelete sampleExternals isoMeta conn
      (start (taskSetData "ts-1,web,main" false ∅)) in
  diags = []
  ∧ calls w' = [ecs.DeleteTaskSet {| ecs.diCluster := "main"; ecs.diService := "web";
                                    ecs.diTaskSet := "ts-1"; ecs.diForce := false |};
                ecs.WaitTaskSetDeleted "ts-1" "web" "main"].
Proof.
  intros conn.
  destruct Delete_of_absent_resource as (_ & _ & _ & Hwait & _).
  apply (Hwait sampleExternals isoMeta conn (start (taskSetData "ts-1,web,main" false ∅))
           "ts-1" "web" "main" (notFound "TaskSetNotFoundException"));
    reflexivity.
Defined.

(** C6 as stated fails for a delete-wait: when the wait of the resource
    share fails with the not-found code of the service, Delete reports
    an error. *)
Lemma resourceResourceShareDelete_wait_counterexample :
  let conn := ramService None (notFound "UnknownResourceException") in
  tfawserr.ErrCodeEquals (notFound "UnknownResourceException")
    [ram.ErrCodeUnknownResourceException] = true
  ∧ (ram.resourceResourceShareDelete conn (start (repositoryData "arn:share" false ∅))).1
    = [{| severity := SevError;
          summary := "waiting for RAM Resource Share (arn:share) delete: UnknownResourceException: the resource does not exist" |}]
  ∧ (ram.resourceResourceShareDelete conn (start (repositoryData "arn:share" false ∅))).1 ≠ [].
Proof. vm_compute. repeat split; done. Qed.

(** ** The retry and wait engine *)

Section Poll.

Context {R A : Type}.
Implicit Types (f : M R (option A * option error)) (w : World R).


(** A probe whose outcome is retryable at every poll: the engine stops
    after its budget of polls with the time-out error. *)
Lemma poll_retrying n f retryable last w :
  (∀ w', (retryable (f w').1.2).1 = true) →
  ∃ last', tfresource.poll n f retryable last w
           = ((None, Some (TimeoutError last')), Nat.iter n (λ w', (f w').2) w).
Proof.
  intros Hretry. revert last w. induction n as [|n IH]; intros last w.
  - by eexists.
  - cbn [tfresource.poll]. unfold mbind, M_bind.
    specialize (Hretry w). destruct (f w) as [[o err] w1] eqn:Hf. cbn [snd fst] in *.
    destruct (retryable err) as [retry err']. cbn [fst] in Hretry. subst retry.
    destruct (IH err' w1) as [last' ->]. exists last'.
    rewrite Nat.iter_succ_r, Hf. done.
Qed.

(** A probe that fails at the first poll with an error that is not
    retryable. *)
Lemma poll_first_failure n f retryable last w o e e' w1 :
  f w = ((o, Some e), w1) → retryable (Some e) = (false, Some e') →
  tfresource.poll (S n) f retryable last w = ((None, Some e'), w1).
Proof.
  intros Hf Hr. cbn [tfresource.poll]. unfold mbind, M_bind.
  rewrite Hf. cbn [snd fst]. by rewrite Hr.
Qed.

End Poll.

Lemma iter_invoke {R A} (req : R) (answer : nat → A) n (w : World R) :
  Nat.iter n (λ w', (invoke req answer w').2) w
  = {| d := d w; calls := calls w ++ replicate n req; logged := logged w |}.
Proof.
  induction n as [|n IH].
  - cbn. rewrite app_nil_r. by destruct w.
  - rewrite Nat.iter_succ, IH. cbn [replicate]. unfold invoke. cbn [snd d calls logged].
    by rewrite <- app_assoc, <- replicate_cons_app.
Qed.

(** The finder leaves the resource data and the log lines alone and
    issues one describe call. *)
Lemma FindRepositoryByName_world conn name (w : World ecr.Request) :
  (ecr.FindRepositoryByName conn name w).2
  = {| d := d w;
       calls := calls w ++ [ecr.DescribeRepositories {| ecr.RepositoryNames := [name] |}];
       logged := logged w |}.
Proof.
  unfold ecr.FindRepositoryByName, ecr.FindRepository, ecr.DescribeRepositoriesWithContext.
  run.
  destruct (ecr.onDescribeRepositories _ _ _) as [output err].
  destruct (tfawserr.ErrCodeEquals err _); [done|].
  destruct err; [done|].
  destruct output as [[[|[first|] rest]]|]; cbn; try done.
  repeat case_bool_decide; done.
Qed.

Lemma iter_FindRepositoryByName conn name n (w : World ecr.Request) :
  Nat.iter n (λ w', (liftM asPair (ecr.FindRepositoryByName conn name) w').2) w
  = {| d := d w;
       calls := calls w ++ replicate n
                  (ecr.DescribeRepositories {| ecr.RepositoryNames := [name] |});
       logged := logged w |}.
Proof.
  induction n as [|n IH].
  - cbn. rewrite app_nil_r. by destruct w.
  - rewrite Nat.iter_succ, IH. cbn [replicate]. unfold liftM.
    pose proof (FindRepositoryByName_world conn name
                  {| d := d w;
                     calls := calls w ++ replicate n
                       (ecr.DescribeRepositories {| ecr.RepositoryNames := [name] |});
                     logged := logged w |}) as H.
    destruct (ecr.FindRepositoryByName _ _ _) as [r w1]. cbn [snd] in *. rewrite H.
    cbn [d calls logged]. by rewrite <- app_assoc, <- replicate_cons_app.
Qed.

(** A finder whose describe call fails with the not-found code yields
    the NotFound error. *)
Lemma FindRepositoryByName_not_found conn name (w : World ecr.Request) :
  tfawserr.ErrCodeEquals
    (ecr.onDescribeRepositories conn (length (calls w))
       {| ecr.RepositoryNames := [name] |}).2
    [ecr.ErrCodeRepositoryNotFoundException] = true →
  ∃ err, (ecr.FindRepositoryByName conn name w).1 = inl (NotFoundError err "").
Proof.
  intros Hcode.
  unfold ecr.FindRepositoryByName, ecr.FindRepository, ecr.DescribeRepositoriesWithContext.
  run. destruct (ecr.onDescribeRepositories _ _ _) as [output err].
  cbn [snd] in Hcode. rewrite Hcode. by eexists.
Qed.

(** The wait for deletion of the repository resource runs under the
    delete time-out of the resource: while the finder keeps finding the
    repository, Delete ends after the polls that fit in the time-out
    and reports the time-out error. *)
Lemma resourceRepositoryDelete_times_out X meta (conn : ecr.Conn) (w : World ecr.Request)
    (repository : ecr.Repository) :
  let input := {| ecr.diForce := default false (rdBools (d w) !! "force_delete");
                  ecr.diRegistryId := default "" (rdStrings (d w) !! "registry_id");
                  ecr.diRepositoryName := rdId (d w) |} in
  let probe := {| ecr.RepositoryNames := [rdId (d w)] |} in
  ecr.onDeleteRepository conn (length (calls w)) input = None →
  aws.StringValue (ecr.RepositoryName repository) = rdId (d w) →
  (∀ n i, ecr.onDescribeRepositories conn n i = describes [Some repository]) →
  let '(diags, w') := ecr.resourceRepositoryDelete X meta conn w in
  diags = [{| severity := SevError;
              summary := "waiting for ECR Repository (" ++ rdId (d w)
                         ++ ") delete: timeout while waiting for state" |}]
  ∧ calls w' = (calls w ++ ecr.DeleteRepository input
                  :: replicate (tfresource.maxPolls X
                                  (default 0 (rdTimeouts (d w) !! schema.TimeoutDelete)))
                       (ecr.DescribeRepositories probe))%list.
Proof.
  intros input probe Hdel Hname Hfound.
  unfold ecr.resourceRepositoryDelete, ecr.DeleteRepositoryWithContext,
    tfresource.RetryUntilNotFound, tfresource.RetryWhen.
  unfold schema.Id, schema.GetBool, schema.GetString, schema.Timeout, log.Printf,
    invoke, readData, mbind, mret, M_bind, M_ret.
  step. fold input. rewrite Hdel, !ErrCodeEquals_None. step.
  match goal with
  | |- context [tfresource.poll ?n ?f ?r ?l ?w0] =>
      destruct (poll_retrying n f r l w0) as [last' ->]
  end.
  - intros w'. unfold liftM, ecr.FindRepositoryByName, ecr.FindRepository,
      ecr.DescribeRepositoriesWithContext. run. rewrite Hfound.
    cbn. rewrite (bool_decide_eq_false_2 (1 < 1)) by lia. cbn.
    rewrite bool_decide_eq_false_2 by (intros Hn; by apply Hn). done.
  - rewrite iter_FindRepositoryByName. step. split; [done|].
    by rewrite <- app_assoc.
Qed.

(** C9 fails for the retry around the create call of the task set.  The
    retry runs under its deadline and ends after the polls that fit in
    it, but when every create call fails with a retryable error,
    [retryTaskSetCreate] hands back the plain empty-output error, not
    the time-out error of the engine. *)
Theorem retryTaskSetCreate_masks_timeout (X : Externals) (conn : ecs.Conn)
    (input : ecs.CreateTaskSetInput) (w : World ecs.Request) :
  (∀ n i,
     tfawserr.ErrCodeEquals (ecs.onCreateTaskSet conn n i).2
       [ecs.ErrCodeClusterNotFoundException; ecs.ErrCodeServiceNotFoundException;
        ecs.ErrCodeTaskSetNotFoundException]
     || tfawserr.ErrMessageContains (ecs.onCreateTaskSet conn n i).2
          ecs.ErrCodeInvalidParameterException "does not have an associated load balancer"
     = true) →
  ecs.retryTaskSetCreate X conn input w
  = ((None, Some (Errorf "error creating ECS TaskSet: empty output")),
     {| d := d w;
        calls := calls w ++ replicate
                   (tfresource.maxPolls X (propagationTimeout X + taskSetCreateTimeout X))
                   (ecs.CreateTaskSet input);
        logged := logged w |}).
Proof.
  intros Hretry.
  unfold ecs.retryTaskSetCreate, tfresource.RetryWhen, mbind at 1, M_bind at 1.
  match goal with
  | |- context [tfresource.poll ?n ?f ?r ?l ?w0] =>
      destruct (poll_retrying n f r l w0) as [last' ->]
  end.
  - intros w'. unfold ecs.CreateTaskSetWithContext, invoke. cbn [fst snd].
    by rewrite Hretry.
  - unfold ecs.CreateTaskSetWithContext. by rewrite iter_invoke.
Qed.

Lemma retryTaskSetCreate_masks_timeout_witness :
  let conn := ecsService "aws"
                (λ _, (None, Some (AwsError "ClusterNotFoundException" "cluster not found")))
                (None, None) None None None in
  ecs.retryTaskSetCreate sampleExternals conn sampleTaskSetInput (start noData)
  = ((None, Some (Errorf "error creating ECS TaskSet: empty output")),
     {| d := noData;
        calls := replicate 7 (ecs.CreateTaskSet sampleTaskSetInput);
        logged := [] |}).
Proof.
  intros conn.
  apply (retryTaskSetCreate_masks_timeout sampleExternals conn sampleTaskSetInput
           (start noData)).
  intros n i. reflexivity.
Defined.

(** ** Read of a resource that is not found *)

(** Read of a repository that is not freshly created and that the
    finder does not find: the identity is cleared and no diagnostic is
    returned. *)
Lemma resourceRepositoryRead_drops_missing X meta (conn : ecr.Conn) (w : World ecr.Request) :
  rdIsNewResource (d w) = false →
  tfawserr.ErrCodeEquals
    (ecr.onDescribeRepositories conn (length (calls w))
       {| ecr.RepositoryNames := [rdId (d w)] |}).2
    [ecr.ErrCodeRepositoryNotFoundException] = true →
  let '(r, w') := ecr.resourceRepositoryRead X meta conn w in
  r = Ret [] ∧ rdId (d w') = ""
  ∧ calls w' = (calls w ++ [ecr.DescribeRepositories
                              {| ecr.RepositoryNames := [rdId (d w)] |}])%list.
Proof.
  intros Hold Hcode.
  unfold ecr.resourceRepositoryRead, tfresource.RetryWhenNewResourceNotFound,
    tfresource.RetryWhen, tfresource.maxPolls.
  unfold schema.Id, schema.IsNewResource, schema.SetId, log.Printf, readData, updateData,
    mbind, mret, M_bind, M_ret.
  step. rewrite Hold.
  destruct (FindRepositoryByName_not_found conn (rdId (d w)) w Hcode) as [err Hfind].
  pose proof (FindRepositoryByName_world conn (rdId (d w)) w) as Hworld.
  erewrite poll_first_failure; [| |reflexivity].
  2: { unfold liftM. destruct (ecr.FindRepositoryByName conn (rdId (d w)) w) as [r w1].
       cbn [fst snd] in *. subst r w1. reflexivity. }
  cbn. done.
Qed.

(** C5 fails for a freshly created repository.  While the finder keeps
    reporting NotFound, Read of the repository polls until the
    propagation time-out and then panics on the nil result: no error
    diagnostic is returned. *)
Theorem resourceRepositoryRead_new_missing_panics (X : Externals) (meta : AWSClient)
    (conn : ecr.Conn) (w : World ecr.Request) :
  rdIsNewResource (d w) = true →
  (∀ n i, tfawserr.ErrCodeEquals (ecr.onDescribeRepositories conn n i).2
            [ecr.ErrCodeRepositoryNotFoundException] = true) →
  let '(r, w') := ecr.resourceRepositoryRead X meta conn w in
  r = Panic "interface conversion: interface {} is nil, not *ecr.Repository"
  ∧ d w' = d w
  ∧ calls w' = (calls w ++ replicate (tfresource.maxPolls X (propagationTimeout X))
                  (ecr.DescribeRepositories {| ecr.RepositoryNames := [rdId (d w)] |}))%list.
Proof.
  intros Hnew Hcode.
  unfold ecr.resourceRepositoryRead, tfresource.RetryWhenNewResourceNotFound,
    tfresource.RetryWhen.
  unfold schema.Id, schema.IsNewResource, readData, mbind at 1 2 3, M_bind at 1 2 3.
  step. rewrite Hnew.
  match goal with
  | |- context [tfresource.poll ?n ?f ?r ?l ?w0] =>
      destruct (poll_retrying n f r l w0) as [last' ->]
  end.
  - intros w'. unfold liftM.
    destruct (FindRepositoryByName_not_found conn (rdId (d w)) w' (Hcode _ _)) as [err Hfind].
    destruct (ecr.FindRepositoryByName conn (rdId (d w)) w') as [r w1].
    cbn [fst snd] in *. by subst r.
  - rewrite iter_FindRepositoryByName. cbn. done.
Qed.

Lemma resourceRepositoryRead_new_missing_panics_witness :
  let conn := ecrService "aws" (None, notFound "RepositoryNotFoundException")
                creates None None in
  let '(r, w') :=
    ecr.resourceRepositoryRead sampleExternals isoMeta conn
      (start (repositoryData "app" true ∅)) in
  r = Panic "interface conversion: interface {} is nil, not *ecr.Repository"
  ∧ d w' = repositoryData "app" true ∅
  ∧ calls w' = replicate 3 (ecr.DescribeRepositories {| ecr.RepositoryNames := ["app"] |}).
Proof.
  intros conn.
  apply (resourceRepositoryRead_new_missing_panics sampleExternals isoMeta conn
           (start (repositoryData "app" true ∅))); [reflexivity|].
  intros n i. reflexivity.
Defined.

(** Read of a task set that is not found.  When the resource is not
    freshly created, a not-found code or an empty answer clears the
    identity without diagnostic; when it is freshly created, both are
    reported as errors. *)
Lemma resourceTaskSetRead_missing X meta (conn : ecs.Conn) (w : World ecs.Request)
    taskSetId service cluster out err :
  let input := {| ecs.dsCluster := cluster; ecs.dsInclude := Some [ecs.TaskSetFieldTags];
                  ecs.dsService := service; ecs.dsTaskSets := [taskSetId] |} in
  ecs.TaskSetParseID (rdId (d w)) = inr (taskSetId, service, cluster) →
  ecs.onDescribeTaskSets conn (length (calls w)) input = (out, err) →
  verify.ErrorISOUnsupported X (ecs.PartitionID conn) err = false →
  (tfawserr.ErrCodeEquals err [ecs.ErrCodeClusterNotFoundException;
                               ecs.ErrCodeServiceNotFoundException;
                               ecs.ErrCodeTaskSetNotFoundException] = true
   ∨ err = None ∧ default [] (ecs.TaskSets <$> out) = []) →
  let '(diags, w') := ecs.resourceTaskSetRead X meta conn w in
  calls w' = (calls w ++ [ecs.DescribeTaskSets input])%list
  ∧ (rdIsNewResource (d w) = false → diags = [] ∧ rdId (d w') = "")
  ∧ (rdIsNewResource (d w) = true → HasError diags = true ∧ rdId (d w') = rdId (d w)).
Proof.
  intros input Hid Hresp Hiso Hmissing.
  unfold ecs.resourceTaskSetRead, ecs.DescribeTaskSetsWithContext.
  run. rewrite Hid. step. fold input. rewrite Hresp. step. rewrite Hiso.
  destruct Hmissing as [Hcode|[-> Hempty]].
  - rewrite Hcode. destruct (rdIsNewResource (d w)); cbn.
    + destruct err; [|done]. cbn. unfold HasError, sdkdiag.AppendErrorf. cbn. done.
    + done.
  - rewrite ErrCodeEquals_None, andb_false_r. cbn. rewrite Hempty.
    destruct (rdIsNewResource (d w)); cbn; done.
Qed.

(** ** Create on a partition without tag-on-create *)

Lemma ErrorISOUnsupported_None X partition :
  verify.ErrorISOUnsupported X partition None = false.
Proof. unfold verify.ErrorISOUnsupported. by rewrite andb_false_r. Qed.

Lemma ErrorISOUnsupported_Errorf X partition message :
  verify.ErrorISOUnsupported X partition (Some (Errorf message)) = false.
Proof. unfold verify.ErrorISOUnsupported. cbn. by rewrite andb_false_r. Qed.

(** C3 fails for the task set.  A create call with tags that is rejected
    with the unsupported signature is not issued again without tags:
    [retryTaskSetCreate] replaces the rejection by the plain
    empty-output error, which does not bear the signature, and Create
    returns that error after the one call. *)
Theorem resourceTaskSetCreate_keeps_tags (X : Externals) (meta : AWSClient)
    (conn : ecs.Conn) (w : World ecs.Request) out e :
  let tags := tftags.MergeTags (DefaultTagsConfig meta) (rdTags (d w)) in
  let input := {| ecs.ciCluster := default "" (rdStrings (d w) !! "cluster");
                  ecs.ciService := default "" (rdStrings (d w) !! "service");
                  ecs.ciTaskDefinition := default "" (rdStrings (d w) !! "task_definition");
                  ecs.ciTags := Some (Tags (tftags.IgnoreAWS tags)) |} in
  tftags.nonEmpty tags = true →
  ecs.onCreateTaskSet conn (length (calls w)) input = (out, Some e) →
  verify.ErrorISOUnsupported X (ecs.PartitionID conn) (Some e) = true →
  tfawserr.ErrCodeEquals (Some e)
    [ecs.ErrCodeClusterNotFoundException; ecs.ErrCodeServiceNotFoundException;
     ecs.ErrCodeTaskSetNotFoundException]
  || tfawserr.ErrMessageContains (Some e) ecs.ErrCodeInvalidParameterException
       "does not have an associated load balancer" = false →
  ecs.resourceTaskSetCreate X meta conn w
  = (Ret [{| severity := SevError;
             summary := "creating ECS TaskSet: error creating ECS TaskSet: empty output" |}],
     {| d := d w; calls := calls w ++ [ecs.CreateTaskSet input]; logged := logged w |}).
Proof.
  intros tags input Htags Hresp Hiso Hterminal.
  unfold ecs.resourceTaskSetCreate, ecs.retryTaskSetCreate, tfresource.RetryWhen,
    tfresource.maxPolls.
  unfold schema.GetTags, schema.GetString, readData, mbind, mret, M_bind, M_ret.
  step. fold tags. rewrite Htags. fold input.
  erewrite poll_first_failure; [| |by rewrite Hterminal].
  2: { unfold ecs.CreateTaskSetWithContext, invoke. by rewrite Hresp. }
  cbn [option_bind]. step.
  rewrite ErrorISOUnsupported_Errorf, andb_false_r. done.
Qed.

Lemma resourceTaskSetCreate_keeps_tags_witness :
  let conn := ecsService "aws-iso"
                (λ _, (None, Some (AwsError "UnsupportedOperation" "tagging is not supported")))
                (None, None) None None None in
  ecs.resourceTaskSetCreate sampleExternals isoMeta conn (start (taskSetData "" true ∅))
  = (Ret [{| severity := SevError;
             summary := "creating ECS TaskSet: error creating ECS TaskSet: empty output" |}],
     {| d := taskSetData "" true ∅;
        calls := [ecs.CreateTaskSet sampleTaskSetInput];
        logged := [] |}).
Proof.
  intros conn.
  exact (resourceTaskSetCreate_keeps_tags sampleExternals isoMeta conn
           (start (taskSetData "" true ∅)) None
           (AwsError "UnsupportedOperation" "tagging is not supported")
           eq_refl eq_refl eq_refl eq_refl).
Defined.

Lemma Removed_empty (new : gmap string string) : tftags.Removed ∅ new = ∅.
Proof. unfold tftags.Removed. apply map_filter_empty. Qed.

Lemma Updated_empty (new : gmap string string) : tftags.Updated ∅ new = new.
Proof.
  unfold tftags.Updated. apply map_filter_id. intros k v _. cbn.
  by rewrite lookup_empty.
Qed.

Lemma nonEmpty_empty : tftags.nonEmpty ∅ = false.
Proof. done. Qed.

(** The deferred tagging call of Create: with no old tags, nothing is
    untagged and the new tags are written in one call, the platform's
    own tags left out. *)
Lemma ecr_UpdateTags_from_nothing (conn : ecr.Conn) arn (tags : gmap string string)
    (w : World ecr.Request) :
  tftags.nonEmpty tags = true →
  ecr.UpdateTags conn arn ∅ tags w
  = (match ecr.onTagResource conn (length (calls w)) arn (Tags (tftags.IgnoreAWS tags)) with
     | Some e => Some (ErrorfW ("tagging resource (" ++ arn ++ "): ") e)
     | None => None
     end,
     {| d := d w;
        calls := calls w ++ [ecr.TagResource arn (Tags (tftags.IgnoreAWS tags))];
        logged := logged w |}).
Proof.
  intros Htags. unfold ecr.UpdateTags, ecr.TagResourceWithContext.
  rewrite Removed_empty, Updated_empty, nonEmpty_empty, Htags.
  run. by destruct (ecr.onTagResource _ _ _ _).
Qed.


(** ** Tags sent and tags shown *)

Section Along.

Context {R : Type} (Q : relation (World R)) `{!PreOrder Q}.

Lemma along_ret {A} (a : A) : along Q (mret a).
Proof. intros w. reflexivity. Qed.

Lemma along_bind {A B} (m : M R A) (f : A → M R B) :
  along Q m → (∀ a, along Q (f a)) → along Q (m ≫= f).
Proof.
  intros Hm Hf w. unfold mbind, M_bind. specialize (Hm w).
  destruct (m w) as [a w1]. etrans; [exact Hm|apply Hf].
Qed.



Lemma along_liftM {A B} (g : A → B) (m : M R A) : along Q m → along Q (liftM g m).
Proof. intros Hm w. unfold liftM. specialize (Hm w). by destruct (m w). Qed.

Lemma along_poll {A} n (f : M R (option A * option error)) retryable last :
  along Q f → along Q (tfresource.poll n f retryable last).
Proof.
  intros Hf. revert last. induction n as [|n IH]; intros last; cbn [tfresource.poll].
  - apply along_ret.
  - apply along_bind; [done|]. intros [o err].
    destruct (retryable _) as [[|] err']; [apply IH|].
    destruct err'; apply along_ret.
Qed.

End Along.

Section Issuing.

Context {R : Type} (P : R → Prop).

#[local] Instance issuing_preorder : PreOrder (issuing P).
Proof.
  split.
  - intros w. exists []. by rewrite app_nil_r.
  - intros w1 w2 w3 (n1 & E1 & F1) (n2 & E2 & F2). exists (n1 ++ n2)%list.
    rewrite E2, E1, <- app_assoc. split; [done|]. by apply Forall_app.
Qed.

Lemma issuing_invoke {A} (req : R) (answer : nat → A) :
  P req → along (issuing P) (invoke req answer).
Proof. intros Hreq w. exists [req]. split; [done|]. by apply Forall_singleton. Qed.

Lemma issuing_readData {A} (f : ResourceData → A) : along (issuing P) (readData (R:=R) f).
Proof. intros w. exists []. by rewrite app_nil_r. Qed.

Lemma issuing_updateData f : along (issuing P) (updateData (R:=R) f).
Proof. intros w. exists []. cbn. by rewrite app_nil_r. Qed.

Lemma issuing_Printf line : along (issuing P) (log.Printf (R:=R) line).
Proof. intros w. exists []. cbn. by rewrite app_nil_r. Qed.

End Issuing.

Section Showing.

Context {R : Type} (defaults : gmap string string).

#[local] Instance showing_preorder : PreOrder (showing (R:=R) defaults).
Proof.
  split.
  - intros w. by left.
  - intros w1 w2 w3 H12 [H23|[t H23]].
    + destruct H12 as [H12|[t H12]]; [left|right; exists t]; congruence.
    + right. by exists t.
Qed.

Lemma showing_invoke {A} (req : R) (answer : nat → A) :
  along (showing defaults) (invoke req answer).
Proof. intros w. by left. Qed.

Lemma showing_readData {A} (f : ResourceData → A) :
  along (showing defaults) (readData (R:=R) f).
Proof. intros w. by left. Qed.

Lemma showing_Printf line : along (showing defaults) (log.Printf (R:=R) line).
Proof. intros w. by left. Qed.

Lemma showing_SetId v : along (showing defaults) (schema.SetId (R:=R) v).
Proof. intros w. by left. Qed.

Lemma showing_SetString key v : along (showing defaults) (schema.SetString (R:=R) key v).
Proof. intros w. by left. Qed.

Lemma showing_SetTagsAll v : along (showing defaults) (schema.SetTagsAll (R:=R) v).
Proof. intros w. by left. Qed.

Lemma showing_SetTags tags :
  along (showing defaults) (schema.SetTags (R:=R) (tftags.RemoveDefaultConfig defaults tags)).
Proof. intros w. right. by exists tags. Qed.

End Showing.

(** Follows the binds and the case distinctions of a provider function
    and leaves the remote calls and the assignments to the caller. *)
Ltac along_step :=
  match goal with
  | |- along _ (mret _) => apply along_ret; try apply _
  | |- along _ (_ ≫= _) => apply along_bind; [apply _| |intros]
  | |- along _ (liftM _ _) => apply along_liftM
  | |- along _ (readData _) => first [apply issuing_readData | apply showing_readData]
  | |- along _ (log.Printf _) => first [apply issuing_Printf | apply showing_Printf]
  | |- along _ (match ?x with _ => _ end) => destruct x
  end.

Ltac unfold_schema :=
  unfold schema.Id, schema.IsNewResource, schema.GetString, schema.GetBool,
    schema.GetTags, schema.GetOkTags, schema.Timeout.

Lemma unreserved_Tags_IgnoreAWS (tags : gmap string string) :
  unreserved (Key <$> Tags (tftags.IgnoreAWS tags)).
Proof.
  unfold unreserved, Tags, tftags.IgnoreAWS. rewrite Forall_forall. intros k Hk.
  apply list_elem_of_fmap in Hk as (t & -> & Ht).
  apply list_elem_of_fmap in Ht as ([k v] & -> & Hkv).
  apply elem_of_map_to_list, map_lookup_filter_Some in Hkv as [_ Hp]. exact Hp.
Qed.

Lemma unreserved_KeysOf_IgnoreAWS (tags : gmap string string) :
  unreserved (tftags.KeysOf (tftags.IgnoreAWS tags)).
Proof.
  unfold unreserved, tftags.KeysOf, tftags.IgnoreAWS. rewrite Forall_forall. intros k Hk.
  apply list_elem_of_fmap in Hk as ([k' v] & -> & Hkv).
  apply elem_of_map_to_list, map_lookup_filter_Some in Hkv as [_ Hp]. exact Hp.
Qed.

Section RequestsIssued.

#[local] Existing Instance issuing_preorder.

Lemma ecr_FindRepositoryByName_issuing conn name :
  along (issuing ecrUnreserved) (ecr.FindRepositoryByName conn name).
Proof.
  unfold ecr.FindRepositoryByName, ecr.FindRepository, ecr.DescribeRepositoriesWithContext.
  lazy zeta. repeat along_step; try (apply issuing_invoke; by constructor).
Qed.

Lemma ecr_UpdateTags_issuing conn identifier old new :
  along (issuing ecrUnreserved) (ecr.UpdateTags conn identifier old new).
Proof.
  unfold ecr.UpdateTags, ecr.UntagResourceWithContext, ecr.TagResourceWithContext.
  lazy zeta. repeat along_step; apply issuing_invoke.
  - apply unreserved_KeysOf_IgnoreAWS.
  - apply unreserved_Tags_IgnoreAWS.
Qed.

Lemma ecr_resourceRepositoryRead_issuing X meta conn :
  along (issuing ecrUnreserved) (ecr.resourceRepositoryRead X meta conn).
Proof.
  unfold ecr.resourceRepositoryRead, ecr.ListTags, ecr.ListTagsForResourceWithContext,
    tfresource.RetryWhenNewResourceNotFound, tfresource.RetryWhen.
  unfold_schema. lazy zeta.
  repeat along_step;
    try (apply along_poll; [apply _|]; apply along_liftM, ecr_FindRepositoryByName_issuing);
    try apply issuing_updateData;
    try (apply issuing_invoke; by constructor).
Qed.

Lemma ecr_resourceRepositoryCreate_issuing X meta conn :
  along (issuing ecrUnreserved) (ecr.resourceRepositoryCreate X meta conn).
Proof.
  unfold ecr.resourceRepositoryCreate, ecr.CreateRepositoryWithContext.
  unfold_schema. lazy zeta.
  repeat along_step;
    try apply ecr_resourceRepositoryRead_issuing;
    try apply ecr_UpdateTags_issuing;
    try apply issuing_updateData;
    try (apply issuing_invoke; unfold ecrUnreserved; cbn [ecrSentKeys ecr.ciTags];
         try destruct (tftags.nonEmpty _); cbn [default];
         first [apply unreserved_Tags_IgnoreAWS | by constructor]).
Qed.

Lemma ssm_UpdateTags_issuing conn identifier resourceType old new :
  along (issuing ssmUnreserved) (ssm.UpdateTags conn identifier resourceType old new).
Proof.
  unfold ssm.UpdateTags, ssm.RemoveTagsFromResourceWithContext,
    ssm.AddTagsToResourceWithContext.
  lazy zeta. repeat along_step; apply issuing_invoke.
  - apply unreserved_KeysOf_IgnoreAWS.
  - apply unreserved_Tags_IgnoreAWS.
Qed.

End RequestsIssued.

Section ReadShowing.

Context (X : Externals) (meta : AWSClient).

#[local] Existing Instance showing_preorder.

Ltac showing_leaf :=
  first [ apply showing_invoke | apply showing_SetId | apply showing_SetString
        | apply showing_SetTagsAll | apply showing_SetTags ].

Lemma ecr_FindRepositoryByName_showing conn name :
  along (showing (DefaultTagsConfig meta)) (ecr.FindRepositoryByName conn name).
Proof.
  unfold ecr.FindRepositoryByName, ecr.FindRepository, ecr.DescribeRepositoriesWithContext.
  lazy zeta. repeat along_step; showing_leaf.
Qed.

Lemma ecr_resourceRepositoryRead_showing conn :
  along (showing (DefaultTagsConfig meta)) (ecr.resourceRepositoryRead X meta conn).
Proof.
  unfold ecr.resourceRepositoryRead, ecr.ListTags, ecr.ListTagsForResourceWithContext,
    tfresource.RetryWhenNewResourceNotFound, tfresource.RetryWhen.
  unfold_schema. lazy zeta.
  repeat along_step;
    try (apply along_poll; [apply _|]; apply along_liftM, ecr_FindRepositoryByName_showing);
    showing_leaf.
Qed.

Lemma ecs_resourceTaskSetRead_showing conn :
  along (showing (DefaultTagsConfig meta)) (ecs.resourceTaskSetRead X meta conn).
Proof.
  unfold ecs.resourceTaskSetRead, ecs.DescribeTaskSetsWithContext.
  unfold_schema. lazy zeta.
  repeat along_step; showing_leaf.
Qed.

End ReadShowing.

(** What the default-tag subtraction keeps is a tag of the resource
    that is not an entry of the default tags. *)
Lemma RemoveDefaultConfig_lookup (defaults tags : gmap string string) k v :
  tftags.RemoveDefaultConfig defaults tags !! k = Some v ↔
  tags !! k = Some v ∧ defaults !! k ≠ Some v.
Proof. unfold tftags.RemoveDefaultConfig. by rewrite map_lookup_filter_Some. Qed.

(** Read back from the merged tags, a key that only the default tags
    have is not shown. *)
Lemma RemoveDefaultConfig_MergeTags (defaults resource : gmap string string) k :
  resource !! k = None →
  tftags.RemoveDefaultConfig defaults (tftags.MergeTags defaults resource) !! k = None.
Proof.
  intros Hk.
  destruct (tftags.RemoveDefaultConfig defaults (tftags.MergeTags defaults resource) !! k)
    as [v|] eqn:Hv; [|done].
  apply RemoveDefaultConfig_lookup in Hv as [Hm Hd].
  unfold tftags.MergeTags in Hm. apply lookup_union_Some_raw in Hm as [Hm|[_ Hm]]; congruence.
Qed.


Section TaskSetCreate.

#[local] Existing Instance issuing_preorder.




End TaskSetCreate.

(** * Further properties of the embedded code *)

(** ** Parsing back and formatting again *)

Section SplitBack.

Variable sep : ascii.

Lemma Split_fields_no_sep s : Forall (λ f, hasByte sep f = false) (ecs.Split s sep).
Proof.
  induction s as [|c s IH]; simpl.
  - by repeat constructor.
  - destruct (decide (c = sep)) as [->|Hc].
    + by constructor.
    + destruct (ecs.Split s sep) as [|f fs] eqn:Hs.
      * exfalso. by apply (Split_not_nil sep s).
      * inversion IH; subst. constructor; [|done]. simpl.
        by rewrite bool_decide_eq_false_2.
Qed.

Lemma Join_Split s : Join (ecs.Split s sep) sep = s.
Proof.
  induction s as [|c s IH]; simpl; [done|].
  destruct (decide (c = sep)) as [->|Hc].
  - destruct (ecs.Split s sep) as [|f fs] eqn:Hs.
    + exfalso. by apply (Split_not_nil sep s).
    + change (Join ("" :: f :: fs) sep) with (String sep (Join (f :: fs) sep)).
      by rewrite IH.
  - destruct (ecs.Split s sep) as [|f fs] eqn:Hs.
    + exfalso. by apply (Split_not_nil sep s).
    + destruct fs as [|g gs].
      * cbn in *. by rewrite IH.
      * change (Join (String c f :: g :: gs) sep)
          with (String c (Join (f :: g :: gs) sep)).
        by rewrite IH.
Qed.

Lemma Split_three s a b c :
  ecs.Split s sep = [a; b; c] → s = a ++ String sep (b ++ String sep c).
Proof. intros Hs. rewrite <- (Join_Split s), Hs. done. Qed.

End SplitBack.

(** X1.  An identity that [TaskSetParseID] accepts is made of three
    non-empty parts without comma, and formatting the parts gives the
    identity back; so two identities with the same parts are equal. *)
Theorem TaskSetParseID_accepts id taskSetId service cluster :
  ecs.TaskSetParseID id = inr (taskSetId, service, cluster) →
  ecs.TaskSetFormatID taskSetId service cluster = id
  ∧ taskSetId ≠ "" ∧ service ≠ "" ∧ cluster ≠ ""
  ∧ hasByte "," taskSetId = false ∧ hasByte "," service = false
  ∧ hasByte "," cluster = false
  ∧ ∀ id', ecs.TaskSetParseID id' = inr (taskSetId, service, cluster) → id' = id.
Proof.
  assert (∀ i a b c, ecs.TaskSetParseID i = inr (a, b, c) →
            ecs.Split i "," = [a; b; c] ∧ a ≠ "" ∧ b ≠ "" ∧ c ≠ "") as Hparse.
  { intros i a b c. unfold ecs.TaskSetParseID.
    destruct (ecs.Split i ",") as [|p0 [|p1 [|p2 [|p3 ps]]]]; try done.
    destruct (decide _) as [H|H]; [done|]. intros [= -> -> ->].
    repeat split; try done; intros ->; apply H; auto. }
  intros Hid. destruct (Hparse _ _ _ _ Hid) as (Hsplit & Ha & Hb & Hc).
  pose proof (Split_fields_no_sep "," id) as Hfields. rewrite Hsplit in Hfields.
  apply Forall_cons in Hfields as [Na Hfields].
  apply Forall_cons in Hfields as [Nb Hfields].
  apply Forall_cons in Hfields as [Nc _].
  apply Split_three in Hsplit.
  repeat split; try done.
  intros id' Hid'. destruct (Hparse _ _ _ _ Hid') as (Hsplit' & _).
  apply Split_three in Hsplit'. congruence.
Qed.

Lemma TaskSetParseID_accepts_witness :
  ecs.TaskSetFormatID "ts-1" "web" "main" = "ts-1,web,main"
  ∧ ∀ id', ecs.TaskSetParseID id' = inr ("ts-1", "web", "main") → id' = "ts-1,web,main".
Proof.
  destruct (TaskSetParseID_accepts "ts-1,web,main" "ts-1" "web" "main" eq_refl)
    as (Hformat & _ & _ & _ & _ & _ & _ & Hinj).
  split; [exact Hformat|exact Hinj].
Defined.

(** ** The generated tag conversions *)

Lemma KeyValueTags_from_pairs (l : list (string * string)) :
  NoDup l.*1 →
  KeyValueTags ((λ kv, {| Key := kv.1; Value := kv.2 |}) <$> l) = list_to_map l.
Proof.
  unfold KeyValueTags. induction l as [|[k v] l IH] using rev_ind; intros Hnodup; [done|].
  rewrite fmap_app, foldl_app. cbn [fmap list_fmap foldl Key Value fst snd].
  rewrite fmap_app in Hnodup. apply NoDup_app in Hnodup as (Hl & Hk & _).
  rewrite IH by done. rewrite list_to_map_snoc; [done|].
  intros Hin. apply (Hk k Hin). cbn. by left.
Qed.

(** X2.  Turning a tag set into the slice of the service and back gives
    the tag set. *)
Theorem KeyValueTags_Tags (tags : gmap string string) : KeyValueTags (Tags tags) = tags.
Proof.
  unfold Tags. rewrite KeyValueTags_from_pairs by apply NoDup_fst_map_to_list.
  apply list_to_map_to_list.
Qed.

Lemma KeyValueTags_snoc ts t :
  KeyValueTags (ts ++ [t]) = <[Key t := Value t]> (KeyValueTags ts).
Proof. unfold KeyValueTags. by rewrite foldl_app. Qed.

(** X3.  In a slice that names a key more than once, the last tag of
    the key decides its value; a key that no tag names is absent. *)
Theorem KeyValueTags_last_wins (before after : list Tag) (t : Tag) :
  (Key t ∉ Key <$> after → KeyValueTags (before ++ t :: after) !! Key t = Some (Value t))
  ∧ (∀ k ts, k ∉ Key <$> ts → KeyValueTags ts !! k = None).
Proof.
  assert (∀ k ts, k ∉ Key <$> ts →
            ∀ start : gmap string string,
              foldl (λ m u, <[Key u := Value u]> m) start ts !! k = start !! k) as Hkeep.
  { intros k ts. induction ts as [|u ts IH]; intros Hk start; [done|].
    rewrite fmap_cons, not_elem_of_cons in Hk. destruct Hk as [Hu Hk].
    cbn [foldl]. rewrite IH by done. by rewrite lookup_insert_ne. }
  split.
  - intros Hafter. unfold KeyValueTags. rewrite foldl_app. cbn [foldl].
    rewrite Hkeep by done. by rewrite lookup_insert_eq.
  - intros k ts Hk. unfold KeyValueTags. by rewrite Hkeep.
Qed.

Lemma KeyValueTags_last_wins_witness :
  KeyValueTags ([{| Key := "env"; Value := "dev" |}]
                ++ {| Key := "env"; Value := "prod" |} :: [{| Key := "team"; Value := "infra" |}])
    !! "env" = Some "prod".
Proof.
  apply (proj1 (KeyValueTags_last_wins [{| Key := "env"; Value := "dev" |}]
                  [{| Key := "team"; Value := "infra" |}]
                  {| Key := "env"; Value := "prod" |})).
  cbn. rewrite list_elem_of_singleton. discriminate.
Defined.

Lemma Removed_same (tags : gmap string string) : tftags.Removed tags tags = ∅.
Proof.
  unfold tftags.Removed. apply map_empty_filter. intros k v Hk. cbn. congruence.
Qed.

Lemma Updated_same (tags : gmap string string) : tftags.Updated tags tags = ∅.
Proof.
  unfold tftags.Updated. apply map_empty_filter. intros k v Hk Hne. cbn in Hne. done.
Qed.

(** X4.  [UpdateTags] of ssm with the same old and new tags issues no
    remote call and returns no error. *)
Theorem ssm_UpdateTags_same conn identifier resourceType (tags : gmap string string)
    (w : World ssm.Request) :
  ssm.UpdateTags conn identifier resourceType tags tags w = (None, w).
Proof.
  unfold ssm.UpdateTags. rewrite Removed_same, Updated_same, nonEmpty_empty.
  by destruct w.
Qed.

(** X5.  [UpdateTags] of ssm removes before it adds, and stops at the
    first failure: when the removal is rejected, no tag is added and
    the error returned wraps the remote one, so its code is still
    visible; when both calls pass, the removal comes first in the log. *)
Theorem ssm_UpdateTags_order conn identifier resourceType (old new : gmap string string)
    (w : World ssm.Request) :
  let removal := ssm.RemoveTagsFromResource identifier resourceType
                   (tftags.KeysOf (tftags.IgnoreAWS (tftags.Removed old new))) in
  let addition := ssm.AddTagsToResource identifier resourceType
                    (Tags (tftags.IgnoreAWS (tftags.Updated old new))) in
  tftags.nonEmpty (tftags.Removed old new) = true →
  (∀ e,
     ssm.onRemoveTagsFromResource conn (length (calls w)) identifier resourceType
       (tftags.KeysOf (tftags.IgnoreAWS (tftags.Removed old new))) = Some e →
     let '(err, w') := ssm.UpdateTags conn identifier resourceType old new w in
     err = Some (ErrorfW ("untagging resource (" ++ identifier ++ "): ") e)
     ∧ (∀ codes, tfawserr.ErrCodeEquals err codes = tfawserr.ErrCodeEquals (Some e) codes)
     ∧ calls w' = (calls w ++ [removal])%list)
  ∧ (tftags.nonEmpty (tftags.Updated old new) = true →
     ssm.onRemoveTagsFromResource conn (length (calls w)) identifier resourceType
       (tftags.KeysOf (tftags.IgnoreAWS (tftags.Removed old new))) = None →
     ssm.onAddTagsToResource conn (S (length (calls w))) identifier resourceType
       (Tags (tftags.IgnoreAWS (tftags.Updated old new))) = None →
     let '(err, w') := ssm.UpdateTags conn identifier resourceType old new w in
     err = None ∧ calls w' = (calls w ++ [removal; addition])%list).
Proof.
  intros removal addition Hremoved. split.
  - intros e Hfail.
    unfold ssm.UpdateTags, ssm.RemoveTagsFromResourceWithContext. rewrite Hremoved.
    run. rewrite Hfail. done.
  - intros Hupdated Hremove Hadd.
    unfold ssm.UpdateTags, ssm.RemoveTagsFromResourceWithContext,
      ssm.AddTagsToResourceWithContext. rewrite Hremoved, Hupdated.
    run. rewrite Hremove. step. rewrite length_app, Nat.add_comm. step.
    rewrite Hadd. by rewrite <- app_assoc.
Qed.

Lemma ssm_UpdateTags_order_witness :
  let '(err, w') :=
    ssm.UpdateTags refusingParameters "/app/key" "Parameter"
      {[ "env" := "prod" ]} ∅ (start noData) in
  err = Some (ErrorfW "untagging resource (/app/key): "
                (AwsError "InvalidResourceId" "no such parameter"))
  ∧ (∀ codes, tfawserr.ErrCodeEquals err codes
              = tfawserr.ErrCodeEquals
                  (Some (AwsError "InvalidResourceId" "no such parameter")) codes)
  ∧ calls w' = [ssm.RemoveTagsFromResource "/app/key" "Parameter" ["env"]].
Proof.
  exact (proj1 (ssm_UpdateTags_order refusingParameters "/app/key" "Parameter"
                  {[ "env" := "prod" ]} ∅ (start noData) eq_refl)
           (AwsError "InvalidResourceId" "no such parameter") eq_refl).
Defined.

(** ** What the finder returns *)

(** X6.  A record that [FindRepositoryByName] returns bears the
    requested name and was the only entry of an answer without error;
    the finder never returns a record under another name.  It issues
    exactly one describe call, for the requested name, and leaves the
    resource data alone. *)
Theorem FindRepositoryByName_returns (conn : ecr.Conn) (name : string)
    (w : World ecr.Request) (repository : ecr.Repository) :
  (ecr.FindRepositoryByName conn name w).1 = inr repository →
  aws.StringValue (ecr.RepositoryName repository) = name
  ∧ ecr.onDescribeRepositories conn (length (calls w)) {| ecr.RepositoryNames := [name] |}
    = describes [Some repository]
  ∧ calls (ecr.FindRepositoryByName conn name w).2
    = (calls w ++ [ecr.DescribeRepositories {| ecr.RepositoryNames := [name] |}])%list
  ∧ d (ecr.FindRepositoryByName conn name w).2 = d w.
Proof.
  intros Hfound. rewrite FindRepositoryByName_world. cbn [calls d].
  cut (aws.StringValue (ecr.RepositoryName repository) = name
       ∧ ecr.onDescribeRepositories conn (length (calls w))
           {| ecr.RepositoryNames := [name] |} = describes [Some repository]).
  { intros [? ?]. done. }
  revert Hfound.
  unfold ecr.FindRepositoryByName, ecr.FindRepository, ecr.DescribeRepositoriesWithContext,
    describes.
  run. destruct (ecr.onDescribeRepositories _ _ _) as [output err].
  destruct (tfawserr.ErrCodeEquals err _); [done|].
  destruct err; [done|].
  destruct output as [[[|[first|] rest]]|]; cbn; try done.
  case_bool_decide as Hcount; [done|]. cbn.
  case_bool_decide as Hname; [done|]. cbn. intros [= ->].
  destruct rest; [|cbn in Hcount; lia].
  split; [|done]. by destruct (decide (aws.StringValue (ecr.RepositoryName repository) = name)).
Qed.

Lemma FindRepositoryByName_returns_witness :
  let conn := ecrService "aws" (describes [Some (sampleRepository "app")]) creates None None in
  aws.StringValue (ecr.RepositoryName (sampleRepository "app")) = "app"
  ∧ ecr.onDescribeRepositories conn 0 {| ecr.RepositoryNames := ["app"] |}
    = describes [Some (sampleRepository "app")]
  ∧ calls (ecr.FindRepositoryByName conn "app" (start noData)).2
    = [ecr.DescribeRepositories {| ecr.RepositoryNames := ["app"] |}]
  ∧ d (ecr.FindRepositoryByName conn "app" (start noData)).2 = noData.
Proof.
  intros conn.
  exact (FindRepositoryByName_returns conn "app" (start noData) (sampleRepository "app")
           eq_refl).
Defined.

(** ** What Read and Delete never issue *)

Section NeverIssued.

#[local] Existing Instance issuing_preorder.

Lemma ecr_FindRepositoryByName_read_only conn name :
  along (issuing ecrReadOnly) (ecr.FindRepositoryByName conn name).
Proof.
  unfold ecr.FindRepositoryByName, ecr.FindRepository, ecr.DescribeRepositoriesWithContext.
  lazy zeta. repeat along_step; by apply issuing_invoke.
Qed.

Lemma ecr_FindRepositoryByName_describes conn name :
  along (issuing ecrDeleteOrDescribe) (ecr.FindRepositoryByName conn name).
Proof.
  unfold ecr.FindRepositoryByName, ecr.FindRepository, ecr.DescribeRepositoriesWithContext.
  lazy zeta. repeat along_step; by apply issuing_invoke.
Qed.

(** X7.  Read of the repository and Read of the task set issue only
    describe and list-tags calls, whatever the remote service answers;
    Delete of the repository issues only the delete call and describe
    calls: none of them creates, tags or untags. *)
Theorem Read_and_Delete_requests :
  (∀ X meta conn, along (issuing ecrReadOnly) (ecr.resourceRepositoryRead X meta conn))
  ∧ (∀ X meta conn, along (issuing ecsReadOnly) (ecs.resourceTaskSetRead X meta conn))
  ∧ (∀ X meta conn,
       along (issuing ecrDeleteOrDescribe) (ecr.resourceRepositoryDelete X meta conn)).
Proof.
  repeat apply conj; intros X meta conn.
  - unfold ecr.resourceRepositoryRead, ecr.ListTags, ecr.ListTagsForResourceWithContext,
      tfresource.RetryWhenNewResourceNotFound, tfresource.RetryWhen.
    unfold_schema. lazy zeta.
    repeat along_step;
      try (apply along_poll; [apply _|]; apply along_liftM, ecr_FindRepositoryByName_read_only);
      try apply issuing_updateData;
      by apply issuing_invoke.
  - unfold ecs.resourceTaskSetRead, ecs.DescribeTaskSetsWithContext.
    unfold_schema. lazy zeta.
    repeat along_step; try apply issuing_updateData; by apply issuing_invoke.
  - unfold ecr.resourceRepositoryDelete, ecr.DeleteRepositoryWithContext,
      tfresource.RetryUntilNotFound, tfresource.RetryWhen.
    unfold_schema. lazy zeta.
    repeat along_step;
      try (apply along_poll; [apply _|]; apply along_liftM, ecr_FindRepositoryByName_describes);
      by apply issuing_invoke.
Qed.

End NeverIssued.

(** ** Read of a repository that is found *)

Lemma bind_run {R A B} (m : M R A) (f : A → M R B) (w : World R) :
  (m ≫= f) w = f (m w).1 (m w).2.
Proof. unfold mbind, M_bind. by destruct (m w). Qed.

(** Runs the provider function one bind at a time, so that the world
    stays a flat record. *)
Ltac exec1 :=
  rewrite bind_run;
  cbn [fst snd d calls logged length app
       rdId rdIsNewResource rdStrings rdBools rdTags rdTagsAll rdTimeouts
       readData updateData invoke log.Printf liftM
       schema.Id schema.IsNewResource schema.SetId schema.GetString schema.GetBool
       schema.GetTags schema.GetOkTags schema.Timeout schema.SetString schema.SetTags
       schema.SetTagsAll].

Ltac settle :=
  unfold mret, M_ret;
  cbn [fst snd d calls logged
       rdId rdIsNewResource rdStrings rdBools rdTags rdTagsAll rdTimeouts].

Ltac exec := repeat exec1; settle.

(** A probe that succeeds at the first poll ends the engine at once. *)
Lemma poll_first_success {R A} n (f : M R (option A * option error)) retryable last
    (w : World R) o w1 :
  f w = ((o, None), w1) → retryable None = (false, None) →
  tfresource.poll (S n) f retryable last w = ((o, None), w1).
Proof.
  intros Hf Hr. cbn [tfresource.poll]. unfold mbind, M_bind.
  rewrite Hf. cbn [snd fst]. by rewrite Hr.
Qed.

(** The finder on an answer that holds the requested repository alone. *)
Lemma FindRepositoryByName_found conn name (w : World ecr.Request) repository :
  ecr.onDescribeRepositories conn (length (calls w)) {| ecr.RepositoryNames := [name] |}
  = describes [Some repository] →
  aws.StringValue (ecr.RepositoryName repository) = name →
  ecr.FindRepositoryByName conn name w
  = (inr repository,
     {| d := d w;
        calls := calls w ++ [ecr.DescribeRepositories {| ecr.RepositoryNames := [name] |}];
        logged := logged w |}).
Proof.
  intros Hdescribe Hname.
  unfold ecr.FindRepositoryByName, ecr.FindRepository, ecr.DescribeRepositoriesWithContext.
  run. rewrite Hdescribe. cbn.
  rewrite (bool_decide_eq_false_2 (1 < 1)) by lia. cbn.
  by rewrite bool_decide_eq_false_2 by (intros Hn; by apply Hn).
Qed.

(** X8.  Read of a repository that the finder finds and whose tags are
    listed returns no diagnostic and keeps the identity.  It issues the
    describe call and the list-tags call; the name attribute is the
    identity; [tags_all] holds the remote tags without the ignored
    ones, [tags] is [tags_all] without the entries of the default tags,
    and so every shown tag is a tag of [tags_all]. *)
Theorem resourceRepositoryRead_found (X : Externals) (meta : AWSClient) (conn : ecr.Conn)
    (w : World ecr.Request) (repository : ecr.Repository) (listed : list Tag) :
  let arn := aws.StringValue (ecr.RepositoryArn repository) in
  let all := tftags.IgnoreConfig (IgnoreTagsConfig meta)
               (tftags.IgnoreAWS (KeyValueTags listed)) in
  ecr.onDescribeRepositories conn (length (calls w))
    {| ecr.RepositoryNames := [rdId (d w)] |} = describes [Some repository] →
  aws.StringValue (ecr.RepositoryName repository) = rdId (d w) →
  ecr.onListTagsForResource conn (S (length (calls w))) arn = (listed, None) →
  let '(r, w') := ecr.resourceRepositoryRead X meta conn w in
  r = Ret []
  ∧ rdId (d w') = rdId (d w)
  ∧ rdStrings (d w') !! "name" = Some (rdId (d w))
  ∧ rdStrings (d w') !! "arn" = Some arn
  ∧ rdTagsAll (d w') = all
  ∧ rdTags (d w') = tftags.RemoveDefaultConfig (DefaultTagsConfig meta) all
  ∧ rdTags (d w') ⊆ rdTagsAll (d w')
  ∧ calls w' = (calls w ++ [ecr.DescribeRepositories {| ecr.RepositoryNames := [rdId (d w)] |};
                            ecr.ListTagsForResource arn])%list.
Proof.
  intros arn all Hdescribe Hname Hlist.
  unfold ecr.resourceRepositoryRead, tfresource.RetryWhenNewResourceNotFound,
    tfresource.RetryWhen, tfresource.maxPolls, ecr.ListTags,
    ecr.ListTagsForResourceWithContext.
  exec.
  erewrite poll_first_success; [| |by rewrite andb_false_r].
  2: { unfold liftM. by rewrite (FindRepositoryByName_found _ _ _ _ Hdescribe Hname). }
  cbn [fst snd tfresource.NotFound]. rewrite andb_false_r.
  exec. fold arn. rewrite length_app, Nat.add_comm. cbn [length Nat.add]. rewrite Hlist.
  settle. rewrite ErrorISOUnsupported_None, andb_false_r.
  exec. fold all. rewrite <- app_assoc.
  repeat split; try done.
  - rewrite !lookup_insert_ne by done. rewrite lookup_insert_eq.
    unfold aws.StringValue in *. by rewrite Hname.
  - by rewrite !lookup_insert_ne, lookup_insert_eq by done.
  - unfold tftags.RemoveDefaultConfig. apply map_filter_subseteq.
Qed.

Lemma resourceRepositoryRead_found_witness :
  let conn := ecrService "aws" (describes [Some (sampleRepository "app")]) creates None None in
  let '(r, w') :=
    ecr.resourceRepositoryRead sampleExternals isoMeta conn
      (start (repositoryData "app" false ∅)) in
  r = Ret []
  ∧ rdId (d w') = "app"
  ∧ rdStrings (d w') !! "name" = Some "app"
  ∧ rdStrings (d w') !! "arn" = Some "arn:aws-iso:ecr:repository/app"
  ∧ rdTagsAll (d w') = ∅
  ∧ rdTags (d w') = tftags.RemoveDefaultConfig {[ "env" := "prod" ]} ∅
  ∧ rdTags (d w') ⊆ rdTagsAll (d w')
  ∧ calls w' = [ecr.DescribeRepositories {| ecr.RepositoryNames := ["app"] |};
                ecr.ListTagsForResource "arn:aws-iso:ecr:repository/app"].
Proof.
  intros conn.
  pose proof (resourceRepositoryRead_found sampleExternals isoMeta conn
                (start (repositoryData "app" false ∅)) (sampleRepository "app") []
                eq_refl eq_refl eq_refl) as H.
  destruct (ecr.resourceRepositoryRead _ _ _ _) as [r w'].
  destruct H as (Hr & Hid & Hname & Harn & Hall & Htags & Hsub & Hcalls).
  repeat split; assumption.
Defined.

(** X9.  Read of a repository that is found but whose tags cannot be
    listed: on a partition other than the default one, an error with
    the unsupported signature is logged and Read returns no diagnostic,
    leaving [tags] and [tags_all] as they were; any other error is
    returned as an error diagnostic. *)
Theorem resourceRepositoryRead_tags_unlisted (X : Externals) (meta : AWSClient)
    (conn : ecr.Conn) (w : World ecr.Request) (repository : ecr.Repository) listed e :
  let arn := aws.StringValue (ecr.RepositoryArn repository) in
  let downgraded := negb (bool_decide (Partition meta = verify.AwsPartitionID))
                    && verify.ErrorISOUnsupported X (ecr.PartitionID conn) (Some e) in
  ecr.onDescribeRepositories conn (length (calls w))
    {| ecr.RepositoryNames := [rdId (d w)] |} = describes [Some repository] →
  aws.StringValue (ecr.RepositoryName repository) = rdId (d w) →
  ecr.onListTagsForResource conn (S (length (calls w))) arn = (listed, Some e) →
  let '(r, w') := ecr.resourceRepositoryRead X meta conn w in
  rdTags (d w') = rdTags (d w) ∧ rdTagsAll (d w') = rdTagsAll (d w)
  ∧ rdId (d w') = rdId (d w)
  ∧ (downgraded = true →
     r = Ret []
     ∧ last (logged w') = Some ("[WARN] failed listing tags for ECR Repository ("
                                ++ rdId (d w) ++ "): " ++ errorString e))
  ∧ (downgraded = false →
     r = Ret [{| severity := SevError;
                 summary := "listing tags for ECR Repository (" ++ rdId (d w) ++ "): "
                            ++ errorString e |}]).
Proof.
  intros arn downgraded Hdescribe Hname Hlist.
  unfold ecr.resourceRepositoryRead, tfresource.RetryWhenNewResourceNotFound,
    tfresource.RetryWhen, tfresource.maxPolls, ecr.ListTags,
    ecr.ListTagsForResourceWithContext.
  exec.
  erewrite poll_first_success; [| |by rewrite andb_false_r].
  2: { unfold liftM. by rewrite (FindRepositoryByName_found _ _ _ _ Hdescribe Hname). }
  cbn [fst snd tfresource.NotFound]. rewrite andb_false_r.
  exec. fold arn. rewrite length_app, Nat.add_comm. cbn [length Nat.add]. rewrite Hlist.
  settle. fold downgraded. destruct downgraded; exec.
  - repeat split; try done. by rewrite last_snoc.
  - repeat split; done.
Qed.

Lemma resourceRepositoryRead_tags_unlisted_witness :
  let conn := ecrService "aws-iso" (describes [Some (sampleRepository "app")]) creates None
                (Some (AwsError "UnsupportedOperation" "tagging is not supported")) in
  let '(r, w') :=
    ecr.resourceRepositoryRead sampleExternals isoMeta conn
      (start (repositoryData "app" false {[ "team" := "infra" ]})) in
  r = Ret [] ∧ rdTags (d w') = {[ "team" := "infra" ]}.
Proof.
  intros conn.
  pose proof (resourceRepositoryRead_tags_unlisted sampleExternals isoMeta conn
                (start (repositoryData "app" false {[ "team" := "infra" ]}))
                (sampleRepository "app") []
                (AwsError "UnsupportedOperation" "tagging is not supported")
                eq_refl eq_refl eq_refl) as H.
  destruct (ecr.resourceRepositoryRead _ _ _ _) as [r w'].
  cbv zeta in H. destruct H as (Htags & _ & _ & Hdown & _).
  split; [exact (proj1 (Hdown eq_refl))|exact Htags].
Defined.

(** ** Create of a repository *)

(** X10.  Create of a repository whose create call fails.  When the
    request carries no tags, or the partition is the default one, or
    the error does not bear the unsupported signature, the call is not
    repeated: Create returns the error after the one call and leaves
    the resource data alone.  When the call is repeated without tags
    and fails again, Create returns the second error after the two
    calls, without any tagging call. *)
Theorem resourceRepositoryCreate_fails (X : Externals) (meta : AWSClient)
    (conn : ecr.Conn) (w : World ecr.Request) out1 e1 :
  let tags := tftags.MergeTags (DefaultTagsConfig meta) (rdTags (d w)) in
  let name := default "" (rdStrings (d w) !! "name") in
  let mutability := default "" (rdStrings (d w) !! "image_tag_mutability") in
  let input := {| ecr.ciImageTagMutability := mutability; ecr.ciRepositoryName := name;
                  ecr.ciTags := if tftags.nonEmpty tags
                                then Some (Tags (tftags.IgnoreAWS tags)) else None |} in
  let bare := {| ecr.ciImageTagMutability := mutability; ecr.ciRepositoryName := name;
                 ecr.ciTags := None |} in
  let repeated := tftags.nonEmpty tags
                  && negb (bool_decide (Partition meta = verify.AwsPartitionID))
                  && verify.ErrorISOUnsupported X (ecr.PartitionID conn) (Some e1) in
  ecr.onCreateRepository conn (length (calls w)) input = (out1, Some e1) →
  (repeated = false →
   let '(r, w') := ecr.resourceRepositoryCreate X meta conn w in
   r = Ret [{| severity := SevError;
               summary := "creating ECR Repository (" ++ name ++ "): " ++ errorString e1 |}]
   ∧ calls w' = (calls w ++ [ecr.CreateRepository input])%list
   ∧ d w' = d w)
  ∧ (∀ out2 e2,
       repeated = true →
       ecr.onCreateRepository conn (S (length (calls w))) bare = (out2, Some e2) →
       let '(r, w') := ecr.resourceRepositoryCreate X meta conn w in
       r = Ret [{| severity := SevError;
                   summary := "creating ECR Repository (" ++ name ++ "): "
                              ++ errorString e2 |}]
       ∧ calls w' = (calls w ++ [ecr.CreateRepository input; ecr.CreateRepository bare])%list
       ∧ d w' = d w).
Proof.
  intros tags name mutability input bare repeated Hcreate.
  assert (bool_decide (is_Some (ecr.ciTags input)) = tftags.nonEmpty tags) as Hsome.
  { unfold input. cbn [ecr.ciTags]. destruct (tftags.nonEmpty tags).
    - by rewrite bool_decide_eq_true_2 by (by eexists).
    - rewrite bool_decide_eq_false_2; [done|]. by intros [? ?]. }
  split.
  - intros Hrepeated.
    unfold ecr.resourceRepositoryCreate, ecr.CreateRepositoryWithContext.
    exec. fold tags name mutability input. rewrite Hcreate. settle.
    rewrite Hsome. fold repeated. rewrite Hrepeated. exec. by destruct (d w).
  - intros out2 e2 Hrepeated Hcreate2.
    unfold ecr.resourceRepositoryCreate, ecr.CreateRepositoryWithContext.
    exec. fold tags name mutability input. rewrite Hcreate. settle.
    rewrite Hsome. fold repeated. rewrite Hrepeated. exec.
    rewrite length_app, Nat.add_comm. cbn [length Nat.add].
    change (ecr.ciImageTagMutability input) with mutability.
    change (ecr.ciRepositoryName input) with name. fold bare.
    rewrite Hcreate2. exec. rewrite <- app_assoc. by destruct (d w).
Qed.

Lemma resourceRepositoryCreate_fails_witness :
  let refusing e := ecrService "aws-iso" (describes []) (λ _, (None, Some e)) None None in
  let throttled := AwsError "LimitExceededException" "too many repositories" in
  let unsupported := AwsError "UnsupportedOperation" "tagging is not supported" in
  let w := start (repositoryData "app" true ∅) in
  length (calls (ecr.resourceRepositoryCreate sampleExternals isoMeta (refusing throttled) w).2) = 1
  ∧ length (calls (ecr.resourceRepositoryCreate sampleExternals isoMeta
                     (refusing unsupported) w).2) = 2.
Proof.
  intros refusing throttled unsupported w. split.
  - pose proof (resourceRepositoryCreate_fails sampleExternals isoMeta (refusing throttled) w
                  None throttled eq_refl) as [H _].
    specialize (H eq_refl).
    destruct (ecr.resourceRepositoryCreate _ _ _ _) as [r w'].
    destruct H as (_ & H & _). cbn [snd]. rewrite H. reflexivity.
  - pose proof (resourceRepositoryCreate_fails sampleExternals isoMeta (refusing unsupported) w
                  None unsupported eq_refl) as [_ H].
    specialize (H None unsupported eq_refl eq_refl).
    destruct (ecr.resourceRepositoryCreate _ _ _ _) as [r w'].
    destruct H as (_ & H & _). cbn [snd]. rewrite H. reflexivity.
Defined.

Lemma liftM_appendDiags_nil (m : M ecr.Request (go Diagnostics)) w :
  liftM (appendDiags []) m w = m w.
Proof. unfold liftM. destruct (m w) as [[|] w1]; done. Qed.

(** X11.  Create of a repository whose first create call succeeds sets
    the identity to the name of the created repository and returns what
    Read returns from there: the create call is the only call before
    Read, so the tags go out once, inside the create request. *)
Theorem resourceRepositoryCreate_succeeds (X : Externals) (meta : AWSClient)
    (conn : ecr.Conn) (w : World ecr.Request) repository :
  let tags := tftags.MergeTags (DefaultTagsConfig meta) (rdTags (d w)) in
  let input := {| ecr.ciImageTagMutability :=
                    default "" (rdStrings (d w) !! "image_tag_mutability");
                  ecr.ciRepositoryName := default "" (rdStrings (d w) !! "name");
                  ecr.ciTags := if tftags.nonEmpty tags
                                then Some (Tags (tftags.IgnoreAWS tags)) else None |} in
  ecr.onCreateRepository conn (length (calls w)) input
  = (Some {| ecr.coRepository := Some repository |}, None) →
  ∃ w1, ecr.resourceRepositoryCreate X meta conn w = ecr.resourceRepositoryRead X meta conn w1
        ∧ rdId (d w1) = aws.StringValue (ecr.RepositoryName repository)
        ∧ calls w1 = (calls w ++ [ecr.CreateRepository input])%list
        ∧ logged w1 = logged w
        ∧ rdIsNewResource (d w1) = rdIsNewResource (d w)
        ∧ rdTags (d w1) = rdTags (d w).
Proof.
  intros tags input Hcreate.
  unfold ecr.resourceRepositoryCreate, ecr.CreateRepositoryWithContext.
  exec. fold tags input. rewrite Hcreate. settle.
  rewrite ErrorISOUnsupported_None, !andb_false_r. exec.
  cbn [mbind option_bind ecr.coRepository]. exec.
  assert (bool_decide (ecr.ciTags input = None) && tftags.nonEmpty tags = false) as ->.
  { unfold input. cbn [ecr.ciTags]. by destruct (tftags.nonEmpty tags). }
  cbn [andb]. rewrite liftM_appendDiags_nil.
  eexists. split; [reflexivity|]. by cbn.
Qed.

Lemma resourceRepositoryCreate_succeeds_witness :
  let conn := ecrService "aws" (describes [Some (sampleRepository "app")]) creates None None in
  ∃ w1, ecr.resourceRepositoryCreate sampleExternals isoMeta conn
          (start (repositoryData "app" true ∅))
        = ecr.resourceRepositoryRead sampleExternals isoMeta conn w1
        ∧ rdId (d w1) = "app"
        ∧ calls w1 = [ecr.CreateRepository
                        {| ecr.ciImageTagMutability := "MUTABLE";
                           ecr.ciRepositoryName := "app";
                           ecr.ciTags := Some [{| Key := "env"; Value := "prod" |}] |}].
Proof.
  intros conn.
  destruct (resourceRepositoryCreate_succeeds sampleExternals isoMeta conn
              (start (repositoryData "app" true ∅)) (sampleRepository "app") eq_refl)
    as (w1 & Hrun & Hid & Hcalls & _).
  exists w1. repeat split; assumption.
Defined.

(** X12.  Create of a repository on a partition without tag-on-create,
    when the deferred tagging call passes: the create call with tags is
    rejected, the create call without tags succeeds, one tagging call
    writes the very tags the first request carried, and Create returns
    what Read returns from there. *)
Theorem resourceRepositoryCreate_deferred_tagging_passes (X : Externals) (meta : AWSClient)
    (conn : ecr.Conn) (w : World ecr.Request) out1 e1 repository :
  let tags := tftags.MergeTags (DefaultTagsConfig meta) (rdTags (d w)) in
  let name := default "" (rdStrings (d w) !! "name") in
  let mutability := default "" (rdStrings (d w) !! "image_tag_mutability") in
  let input := {| ecr.ciImageTagMutability := mutability; ecr.ciRepositoryName := name;
                  ecr.ciTags := Some (Tags (tftags.IgnoreAWS tags)) |} in
  let bare := {| ecr.ciImageTagMutability := mutability; ecr.ciRepositoryName := name;
                 ecr.ciTags := None |} in
  let arn := aws.StringValue (ecr.RepositoryArn repository) in
  tftags.nonEmpty tags = true →
  Partition meta ≠ verify.AwsPartitionID →
  ecr.onCreateRepository conn (length (calls w)) input = (out1, Some e1) →
  verify.ErrorISOUnsupported X (ecr.PartitionID conn) (Some e1) = true →
  ecr.onCreateRepository conn (S (length (calls w))) bare
  = (Some {| ecr.coRepository := Some repository |}, None) →
  ecr.onTagResource conn (S (S (length (calls w)))) arn (Tags (tftags.IgnoreAWS tags))
  = None →
  ∃ w2, ecr.resourceRepositoryCreate X meta conn w = ecr.resourceRepositoryRead X meta conn w2
        ∧ rdId (d w2) = aws.StringValue (ecr.RepositoryName repository)
        ∧ calls w2 = (calls w ++ [ecr.CreateRepository input; ecr.CreateRepository bare;
                                  ecr.TagResource arn (default [] (ecr.ciTags input))])%list.
Proof.
  intros tags name mutability input bare arn Htags Hpartition Hcreate1 Hiso1 Hcreate2 Htag.
  unfold ecr.resourceRepositoryCreate, ecr.CreateRepositoryWithContext.
  exec. fold tags name mutability. rewrite Htags. fold input. rewrite Hcreate1. settle.
  cbn [ecr.ciTags].
  rewrite (bool_decide_eq_true_2 (is_Some _)) by (by eexists).
  rewrite (bool_decide_eq_false_2 (Partition meta = _)) by done.
  rewrite Hiso1. cbn [andb negb]. exec.
  rewrite length_app, Nat.add_comm. cbn [length Nat.add].
  change (ecr.ciImageTagMutability input) with mutability.
  change (ecr.ciRepositoryName input) with name. fold bare.
  rewrite Hcreate2. exec. cbn [mbind option_bind ecr.coRepository]. exec.
  change (ecr.ciTags bare) with (@None (list Tag)).
  rewrite (bool_decide_eq_true_2 (None = None)) by done.
  cbn [andb negb]. fold arn.
  rewrite bind_run, ecr_UpdateTags_from_nothing by done.
  cbn [fst snd d calls logged].
  match goal with
  | |- context [ecr.onTagResource conn ?n _ _] =>
      replace n with (S (S (length (calls w))))
        by (rewrite ?length_app; cbn [length]; lia)
  end.
  rewrite Htag. exec. rewrite ErrorISOUnsupported_None, andb_false_r.
  rewrite liftM_appendDiags_nil.
  eexists. split; [reflexivity|]. cbn. split; [done|]. by rewrite <- !app_assoc.
Qed.

Lemma resourceRepositoryCreate_deferred_tagging_passes_witness :
  let conn := ecrService "aws-iso" (describes [])
                (λ input, match ecr.ciTags input with
                          | Some _ => (None, Some (AwsError "UnsupportedOperation" "no tags"))
                          | None => creates input
                          end) None None in
  ∃ w2, ecr.resourceRepositoryCreate sampleExternals isoMeta conn
          (start (repositoryData "app" true ∅))
        = ecr.resourceRepositoryRead sampleExternals isoMeta conn w2
        ∧ rdId (d w2) = "app"
        ∧ calls w2
          = [ecr.CreateRepository
               {| ecr.ciImageTagMutability := "MUTABLE"; ecr.ciRepositoryName := "app";
                  ecr.ciTags := Some [{| Key := "env"; Value := "prod" |}] |};
             ecr.CreateRepository
               {| ecr.ciImageTagMutability := "MUTABLE"; ecr.ciRepositoryName := "app";
                  ecr.ciTags := None |};
             ecr.TagResource "arn:aws-iso:ecr:repository/app"
               [{| Key := "env"; Value := "prod" |}]].
Proof.
  intros conn.
  destruct (resourceRepositoryCreate_deferred_tagging_passes sampleExternals isoMeta conn
              (start (repositoryData "app" true ∅)) None
              (AwsError "UnsupportedOperation" "no tags") (sampleRepository "app"))
    as (w2 & Hrun & Hid & Hcalls); try reflexivity; [discriminate|].
  exists w2. repeat split; assumption.
Defined.

(** ** The solution stack data source *)

(** X13.  The filter loop of the data source dereferences every entry of
    the response: one nil entry anywhere in the list makes the loop, and
    with it the whole lookup, panic, whatever the other names are and
    whether or not they match; the resource data is not written. *)
Theorem dataSourceSolutionStackRead_nil_entry (X : Externals)
    (conn : elasticbeanstalk.Conn) (w : World elasticbeanstalk.Request)
    (stacks : list (option string)) :
  None ∈ stacks →
  elasticbeanstalk.onListAvailableSolutionStacks conn (length (calls w))
  = (Some {| elasticbeanstalk.SolutionStacks := stacks |}, None) →
  (∀ nameRegex filtered,
     elasticbeanstalk.filterSolutionStacks X nameRegex stacks filtered
     = Panic "invalid memory address or nil pointer dereference")
  ∧ let '(r, w') := elasticbeanstalk.dataSourceSolutionStackRead X conn w in
    r = Panic "invalid memory address or nil pointer dereference"
    ∧ d w' = d w.
Proof.
  intros Hnil Hlist.
  assert (∀ nameRegex filtered,
            elasticbeanstalk.filterSolutionStacks X nameRegex stacks filtered
            = Panic "invalid memory address or nil pointer dereference") as Hloop.
  { intros nameRegex. clear Hlist.
    induction stacks as [|[name|] stacks IH]; intros filtered.
    - by apply elem_of_nil in Hnil.
    - cbn [elasticbeanstalk.filterSolutionStacks].
      apply elem_of_cons in Hnil as [?|Hnil]; [done|].
      destruct (regexpMatchString X nameRegex name); by apply IH.
    - done. }
  split; [exact Hloop|].
  unfold elasticbeanstalk.dataSourceSolutionStackRead,
    elasticbeanstalk.ListAvailableSolutionStacksWithContext.
  exec. rewrite Hlist. settle. cbn [elasticbeanstalk.SolutionStacks].
  rewrite Hloop. settle. by destruct (d w).
Qed.

Lemma dataSourceSolutionStackRead_nil_entry_witness :
  let conn := {| elasticbeanstalk.onListAvailableSolutionStacks := λ _,
                   (Some {| elasticbeanstalk.SolutionStacks :=
                              [Some "64bit Amazon Linux 2"; None] |}, None) |} in
  (elasticbeanstalk.dataSourceSolutionStackRead sampleExternals conn (start stackQuery)).1
  = Panic "invalid memory address or nil pointer dereference".
Proof.
  intros conn.
  pose proof (dataSourceSolutionStackRead_nil_entry sampleExternals conn (start stackQuery)
                [Some "64bit Amazon Linux 2"; None]) as H.
  destruct H as [_ H]; [set_solver|reflexivity|].
  destruct (elasticbeanstalk.dataSourceSolutionStackRead _ _ _) as [r w'].
  destruct H as [H _]. exact H.
Defined.

(** X14.  What the data source selects from a response without nil
    entries, after exactly one list call.  With no matching name it
    returns the no-results error; with one matching name, or with
    several and [most_recent] set, it finishes without diagnostics, the
    identity and the [name] attribute both being the first matching name
    in the order of the response; with several and [most_recent] unset
    it returns the more-than-one-result error.  On the two errors the
    resource data is not written. *)
Theorem dataSourceSolutionStackRead_selects (X : Externals)
    (conn : elasticbeanstalk.Conn) (w : World elasticbeanstalk.Request)
    (names : list string) :
  let nameRegex := default "" (rdStrings (d w) !! "name_regex") in
  let recent := default false (rdBools (d w) !! "most_recent") in
  elasticbeanstalk.onListAvailableSolutionStacks conn (length (calls w))
  = (Some {| elasticbeanstalk.SolutionStacks := Some <$> names |}, None) →
  let '(r, w') := elasticbeanstalk.dataSourceSolutionStackRead X conn w in
  calls w' = (calls w ++ [elasticbeanstalk.ListAvailableSolutionStacks])%list
  ∧ match List.filter (regexpMatchString X nameRegex) names with
    | [] =>
        r = Ret [{| severity := SevError;
                    summary := "Your query returned no results. Please change your search criteria and try again." |}]
        ∧ d w' = d w
    | first :: others =>
        if bool_decide (others = []) || recent then
          r = Ret []
          ∧ rdId (d w') = first
          ∧ rdStrings (d w') = <["name" := first]> (rdStrings (d w))
          ∧ first ∈ names
          ∧ regexpMatchString X nameRegex first = true
        else
          r = Ret [{| severity := SevError;
                      summary := "Your query returned more than one result. Please try a more specific search criteria, or set `most_recent` attribute to true." |}]
          ∧ d w' = d w
    end.
Proof.
  intros nameRegex recent Hlist.
  unfold elasticbeanstalk.dataSourceSolutionStackRead,
    elasticbeanstalk.ListAvailableSolutionStacksWithContext.
  exec. rewrite Hlist. settle. cbn [elasticbeanstalk.SolutionStacks].
  fold nameRegex. rewrite filterSolutionStacks_names. cbn [app].
  destruct (List.filter (regexpMatchString X nameRegex) names)
    as [|first [|second others]] eqn:Hfilter; cbn [fmap list_fmap].
  - settle. split; [done|]. split; [done|]. by destruct (d w).
  - exec. cbn [bool_decide decide_rel orb]. rewrite bool_decide_eq_true_2 by done.
    cbn [orb aws.StringValue default]. repeat split.
    + assert (first ∈ List.filter (regexpMatchString X nameRegex) names) as Hin
        by (rewrite Hfilter; set_solver).
      apply list_elem_of_In, filter_In in Hin as [Hin _]. by apply list_elem_of_In.
    + assert (first ∈ List.filter (regexpMatchString X nameRegex) names) as Hin
        by (rewrite Hfilter; set_solver).
      by apply list_elem_of_In, filter_In in Hin as [_ Hin].
  - exec. fold recent. rewrite bool_decide_eq_false_2 by done. cbn [orb].
    destruct recent.
    + cbn [elasticbeanstalk.mostRecentSolutionStack]. exec.
      cbn [aws.StringValue default]. repeat split.
      * assert (first ∈ List.filter (regexpMatchString X nameRegex) names) as Hin
          by (rewrite Hfilter; set_solver).
        apply list_elem_of_In, filter_In in Hin as [Hin _]. by apply list_elem_of_In.
      * assert (first ∈ List.filter (regexpMatchString X nameRegex) names) as Hin
          by (rewrite Hfilter; set_solver).
        by apply list_elem_of_In, filter_In in Hin as [_ Hin].
    + settle. split; [done|]. split; [done|]. by destruct (d w).
Qed.

Lemma dataSourceSolutionStackRead_selects_witness :
  let '(r, w') :=
    elasticbeanstalk.dataSourceSolutionStackRead sampleExternals sampleStacks (start noData) in
  r = Ret [{| severity := SevError;
              summary := "Your query returned more than one result. Please try a more specific search criteria, or set `most_recent` attribute to true." |}]
  ∧ d w' = noData
  ∧ calls w' = [elasticbeanstalk.ListAvailableSolutionStacks].
Proof.
  pose proof (dataSourceSolutionStackRead_selects sampleExternals sampleStacks (start noData)
                ["64bit Amazon Linux 2 v3.4 running Go 1";
                 "64bit Windows Server 2019";
                 "64bit Amazon Linux 2 v5.8 running Go 1"] eq_refl) as H.
  destruct (elasticbeanstalk.dataSourceSolutionStackRead _ _ _) as [r w'].
  destruct H as (Hcalls & Hr & Hd). repeat split; assumption.
Defined.

(** ** The task set: identity, Read and Delete *)

(** X15.  Read and Delete of a task set whose identity does not parse
    stop before any remote call: both return one error diagnostic that
    carries the parser's unexpected-format error, and the world is as
    it was. *)
Theorem resourceTaskSet_malformed_id (X : Externals) (meta : AWSClient) (conn : ecs.Conn)
    (w : World ecs.Request) err :
  let id := rdId (d w) in
  let format := "unexpected format of ID (" ++ ecs.quote id
                ++ "), expected TASK_SET_ID,SERVICE,CLUSTER" in
  ecs.TaskSetParseID id = inl err →
  err = Errorf format
  ∧ ecs.resourceTaskSetRead X meta conn w
    = ([{| severity := SevError;
           summary := "reading ECS Task Set (" ++ id ++ "): " ++ format |}], w)
  ∧ ecs.resourceTaskSetDelete X meta conn w
    = ([{| severity := SevError;
           summary := "deleting ECS Task Set (" ++ id ++ "): " ++ format |}], w).
Proof.
  intros id format Hid.
  assert (err = Errorf format) as ->.
  { unfold ecs.TaskSetParseID in Hid. fold id format in Hid.
    destruct (ecs.Split id ",") as [|p0 [|p1 [|p2 [|p3 parts]]]]; try by simplify_eq.
    destruct (decide _); by simplify_eq. }
  split; [done|]. split.
  - unfold ecs.resourceTaskSetRead. exec. fold id. rewrite Hid. settle.
    by destruct w.
  - unfold ecs.resourceTaskSetDelete. exec. fold id. rewrite Hid. settle.
    by destruct w.
Qed.

Lemma resourceTaskSet_malformed_id_witness :
  (ecs.resourceTaskSetRead sampleExternals isoMeta
     (ecsService "aws" (λ _, (None, None)) (None, None) None None None)
     (start (taskSetData "ts-1,web" false ∅))).2
  = start (taskSetData "ts-1,web" false ∅).
Proof.
  destruct (resourceTaskSet_malformed_id sampleExternals isoMeta
              (ecsService "aws" (λ _, (None, None)) (None, None) None None None)
              (start (taskSetData "ts-1,web" false ∅))
              (Errorf ("unexpected format of ID (" ++ ecs.quote "ts-1,web"
                       ++ "), expected TASK_SET_ID,SERVICE,CLUSTER"))
              eq_refl) as (_ & Hread & _).
  by rewrite Hread.
Defined.

(** X16.  Read of a task set that the service describes.  The describe
    call asks for the tags; when its error bears the unsupported
    signature of the partition, the call is repeated once without the
    tags and the second answer replaces the first.  On an answer with a
    task set Read returns no diagnostic and keeps the identity; the
    cluster and the service it shows are the ones parsed from the
    identity, the task set id is the one of the answer, [tags_all]
    holds the tags of the answer without the ignored ones and [tags] is
    [tags_all] without the entries of the default tags. *)
Theorem resourceTaskSetRead_found (X : Externals) (meta : AWSClient) (conn : ecs.Conn)
    (w : World ecs.Request) taskSetId service cluster out1 err1 taskSet others :
  let input := {| ecs.dsCluster := cluster; ecs.dsInclude := Some [ecs.TaskSetFieldTags];
                  ecs.dsService := service; ecs.dsTaskSets := [taskSetId] |} in
  let bare := {| ecs.dsCluster := cluster; ecs.dsInclude := None;
                 ecs.dsService := service; ecs.dsTaskSets := [taskSetId] |} in
  let again := verify.ErrorISOUnsupported X (ecs.PartitionID conn) err1 in
  let tagsAll := tftags.IgnoreConfig (IgnoreTagsConfig meta)
                   (tftags.IgnoreAWS (KeyValueTags (ecs.tsTags taskSet))) in
  ecs.TaskSetParseID (rdId (d w)) = inr (taskSetId, service, cluster) →
  ecs.onDescribeTaskSets conn (length (calls w)) input = (out1, err1) →
  negb (rdIsNewResource (d w))
  && tfawserr.ErrCodeEquals err1 [ecs.ErrCodeClusterNotFoundException;
                                  ecs.ErrCodeServiceNotFoundException;
                                  ecs.ErrCodeTaskSetNotFoundException] = false →
  (if again then ecs.onDescribeTaskSets conn (S (length (calls w))) bare else (out1, err1))
  = (Some {| ecs.TaskSets := taskSet :: others |}, None) →
  let '(diags, w') := ecs.resourceTaskSetRead X meta conn w in
  diags = []
  ∧ rdId (d w') = rdId (d w)
  ∧ calls w' = (calls w ++ ecs.DescribeTaskSets input
                  :: (if again then [ecs.DescribeTaskSets bare] else []))%list
  ∧ rdStrings (d w') !! "cluster" = Some cluster
  ∧ rdStrings (d w') !! "service" = Some service
  ∧ rdStrings (d w') !! "task_set_id" = Some (aws.StringValue (ecs.tsId taskSet))
  ∧ rdStrings (d w') !! "arn" = Some (aws.StringValue (ecs.TaskSetArn taskSet))
  ∧ rdTagsAll (d w') = tagsAll
  ∧ rdTags (d w') = tftags.RemoveDefaultConfig (DefaultTagsConfig meta) tagsAll.
Proof.
  intros input bare again tagsAll Hid Hdescribe Hpresent Hanswer.
  unfold ecs.resourceTaskSetRead, ecs.DescribeTaskSetsWithContext.
  exec1. rewrite Hid. cbv beta iota. fold input.
  exec1. rewrite Hdescribe. cbv beta iota.
  exec1. rewrite Hpresent. fold again.
  assert (∀ w1 : World ecs.Request, d w1 = d w →
            let '(diags, w') :=
              (schema.SetString "arn" (ecs.TaskSetArn taskSet);;
               schema.SetString "cluster" (Some cluster);;
               schema.SetString "launch_type" (ecs.tsLaunchType taskSet);;
               schema.SetString "platform_version" (ecs.tsPlatformVersion taskSet);;
               schema.SetString "external_id" (ecs.tsExternalId taskSet);;
               schema.SetString "service" (Some service);;
               schema.SetString "status" (ecs.tsStatus taskSet);;
               schema.SetString "stability_status" (ecs.tsStabilityStatus taskSet);;
               schema.SetString "task_definition" (ecs.tsTaskDefinition taskSet);;
               schema.SetString "task_set_id" (ecs.tsId taskSet);;
               schema.SetTags (tftags.RemoveDefaultConfig (DefaultTagsConfig meta) tagsAll);;
               schema.SetTagsAll tagsAll;;
               mret ([] : Diagnostics)) w1 in
            diags = [] ∧ rdId (d w') = rdId (d w) ∧ calls w' = calls w1
            ∧ rdStrings (d w') !! "cluster" = Some cluster
            ∧ rdStrings (d w') !! "service" = Some service
            ∧ rdStrings (d w') !! "task_set_id" = Some (aws.StringValue (ecs.tsId taskSet))
            ∧ rdStrings (d w') !! "arn" = Some (aws.StringValue (ecs.TaskSetArn taskSet))
            ∧ rdTagsAll (d w') = tagsAll
            ∧ rdTags (d w')
              = tftags.RemoveDefaultConfig (DefaultTagsConfig meta) tagsAll) as Hset.
  { intros w1 Hd. exec. rewrite Hd.
    split; [done|]. split; [done|]. split; [done|].
    repeat split; by simplify_map_eq. }
  destruct again.
  - exec1. exec1. rewrite length_app, Nat.add_comm. cbn [length Nat.add]. fold bare.
    change {| ecs.dsCluster := ecs.dsCluster input; ecs.dsInclude := None;
              ecs.dsService := ecs.dsService input;
              ecs.dsTaskSets := ecs.dsTaskSets input |} with bare.
    rewrite Hanswer. cbv beta iota.
    cbn [fmap option_fmap option_map default ecs.TaskSets]. unfold id. fold tagsAll.
    match goal with
    | |- context [(_ ≫= _) ?w1] => specialize (Hset w1 eq_refl)
    end.
    destruct (_ ≫= _) as [diags w'] in Hset |- *.
    destruct Hset as (? & ? & Hcalls & ?). rewrite Hcalls. cbn [calls].
    rewrite <- app_assoc. done.
  - rewrite bind_run. unfold mret at 1, M_ret at 1. cbn [fst snd].
    injection Hanswer as Hout Herr. rewrite Hout, Herr. cbv beta iota.
    cbn [fmap option_fmap option_map default ecs.TaskSets]. unfold id. fold tagsAll.
    match goal with
    | |- context [(_ ≫= _) ?w1] => specialize (Hset w1 eq_refl)
    end.
    destruct (_ ≫= _) as [diags w'] in Hset |- *.
    destruct Hset as (? & ? & Hcalls & ?). rewrite Hcalls. cbn [calls]. done.
Qed.

Lemma resourceTaskSetRead_found_witness :
  let taskSet := {| ecs.tsId := Some "ts-1"; ecs.TaskSetArn := Some "arn:aws-iso:ecs:task-set/ts-1";
                    ecs.tsStatus := Some "ACTIVE"; ecs.tsStabilityStatus := Some "STEADY_STATE";
                    ecs.tsTaskDefinition := Some "web:7"; ecs.tsExternalId := None;
                    ecs.tsLaunchType := None; ecs.tsPlatformVersion := None;
                    ecs.tsTags := [] |} in
  let conn := {| ecs.PartitionID := "aws-iso";
                 ecs.onCreateTaskSet := λ _ _, (None, None);
                 ecs.onDescribeTaskSets := λ _ input,
                   match ecs.dsInclude input with
                   | Some _ => (None, Some (AwsError "UnsupportedOperation" "no tags here"))
                   | None => (Some {| ecs.TaskSets := [taskSet] |}, None)
                   end;
                 ecs.onDeleteTaskSet := λ _ _, None;
                 ecs.onWaitTaskSetStable := λ _ _ _ _ _, None;
                 ecs.onWaitTaskSetDeleted := λ _ _ _ _, None;
                 ecs.onTagResource := λ _ _ _, None;
                 ecs.onUntagResource := λ _ _ _, None |} in
  let '(diags, w') := ecs.resourceTaskSetRead sampleExternals isoMeta conn
                        (start (taskSetData "ts-1,web,main" false ∅)) in
  diags = []
  ∧ rdId (d w') = "ts-1,web,main"
  ∧ length (calls w') = 2
  ∧ rdStrings (d w') !! "task_set_id" = Some "ts-1".
Proof.
  intros taskSet conn.
  pose proof (resourceTaskSetRead_found sampleExternals isoMeta conn
                (start (taskSetData "ts-1,web,main" false ∅)) "ts-1" "web" "main"
                None (Some (AwsError "UnsupportedOperation" "no tags here")) taskSet []
                eq_refl eq_refl eq_refl eq_refl) as H.
  cbv zeta in H.
  destruct (ecs.resourceTaskSetRead _ _ _ _) as [diags w'].
  destruct H as (Hdiags & Hid & Hcalls & _ & _ & Htsid & _).
  rewrite Hcalls. repeat split; assumption.
Defined.

(** X17.  Delete of a task set whose identity parses and whose delete
    call is not answered with the not-found code.  An error of the
    delete call is returned after that one call.  Otherwise the waiter
    is entered once: its not-found code and its success both end Delete
    without diagnostic, any other error of the waiter is returned as a
    waiting-for-completion error.  The resource data is left alone on
    every path. *)
Theorem resourceTaskSetDelete_outcomes (X : Externals) (meta : AWSClient) (conn : ecs.Conn)
    (w : World ecs.Request) taskSetId service cluster :
  let id := rdId (d w) in
  let input := {| ecs.diCluster := cluster; ecs.diService := service;
                  ecs.diTaskSet := taskSetId;
                  ecs.diForce := default false (rdBools (d w) !! "force_delete") |} in
  let deleted := ecs.onDeleteTaskSet conn (length (calls w)) input in
  let waited := ecs.onWaitTaskSetDeleted conn (S (length (calls w))) taskSetId service cluster in
  ecs.TaskSetParseID id = inr (taskSetId, service, cluster) →
  tfawserr.ErrCodeEquals deleted [ecs.ErrCodeTaskSetNotFoundException] = false →
  let '(diags, w') := ecs.resourceTaskSetDelete X meta conn w in
  d w' = d w
  ∧ match deleted with
    | Some e =>
        diags = [{| severity := SevError;
                    summary := "deleting ECS Task Set (" ++ id ++ "): " ++ errorString e |}]
        ∧ calls w' = (calls w ++ [ecs.DeleteTaskSet input])%list
    | None =>
        calls w' = (calls w ++ [ecs.DeleteTaskSet input;
                                ecs.WaitTaskSetDeleted taskSetId service cluster])%list
        ∧ diags = match waited with
                  | Some e =>
                      if tfawserr.ErrCodeEquals waited [ecs.ErrCodeTaskSetNotFoundException]
                      then []
                      else [{| severity := SevError;
                               summary := "deleting ECS Task Set (" ++ id
                                          ++ "): waiting for completion: "
                                          ++ errorString e |}]
                  | None => []
                  end
    end.
Proof.
  intros id input deleted waited Hid Hcode.
  unfold ecs.resourceTaskSetDelete, ecs.DeleteTaskSetWithContext, ecs.waitTaskSetDeleted.
  exec1. fold id. rewrite Hid. cbv beta iota. exec1. exec1. fold input deleted.
  rewrite Hcode. destruct deleted as [e|] eqn:Hdeleted.
  - settle. split; [by destruct (d w)|]. done.
  - exec1. rewrite length_app, Nat.add_comm. cbn [length Nat.add]. fold waited.
    destruct waited as [e|] eqn:Hwaited.
    + destruct (tfawserr.ErrCodeEquals (Some e) [ecs.ErrCodeTaskSetNotFoundException]);
        settle; rewrite <- app_assoc; (split; [by destruct (d w)|done]).
    + settle. rewrite <- app_assoc. split; [by destruct (d w)|done].
Qed.

Lemma resourceTaskSetDelete_outcomes_witness :
  let conn := ecsService "aws" (λ _, (None, None)) (None, None) None
                (Some (AwsError "ServerException" "try again")) None in
  let '(diags, w') := ecs.resourceTaskSetDelete sampleExternals isoMeta conn
                        (start (taskSetData "ts-1,web,main" false ∅)) in
  diags = [{| severity := SevError;
              summary := "deleting ECS Task Set (ts-1,web,main): waiting for completion: ServerException: try again" |}]
  ∧ length (calls w') = 2.
Proof.
  intros conn.
  pose proof (resourceTaskSetDelete_outcomes sampleExternals isoMeta conn
                (start (taskSetData "ts-1,web,main" false ∅)) "ts-1" "web" "main"
                eq_refl eq_refl) as H.
  cbv zeta in H.
  destruct (ecs.resourceTaskSetDelete _ _ _ _) as [diags w'].
  destruct H as (_ & Hcalls & Hdiags). rewrite Hcalls. split; [exact Hdiags|reflexivity].
Defined.

(** The retry around the create call ends at the first call that
    answers with a task set. *)
Lemma retryTaskSetCreate_first_success X conn input (w : World ecs.Request) output taskSet :
  ecs.onCreateTaskSet conn (length (calls w)) input = (Some output, None) →
  ecs.coTaskSet output = Some taskSet →
  ecs.retryTaskSetCreate X conn input w
  = ((Some output, None),
     {| d := d w; calls := calls w ++ [ecs.CreateTaskSet input]; logged := logged w |}).
Proof.
  intros Hcreate Hts.
  unfold ecs.retryTaskSetCreate, tfresource.RetryWhen, tfresource.maxPolls.
  rewrite bind_run.
  erewrite poll_first_success; [| |reflexivity].
  2: { unfold ecs.CreateTaskSetWithContext, invoke. by rewrite Hcreate. }
  cbn [fst snd mbind option_bind]. by rewrite Hts.
Qed.

(** X18.  Create of a task set whose first create call answers with a
    task set.  The identity is set to the task set id, the service and
    the cluster joined by commas.  Without [wait_until_stable], or when
    the waiter succeeds, Create returns what Read returns from there;
    an error of the waiter is returned as it is, with the identity
    already set.  No tagging call is made: the tags went out inside the
    create request. *)
Theorem resourceTaskSetCreate_created (X : Externals) (meta : AWSClient) (conn : ecs.Conn)
    (w : World ecs.Request) output taskSet :
  let tags := tftags.MergeTags (DefaultTagsConfig meta) (rdTags (d w)) in
  let cluster := default "" (rdStrings (d w) !! "cluster") in
  let service := default "" (rdStrings (d w) !! "service") in
  let input := {| ecs.ciCluster := cluster; ecs.ciService := service;
                  ecs.ciTaskDefinition := default "" (rdStrings (d w) !! "task_definition");
                  ecs.ciTags := if tftags.nonEmpty tags
                                then Some (Tags (tftags.IgnoreAWS tags)) else None |} in
  let taskSetId := aws.StringValue (ecs.tsId taskSet) in
  let id := ecs.TaskSetFormatID taskSetId service cluster in
  let stable := default false (rdBools (d w) !! "wait_until_stable") in
  let timeout := default 0 (rdTimeouts (d w) !! "wait_until_stable_timeout") in
  let wait := ecs.WaitTaskSetStable timeout taskSetId service cluster in
  let waited := if stable
                then ecs.onWaitTaskSetStable conn (S (length (calls w))) timeout
                       taskSetId service cluster
                else None in
  ecs.onCreateTaskSet conn (length (calls w)) input = (Some output, None) →
  ecs.coTaskSet output = Some taskSet →
  let issued := (calls w ++ ecs.CreateTaskSet input :: (if stable then [wait] else []))%list in
  match waited with
  | Some e =>
      let '(r, w') := ecs.resourceTaskSetCreate X meta conn w in
      r = Ret [{| severity := SevError;
                  summary := "waiting for ECS Task Set (" ++ id ++ ") to be stable: "
                             ++ errorString e |}]
      ∧ rdId (d w') = id ∧ calls w' = issued
  | None =>
      ∃ w1, ecs.resourceTaskSetCreate X meta conn w
            = liftM Ret (ecs.resourceTaskSetRead X meta conn) w1
            ∧ rdId (d w1) = id ∧ calls w1 = issued ∧ rdTags (d w1) = rdTags (d w)
  end.
Proof.
  intros tags cluster service input taskSetId id stable timeout wait waited Hcreate Hts issued.
  assert (bool_decide (ecs.ciTags input = None) && tftags.nonEmpty tags = false) as Hdeferred.
  { unfold input. cbn [ecs.ciTags]. by destruct (tftags.nonEmpty tags). }
  unfold ecs.resourceTaskSetCreate, ecs.waitTaskSetStable.
  do 4 exec1. fold tags cluster service input.
  rewrite bind_run, (retryTaskSetCreate_first_success X conn input w output taskSet) by done.
  cbn [fst snd]. rewrite ErrorISOUnsupported_None, andb_false_r.
  rewrite bind_run. settle.
  cbn [mbind option_bind]. rewrite Hts. fold taskSetId id.
  do 3 exec1. fold stable. unfold waited, issued. destruct stable.
  - exec1. exec1. fold timeout. rewrite length_app, Nat.add_comm. cbn [length Nat.add].
    destruct (ecs.onWaitTaskSetStable conn _ timeout taskSetId service cluster) as [e|].
    + settle. by rewrite <- app_assoc.
    + rewrite Hdeferred. eexists. split; [reflexivity|]. cbn. by rewrite <- app_assoc.
  - exec1. rewrite Hdeferred. eexists. split; [reflexivity|]. by cbn.
Qed.

Lemma resourceTaskSetCreate_created_witness :
  let taskSet := {| ecs.tsId := Some "ts-1"; ecs.TaskSetArn := Some "arn:aws:ecs:task-set/ts-1";
                    ecs.tsStatus := Some "ACTIVE"; ecs.tsStabilityStatus := Some "STABILIZING";
                    ecs.tsTaskDefinition := Some "web:7"; ecs.tsExternalId := None;
                    ecs.tsLaunchType := None; ecs.tsPlatformVersion := None;
                    ecs.tsTags := [{| Key := "env"; Value := "prod" |}] |} in
  let conn := ecsService "aws" (λ _, (Some {| ecs.coTaskSet := Some taskSet |}, None))
                (Some {| ecs.TaskSets := [taskSet] |}, None) None None None in
  ∃ w1, ecs.resourceTaskSetCreate sampleExternals isoMeta conn (start (taskSetData "" true ∅))
        = liftM Ret (ecs.resourceTaskSetRead sampleExternals isoMeta conn) w1
        ∧ rdId (d w1) = "ts-1,web,main"
        ∧ calls w1 = [ecs.CreateTaskSet sampleTaskSetInput].
Proof.
  intros taskSet conn.
  destruct (resourceTaskSetCreate_created sampleExternals isoMeta conn
              (start (taskSetData "" true ∅)) {| ecs.coTaskSet := Some taskSet |} taskSet
              eq_refl eq_refl) as (w1 & Hrun & Hid & Hcalls & _).
  exists w1. repeat split; assumption.
Defined.

(** ** What Delete leaves alone *)

Section Keeping.

Context {R : Type}.

#[local] Instance keeping_preorder : PreOrder (keeping (R:=R)).
Proof.
  split.
  - by intros w.
  - intros w1 w2 w3 H12 H23. unfold keeping in *. congruence.
Qed.

Lemma keeping_invoke {A} (req : R) (answer : nat → A) : along keeping (invoke req answer).
Proof. by intros w. Qed.

Lemma keeping_readData {A} (f : ResourceData → A) : along keeping (readData (R:=R) f).
Proof. by intros w. Qed.

Lemma keeping_Printf line : along keeping (log.Printf (R:=R) line).
Proof. by intros w. Qed.

End Keeping.

Ltac keeping_step :=
  match goal with
  | |- along _ (mret _) => apply along_ret; apply keeping_preorder
  | |- along _ (_ ≫= _) => apply along_bind; [apply keeping_preorder| |intros]
  | |- along _ (liftM _ _) => apply along_liftM
  | |- along _ (readData _) => apply keeping_readData
  | |- along _ (log.Printf _) => apply keeping_Printf
  | |- along _ (invoke _ _) => apply keeping_invoke
  | |- along _ (tfresource.poll _ _ _ _) => apply along_poll; [apply keeping_preorder|]
  | |- along _ (match ?x with _ => _ end) => destruct x
  end.

Section DeleteLeaves.

#[local] Existing Instance issuing_preorder.

(** X19.  Delete never writes the resource data: whatever the remote
    service answers and however long the wait polls, Delete of the
    repository, of the task set and of the resource share end with the
    identity and every attribute as they were; the finder of the
    repository, which the wait runs, does not write them either.
    Delete of the task set issues only the delete call and its
    waiter. *)
Theorem Delete_leaves_data :
  (∀ conn name, along keeping (ecr.FindRepositoryByName conn name))
  ∧ (∀ X meta conn, along keeping (ecr.resourceRepositoryDelete X meta conn))
  ∧ (∀ X meta conn, along keeping (ecs.resourceTaskSetDelete X meta conn))
  ∧ (∀ conn, along keeping (ram.resourceResourceShareDelete conn))
  ∧ (∀ X meta conn, along (issuing ecsDeleting) (ecs.resourceTaskSetDelete X meta conn)).
Proof.
  assert (∀ conn name, along keeping (ecr.FindRepositoryByName conn name)) as Hfind.
  { intros conn name.
    unfold ecr.FindRepositoryByName, ecr.FindRepository, ecr.DescribeRepositoriesWithContext.
    lazy zeta. repeat keeping_step. }
  repeat apply conj.
  - exact Hfind.
  - intros X meta conn.
    unfold ecr.resourceRepositoryDelete, ecr.DeleteRepositoryWithContext,
      tfresource.RetryUntilNotFound, tfresource.RetryWhen.
    unfold_schema. lazy zeta. repeat keeping_step. apply Hfind.
  - intros X meta conn.
    unfold ecs.resourceTaskSetDelete, ecs.DeleteTaskSetWithContext, ecs.waitTaskSetDeleted.
    unfold_schema. lazy zeta. repeat keeping_step.
  - intros conn.
    unfold ram.resourceResourceShareDelete, ram.DeleteResourceShareWithContext,
      ram.WaitResourceShareOwnedBySelfDeleted.
    unfold_schema. lazy zeta. repeat keeping_step.
  - intros X meta conn.
    unfold ecs.resourceTaskSetDelete, ecs.DeleteTaskSetWithContext, ecs.waitTaskSetDeleted.
    unfold_schema. lazy zeta.
    repeat along_step; by apply issuing_invoke.
Qed.

End DeleteLeaves.

(** X20.  An error of the delete call that is neither the not-found
    code nor, for the repository, the not-empty code is returned as a
    deleting error after that one call, for the repository and for the
    resource share alike; the wait is not entered.  Delete of the
    resource share whose delete call and whose wait both succeed
    returns no diagnostic after the two calls, the wait running under
    the delete time-out of the resource. *)
Theorem Delete_reports_errors :
  (∀ X meta (conn : ecr.Conn) (w : World ecr.Request) e,
     let input := {| ecr.diForce := default false (rdBools (d w) !! "force_delete");
                     ecr.diRegistryId := default "" (rdStrings (d w) !! "registry_id");
                     ecr.diRepositoryName := rdId (d w) |} in
     ecr.onDeleteRepository conn (length (calls w)) input = Some e →
     tfawserr.ErrCodeEquals (Some e) [ecr.ErrCodeRepositoryNotFoundException] = false →
     tfawserr.ErrCodeEquals (Some e) [ecr.ErrCodeRepositoryNotEmptyException] = false →
     let '(diags, w') := ecr.resourceRepositoryDelete X meta conn w in
     diags = [{| severity := SevError;
                 summary := "deleting ECR Repository (" ++ rdId (d w) ++ "): "
                            ++ errorString e |}]
     ∧ calls w' = (calls w ++ [ecr.DeleteRepository input])%list)
  ∧ (∀ (conn : ram.Conn) (w : World ram.Request) e,
       ram.onDeleteResourceShare conn (length (calls w)) (rdId (d w)) = Some e →
       tfawserr.ErrCodeEquals (Some e) [ram.ErrCodeUnknownResourceException] = false →
       let '(diags, w') := ram.resourceResourceShareDelete conn w in
       diags = [{| severity := SevError;
                   summary := "deleting RAM Resource Share (" ++ rdId (d w) ++ "): "
                              ++ errorString e |}]
       ∧ calls w' = (calls w ++ [ram.DeleteResourceShare (rdId (d w))])%list)
  ∧ (∀ (conn : ram.Conn) (w : World ram.Request),
       let timeout := default 0 (rdTimeouts (d w) !! schema.TimeoutDelete) in
       ram.onDeleteResourceShare conn (length (calls w)) (rdId (d w)) = None →
       ram.onWaitResourceShareOwnedBySelfDeleted conn (S (length (calls w))) (rdId (d w))
         timeout = None →
       let '(diags, w') := ram.resourceResourceShareDelete conn w in
       diags = []
       ∧ calls w' = (calls w ++ [ram.DeleteResourceShare (rdId (d w));
                                 ram.WaitResourceShareDeleted (rdId (d w)) timeout])%list).
Proof.
  repeat apply conj.
  - intros X meta conn w e input Hdelete Hfound Hempty.
    unfold ecr.resourceRepositoryDelete, ecr.DeleteRepositoryWithContext.
    do 5 exec1. fold input. rewrite Hdelete, Hfound, Hempty. settle. done.
  - intros conn w e Hdelete Hfound.
    unfold ram.resourceResourceShareDelete, ram.DeleteResourceShareWithContext.
    do 3 exec1. rewrite Hdelete, Hfound. settle. done.
  - intros conn w timeout Hdelete Hwait.
    unfold ram.resourceResourceShareDelete, ram.DeleteResourceShareWithContext,
      ram.WaitResourceShareOwnedBySelfDeleted.
    do 3 exec1. rewrite Hdelete, ErrCodeEquals_None. do 2 exec1. fold timeout.
    rewrite length_app, Nat.add_comm. cbn [length Nat.add]. rewrite Hwait. settle.
    by rewrite <- app_assoc.
Qed.

Lemma Delete_reports_errors_witness :
  let denied := AwsError "AccessDeniedException" "not allowed" in
  let '(diags, w') :=
    ecr.resourceRepositoryDelete sampleExternals isoMeta
      (ecrService "aws" (describes []) creates (Some denied) None)
      (start (repositoryData "app" false ∅)) in
  diags = [{| severity := SevError;
              summary := "deleting ECR Repository (app): AccessDeniedException: not allowed" |}]
  ∧ length (calls w') = 1.
Proof.
  intros denied.
  pose proof (proj1 Delete_reports_errors sampleExternals isoMeta
                (ecrService "aws" (describes []) creates (Some denied) None)
                (start (repositoryData "app" false ∅)) denied eq_refl eq_refl eq_refl) as H.
  cbv zeta in H.
  destruct (ecr.resourceRepositoryDelete _ _ _ _) as [diags w'].
  destruct H as [Hdiags Hcalls]. rewrite Hcalls. split; [exact Hdiags|reflexivity].
Defined.

(** ** Blocks of the configuration and objects of the API *)

(** X21.  The encryption block of the repository.  Expanding what
    flatten shows never panics and gives back the object with nil
    strings read as empty: an object with an encryption type and a KMS
    key that is nil or not empty comes back as it was, and nil comes
    back as nil.  Whatever the block, the object that expand returns has
    an encryption type and never an empty KMS key. *)
Theorem EncryptionConfiguration_round_trip :
  (∀ ec,
     ecrblocks.expandRepositoryEncryptionConfiguration
       (Some <$> ecrblocks.flattenRepositoryEncryptionConfiguration ec)
     = Ret ((λ ec, {| ecrblocks.EncryptionType :=
                        Some (aws.StringValue (ecrblocks.EncryptionType ec));
                      ecrblocks.KmsKey :=
                        if decide (aws.StringValue (ecrblocks.KmsKey ec) = "")
                        then None else ecrblocks.KmsKey ec |}) <$> ec))
  ∧ (∀ encryptionType kmsKey,
       kmsKey ≠ Some "" →
       let ec := {| ecrblocks.EncryptionType := Some encryptionType;
                    ecrblocks.KmsKey := kmsKey |} in
       ecrblocks.expandRepositoryEncryptionConfiguration
         (Some <$> ecrblocks.flattenRepositoryEncryptionConfiguration (Some ec))
       = Ret (Some ec))
  ∧ (∀ data ec,
       ecrblocks.expandRepositoryEncryptionConfiguration data = Ret (Some ec) →
       is_Some (ecrblocks.EncryptionType ec) ∧ ecrblocks.KmsKey ec ≠ Some "").
Proof.
  assert (∀ ec,
     ecrblocks.expandRepositoryEncryptionConfiguration
       (Some <$> ecrblocks.flattenRepositoryEncryptionConfiguration ec)
     = Ret ((λ ec, {| ecrblocks.EncryptionType :=
                        Some (aws.StringValue (ecrblocks.EncryptionType ec));
                      ecrblocks.KmsKey :=
                        if decide (aws.StringValue (ecrblocks.KmsKey ec) = "")
                        then None else ecrblocks.KmsKey ec |}) <$> ec)) as Hback.
  { intros [[encryptionType kmsKey]|]; [|done].
    cbn [ecrblocks.flattenRepositoryEncryptionConfiguration fmap list_fmap
         ecrblocks.expandRepositoryEncryptionConfiguration
         ecrblocks.EncryptionType ecrblocks.KmsKey option_fmap option_map].
    rewrite lookup_insert_eq, lookup_insert_ne, lookup_singleton_eq by done.
    destruct kmsKey as [s|]; cbn [aws.StringValue default]; [|done].
    by destruct (decide (s = "")). }
  split; [exact Hback|]. split.
  - intros encryptionType kmsKey Hkey ec. subst ec. rewrite Hback.
    cbn [fmap option_fmap option_map ecrblocks.EncryptionType ecrblocks.KmsKey
         aws.StringValue default].
    unfold id. destruct kmsKey as [s|]; cbn [default]; unfold id; [|done].
    destruct (decide (s = "")); [|done]. by subst.
  - intros data ec Hexpand. unfold ecrblocks.expandRepositoryEncryptionConfiguration in Hexpand.
    destruct data as [|[block|] data]; [done| |done].
    destruct (block !! "encryption_type") as [[| encryptionType | | |]|]; try done.
    destruct (block !! "kms_key") as [[| s | | |]|]; try done.
    + injection Hexpand as <-. cbn. split; [by eexists|].
      destruct (decide (s = "")); [done|]. by intros [= ->].
    + injection Hexpand as <-. cbn. split; [by eexists|done].
Qed.

(** X22.  The tiering policy of an ONTAP volume.  The policy that expand
    builds carries a cooling period only if it is 2 or more, and the
    block that flatten shows has a cooling period only if the policy has
    one of 2 or more.  A block that is expanded and flattened again shows
    the name it had, if that was a string, and the cooling period it
    had, if that was an [int] of 2 or more; a smaller cooling period is
    not shown. *)
Theorem TieringPolicy_cooling_period :
  (∀ cfg policy v,
     fsx.expandOntapVolumeTieringPolicy cfg = Ret (Some policy) →
     fsx.CoolingPeriod policy = Some v → (2 ≤ v)%Z)
  ∧ (∀ rs m v,
       fsx.flattenOntapVolumeTieringPolicy rs = [m] →
       m !! "cooling_period" = Some v →
       ∃ n, v = AInt64 n ∧ (2 ≤ n)%Z ∧ rs ≫= fsx.CoolingPeriod = Some n)
  ∧ (∀ conf,
       ∃ policy m,
         fsx.expandOntapVolumeTieringPolicy [Some conf] = Ret (Some policy)
         ∧ fsx.flattenOntapVolumeTieringPolicy (Some policy) = [m]
         ∧ m !! "name" = match conf !! "name" with
                         | Some (AString s) => Some (AString s)
                         | _ => None
                         end
         ∧ m !! "cooling_period" = match conf !! "cooling_period" with
                                   | Some (AInt v) =>
                                       if decide (2 ≤ v)%Z then Some (AInt64 v) else None
                                   | _ => None
                                   end).
Proof.
  repeat apply conj.
  - intros cfg policy v Hexpand Hperiod.
    unfold fsx.expandOntapVolumeTieringPolicy in Hexpand.
    destruct cfg as [|[conf|] cfg]; [done| |done].
    injection Hexpand as <-. cbn [fsx.CoolingPeriod] in Hperiod.
    destruct (conf !! "cooling_period") as [[| | | n |]|]; try done.
    destruct (decide (2 ≤ n)%Z); [|done]. by injection Hperiod as <-.
  - intros [[period name]|] m v Hflatten Hlookup; [|done].
    unfold fsx.flattenOntapVolumeTieringPolicy in Hflatten.
    cbn [fsx.CoolingPeriod fsx.Name] in Hflatten. injection Hflatten as <-.
    assert (∀ base : gmap string Any,
              match name with
              | Some _ => <["name" := AString (aws.StringValue name)]> base
              | None => base
              end !! "cooling_period" = base !! "cooling_period") as Hname.
    { intros base. destruct name; [by rewrite lookup_insert_ne|done]. }
    rewrite Hname in Hlookup.
    destruct (decide (2 ≤ default 0 period)%Z) as [Hle|]; [|done].
    rewrite lookup_insert_eq in Hlookup. injection Hlookup as <-.
    destruct period as [n|]; cbn [default] in *; [|lia].
    exists n. done.
  - intros conf. eexists _, _. split; [reflexivity|]. split; [reflexivity|].
    cbn [fsx.CoolingPeriod fsx.Name]. split.
    + destruct (conf !! "name") as [[| s | | |]|];
        cbn [aws.StringValue default]; rewrite ?lookup_insert_eq; try done;
        by destruct (decide _); rewrite ?lookup_insert_ne by done.
    + assert (∀ (name : option string) (base : gmap string Any),
                match name with
                | Some _ => <["name" := AString (aws.StringValue name)]> base
                | None => base
                end !! "cooling_period" = base !! "cooling_period") as Hname.
      { intros name base. destruct name; [by rewrite lookup_insert_ne|done]. }
      rewrite Hname.
      destruct (conf !! "cooling_period") as [[| | | n |]|]; cbn [default];
        try (by destruct (decide (2 ≤ 0)%Z); [lia|]).
      destruct (decide (2 ≤ n)%Z) as [Hle|Hlt]; cbn [default]; unfold id.
      * destruct (decide (2 ≤ n)%Z); [|done]. by rewrite lookup_insert_eq.
      * by destruct (decide (2 ≤ 0)%Z); [lia|].
Qed.

Lemma EncryptionConfiguration_round_trip_witness :
  ecrblocks.expandRepositoryEncryptionConfiguration
    (Some <$> ecrblocks.flattenRepositoryEncryptionConfiguration
                (Some {| ecrblocks.EncryptionType := Some "KMS";
                         ecrblocks.KmsKey := Some "alias/registry" |}))
  = Ret (Some {| ecrblocks.EncryptionType := Some "KMS";
                 ecrblocks.KmsKey := Some "alias/registry" |}).
Proof.
  apply (proj1 (proj2 EncryptionConfiguration_round_trip) "KMS" (Some "alias/registry")).
  discriminate.
Defined.

Lemma TieringPolicy_cooling_period_witness :
  let conf : gmap string Any := {[ "cooling_period" := AInt 31; "name" := AString "AUTO" ]} in
  (2 ≤ 31)%Z
  ∧ fsx.expandOntapVolumeTieringPolicy [Some conf]
    = Ret (Some {| fsx.CoolingPeriod := Some 31%Z; fsx.Name := Some "AUTO" |}).
Proof.
  intros conf. split; [|reflexivity].
  apply (proj1 TieringPolicy_cooling_period [Some conf]
           {| fsx.CoolingPeriod := Some 31%Z; fsx.Name := Some "AUTO" |} 31%Z);
    reflexivity.
Defined.

(** ** Public domain names that changed *)




(** ** The retry around the create call of the task set *)

(** Polls whose errors are retryable are spent one by one. *)
Lemma poll_retries {R A} k n (f : M R (option A * option error)) retryable last
    (w : World R) :
  (∀ i, i < k → (retryable (f (Nat.iter i (λ w', (f w').2) w)).1.2).1 = true) →
  ∃ last', tfresource.poll (k + n) f retryable last w
           = tfresource.poll n f retryable last' (Nat.iter k (λ w', (f w').2) w).
Proof.
  revert last w. induction k as [|k IH]; intros last w Hretry.
  - by exists last.
  - cbn [Nat.add tfresource.poll]. rewrite bind_run.
    pose proof (Hretry 0 ltac:(lia)) as Hfirst. cbn [Nat.iter nat_rect] in Hfirst.
    destruct (retryable (f w).1.2) as [retry err']. cbn [fst] in Hfirst. subst retry.
    destruct (IH err' (f w).2) as [last' ->].
    { intros i Hi. specialize (Hretry (S i) ltac:(lia)).
      by rewrite Nat.iter_succ_r in Hretry. }
    exists last'. by rewrite Nat.iter_succ_r.
Qed.

(** X24.  The retry around the create call of the task set repeats the
    call, with the same input, as long as the answer is one of the
    three not-found codes or the invalid-parameter error about the
    missing load balancer.  When such answers are followed, within the
    polls that fit in the deadline, by an answer with a task set, that
    answer is returned without error and the calls made are the failed
    ones and the one that succeeded. *)
Theorem retryTaskSetCreate_retries (X : Externals) (conn : ecs.Conn)
    (input : ecs.CreateTaskSetInput) (w : World ecs.Request) k output taskSet :
  let retryable err :=
    tfawserr.ErrCodeEquals err [ecs.ErrCodeClusterNotFoundException;
                                ecs.ErrCodeServiceNotFoundException;
                                ecs.ErrCodeTaskSetNotFoundException]
    || tfawserr.ErrMessageContains err ecs.ErrCodeInvalidParameterException
         "does not have an associated load balancer" in
  k < tfresource.maxPolls X (propagationTimeout X + taskSetCreateTimeout X) →
  (∀ i, i < k → retryable (ecs.onCreateTaskSet conn (length (calls w) + i) input).2 = true) →
  ecs.onCreateTaskSet conn (length (calls w) + k) input = (Some output, None) →
  ecs.coTaskSet output = Some taskSet →
  ecs.retryTaskSetCreate X conn input w
  = ((Some output, None),
     {| d := d w;
        calls := calls w ++ replicate (S k) (ecs.CreateTaskSet input);
        logged := logged w |}).
Proof.
  intros retryable Hbudget Hretry Hcreate Hts.
  unfold ecs.retryTaskSetCreate, tfresource.RetryWhen. rewrite bind_run.
  destruct (Nat.le_exists_sub (S k) _ Hbudget) as (n & -> & _).
  rewrite (Nat.add_comm n (S k)).
  replace (S k + n) with (k + S n) by lia.
  match goal with
  | |- context [tfresource.poll _ ?f ?r ?l ?w0] =>
      destruct (poll_retries k (S n) f r l w0) as [last' ->]
  end.
  - intros i Hi. unfold ecs.CreateTaskSetWithContext. rewrite iter_invoke.
    unfold invoke. cbn [fst snd calls]. rewrite length_app, length_replicate.
    specialize (Hretry i Hi). fold (retryable (ecs.onCreateTaskSet conn (length (calls w) + i) input).2).
    by rewrite Hretry.
  - unfold ecs.CreateTaskSetWithContext. rewrite iter_invoke.
    erewrite poll_first_success; [| |reflexivity].
    2: { unfold invoke. cbn [calls]. rewrite length_app, length_replicate, Hcreate.
         reflexivity. }
    cbn [fst snd mbind option_bind d calls logged]. rewrite Hts.
    unfold mret, M_ret. do 2 f_equal.
    rewrite <- app_assoc. f_equal.
    change [ecs.CreateTaskSet input] with (replicate 1 (ecs.CreateTaskSet input)).
    rewrite <- replicate_add. f_equal. f_equal. lia.
Qed.

Lemma retryTaskSetCreate_retries_witness :
  let taskSet := {| ecs.tsId := Some "ts-1"; ecs.TaskSetArn := Some "arn:aws:ecs:task-set/ts-1";
                    ecs.tsStatus := Some "ACTIVE"; ecs.tsStabilityStatus := Some "STABILIZING";
                    ecs.tsTaskDefinition := Some "web:7"; ecs.tsExternalId := None;
                    ecs.tsLaunchType := None; ecs.tsPlatformVersion := None;
                    ecs.tsTags := [] |} in
  let conn := {| ecs.PartitionID := "aws";
                 ecs.onCreateTaskSet := λ n _,
                   if bool_decide (n < 2)
                   then (None, Some (AwsError "ServiceNotFoundException" "not yet visible"))
                   else (Some {| ecs.coTaskSet := Some taskSet |}, None);
                 ecs.onDescribeTaskSets := λ _ _, (None, None);
                 ecs.onDeleteTaskSet := λ _ _, None;
                 ecs.onWaitTaskSetStable := λ _ _ _ _ _, None;
                 ecs.onWaitTaskSetDeleted := λ _ _ _ _, None;
                 ecs.onTagResource := λ _ _ _, None;
                 ecs.onUntagResource := λ _ _ _, None |} in
  ecs.retryTaskSetCreate sampleExternals conn sampleTaskSetInput (start (taskSetData "" true ∅))
  = ((Some {| ecs.coTaskSet := Some taskSet |}, None),
     {| d := taskSetData "" true ∅;
        calls := replicate 3 (ecs.CreateTaskSet sampleTaskSetInput);
        logged := [] |}).
Proof.
  intros taskSet conn.
  apply (retryTaskSetCreate_retries sampleExternals conn sampleTaskSetInput
           (start (taskSetData "" true ∅)) 2 {| ecs.coTaskSet := Some taskSet |} taskSet).
  - vm_compute. lia.
  - intros i Hi. cbn [start calls length Nat.add conn ecs.onCreateTaskSet].
    rewrite bool_decide_eq_true_2 by done. reflexivity.
  - reflexivity.
  - reflexivity.
Defined.

(** ** Read of a repository whose finder fails *)

(** X25.  Read of a repository has no check of the finder's error
    besides the not-found case of a resource that is not new.  When the
    finder fails with an error that is not of the NotFound kind, such as
    a denied describe call or too many results, Read does not return an
    error diagnostic: it panics on the nil result after the one describe
    call, for a new resource and for an old one alike, and the resource
    data is not written. *)
Theorem resourceRepositoryRead_error_panics (X : Externals) (meta : AWSClient)
    (conn : ecr.Conn) (w : World ecr.Request) e :
  (ecr.FindRepositoryByName conn (rdId (d w)) w).1 = inl e →
  tfresource.NotFound (Some e) = false →
  let '(r, w') := ecr.resourceRepositoryRead X meta conn w in
  r = Panic "interface conversion: interface {} is nil, not *ecr.Repository"
  ∧ d w' = d w
  ∧ calls w' = (calls w ++ [ecr.DescribeRepositories
                              {| ecr.RepositoryNames := [rdId (d w)] |}])%list.
Proof.
  intros Hfind Hkind.
  pose proof (FindRepositoryByName_world conn (rdId (d w)) w) as Hworld.
  unfold ecr.resourceRepositoryRead, tfresource.RetryWhenNewResourceNotFound,
    tfresource.RetryWhen, tfresource.maxPolls.
  do 2 exec1. rewrite bind_run.
  erewrite poll_first_failure.
  2: { unfold liftM. destruct (ecr.FindRepositoryByName conn (rdId (d w)) w) as [r w1].
       cbn [fst snd] in *. subst r w1. reflexivity. }
  2: { rewrite Hkind, andb_false_r. reflexivity. }
  cbn [fst snd]. rewrite Hkind, andb_false_r. settle. done.
Qed.

Lemma resourceRepositoryRead_error_panics_witness :
  let conn := ecrService "aws"
                (describes [Some (sampleRepository "app"); Some (sampleRepository "app-2")])
                creates None None in
  (ecr.resourceRepositoryRead sampleExternals isoMeta conn
     (start (repositoryData "app" false ∅))).1
  = Panic "interface conversion: interface {} is nil, not *ecr.Repository".
Proof.
  intros conn.
  pose proof (resourceRepositoryRead_error_panics sampleExternals isoMeta conn
                (start (repositoryData "app" false ∅)) (TooManyResultsError 2)
                eq_refl eq_refl) as H.
  destruct (ecr.resourceRepositoryRead _ _ _ _) as [r w'].
  destruct H as [H _]. exact H.
Defined.

(** ** Read of a task set whose describe call fails *)

(** X26.  Read of a task set reports the error of the describe call that
    counts: the first one, or, when that error bears the unsupported
    signature of the partition, the one of the call repeated without
    tags.  Unless the resource is not new and the first error is a
    not-found code, that error is returned as a reading error and the
    resource data is not written. *)
Theorem resourceTaskSetRead_reports_error (X : Externals) (meta : AWSClient)
    (conn : ecs.Conn) (w : World ecs.Request) taskSetId service cluster out1 err1 out2 e :
  let input := {| ecs.dsCluster := cluster; ecs.dsInclude := Some [ecs.TaskSetFieldTags];
                  ecs.dsService := service; ecs.dsTaskSets := [taskSetId] |} in
  let bare := {| ecs.dsCluster := cluster; ecs.dsInclude := None;
                 ecs.dsService := service; ecs.dsTaskSets := [taskSetId] |} in
  let again := verify.ErrorISOUnsupported X (ecs.PartitionID conn) err1 in
  ecs.TaskSetParseID (rdId (d w)) = inr (taskSetId, service, cluster) →
  ecs.onDescribeTaskSets conn (length (calls w)) input = (out1, err1) →
  negb (rdIsNewResource (d w))
  && tfawserr.ErrCodeEquals err1 [ecs.ErrCodeClusterNotFoundException;
                                  ecs.ErrCodeServiceNotFoundException;
                                  ecs.ErrCodeTaskSetNotFoundException] = false →
  (if again then ecs.onDescribeTaskSets conn (S (length (calls w))) bare else (out1, err1))
  = (out2, Some e) →
  let '(diags, w') := ecs.resourceTaskSetRead X meta conn w in
  diags = [{| severity := SevError;
              summary := "reading ECS Task Set (" ++ rdId (d w) ++ "): " ++ errorString e |}]
  ∧ d w' = d w
  ∧ calls w' = (calls w ++ ecs.DescribeTaskSets input
                  :: (if again then [ecs.DescribeTaskSets bare] else []))%list.
Proof.
  intros input bare again Hid Hdescribe Hpresent Hanswer.
  unfold ecs.resourceTaskSetRead, ecs.DescribeTaskSetsWithContext.
  exec1. rewrite Hid. cbv beta iota. fold input.
  exec1. rewrite Hdescribe. cbv beta iota.
  exec1. rewrite Hpresent. fold again.
  destruct again.
  - exec1. exec1. rewrite length_app, Nat.add_comm. cbn [length Nat.add]. fold bare.
    change {| ecs.dsCluster := ecs.dsCluster input; ecs.dsInclude := None;
              ecs.dsService := ecs.dsService input;
              ecs.dsTaskSets := ecs.dsTaskSets input |} with bare.
    rewrite Hanswer. settle. rewrite <- app_assoc. done.
  - rewrite bind_run. unfold mret at 1, M_ret at 1. cbn [fst snd].
    injection Hanswer as Hout Herr. rewrite Herr. settle. done.
Qed.

Lemma resourceTaskSetRead_reports_error_witness :
  let denied := AwsError "AccessDeniedException" "not allowed" in
  let conn := ecsService "aws" (λ _, (None, None)) (None, Some denied) None None None in
  let '(diags, w') := ecs.resourceTaskSetRead sampleExternals isoMeta conn
                        (start (taskSetData "ts-1,web,main" true ∅)) in
  diags = [{| severity := SevError;
              summary := "reading ECS Task Set (ts-1,web,main): AccessDeniedException: not allowed" |}]
  ∧ length (calls w') = 1.
Proof.
  intros denied conn.
  pose proof (resourceTaskSetRead_reports_error sampleExternals isoMeta conn
                (start (taskSetData "ts-1,web,main" true ∅)) "ts-1" "web" "main"
                None (Some denied) None denied eq_refl eq_refl eq_refl eq_refl) as H.
  cbv zeta in H.
  destruct (ecs.resourceTaskSetRead _ _ _ _) as [diags w'].
  destruct H as (Hdiags & _ & Hcalls). rewrite Hcalls. split; [exact Hdiags|reflexivity].
Defined.

(** * Deferred tagging and the tags that are shown *)

(** Read of a repository that is found, and whose tags are listed or
    cannot be listed for want of support on the partition, returns no
    diagnostic after the describe call and the list-tags call. *)
Lemma resourceRepositoryRead_passes (X : Externals) (meta : AWSClient) (conn : ecr.Conn)
    (w : World ecr.Request) (repository : ecr.Repository) listed lerr :
  let arn := aws.StringValue (ecr.RepositoryArn repository) in
  let remote := tftags.IgnoreConfig (IgnoreTagsConfig meta)
                  (tftags.IgnoreAWS (KeyValueTags listed)) in
  ecr.onDescribeRepositories conn (length (calls w))
    {| ecr.RepositoryNames := [rdId (d w)] |} = describes [Some repository] →
  aws.StringValue (ecr.RepositoryName repository) = rdId (d w) →
  ecr.onListTagsForResource conn (S (length (calls w))) arn = (listed, lerr) →
  lerr = None
  ∨ negb (bool_decide (Partition meta = verify.AwsPartitionID))
    && verify.ErrorISOUnsupported X (ecr.PartitionID conn) lerr = true →
  let '(r, w') := ecr.resourceRepositoryRead X meta conn w in
  r = Ret []
  ∧ rdId (d w') = rdId (d w)
  ∧ calls w' = (calls w ++ [ecr.DescribeRepositories {| ecr.RepositoryNames := [rdId (d w)] |};
                            ecr.ListTagsForResource arn])%list
  ∧ (lerr = None →
     rdTags (d w') = tftags.RemoveDefaultConfig (DefaultTagsConfig meta) remote).
Proof.
  intros arn remote Hdescribe Hname Hlist Hpass.
  unfold ecr.resourceRepositoryRead, tfresource.RetryWhenNewResourceNotFound,
    tfresource.RetryWhen, tfresource.maxPolls, ecr.ListTags,
    ecr.ListTagsForResourceWithContext.
  exec.
  erewrite poll_first_success; [| |by rewrite andb_false_r].
  2: { unfold liftM. by rewrite (FindRepositoryByName_found _ _ _ _ Hdescribe Hname). }
  cbn [fst snd tfresource.NotFound]. rewrite andb_false_r.
  exec. fold arn. rewrite length_app, Nat.add_comm. cbn [length Nat.add]. rewrite Hlist.
  destruct Hpass as [->|Hdown].
  - settle. rewrite ErrorISOUnsupported_None, andb_false_r.
    exec. fold remote. rewrite <- app_assoc. done.
  - destruct lerr as [e|].
    + settle. rewrite Hdown. exec. rewrite <- app_assoc. done.
    + by rewrite ErrorISOUnsupported_None, andb_false_r in Hdown.
Qed.



(** C8, as amended.  Every request that Create of the repository and
    the generated [UpdateTags] send carries only tag keys that passed
    [IgnoreAWS]: no key with the reserved prefix of the platform is
    written or removed remotely.  Read sets the ["tags"] attribute only
    to what the default-tag subtraction leaves of some tag set, and no
    entry of that is an entry of the default tags.  Read of a
    repository that is found and whose tags are listed shows exactly
    the remote tags, the ignored ones left out, that are not entries of
    the default tags, key and value: a key of the default tags is shown
    when its remote value differs from the default one, whatever the
    tags of the resource are.  When the remote tags are the ones that
    Create sends, the merged tags, a key that the resource does not
    name itself is not shown. *)
Theorem tags_sent_and_shown :
  (∀ X meta conn,
     along (issuing ecrUnreserved) (ecr.resourceRepositoryCreate X meta conn))
  ∧ (∀ conn identifier old new,
       along (issuing ecrUnreserved) (ecr.UpdateTags conn identifier old new))
  ∧ (∀ conn identifier resourceType old new,
       along (issuing ssmUnreserved) (ssm.UpdateTags conn identifier resourceType old new))
  ∧ (∀ X meta conn,
       along (showing (DefaultTagsConfig meta)) (ecr.resourceRepositoryRead X meta conn))
  ∧ (∀ X meta conn,
       along (showing (DefaultTagsConfig meta)) (ecs.resourceTaskSetRead X meta conn))
  ∧ (∀ (defaults tags : gmap string string) k v,
       tftags.RemoveDefaultConfig defaults tags !! k = Some v → defaults !! k ≠ Some v)
  ∧ (∀ X meta (conn : ecr.Conn) (w : World ecr.Request) repository listed,
       let remote := tftags.IgnoreConfig (IgnoreTagsConfig meta)
                       (tftags.IgnoreAWS (KeyValueTags listed)) in
       ecr.onDescribeRepositories conn (length (calls w))
         {| ecr.RepositoryNames := [rdId (d w)] |} = describes [Some repository] →
       aws.StringValue (ecr.RepositoryName repository) = rdId (d w) →
       ecr.onListTagsForResource conn (S (length (calls w)))
         (aws.StringValue (ecr.RepositoryArn repository)) = (listed, None) →
       let '(r, w') := ecr.resourceRepositoryRead X meta conn w in
       r = Ret []
       ∧ ∀ k v, rdTags (d w') !! k = Some v
                ↔ remote !! k = Some v ∧ DefaultTagsConfig meta !! k ≠ Some v)
  ∧ (∀ X meta (conn : ecr.Conn) (w : World ecr.Request) repository
       (resource : gmap string string),
       let sent := Tags (tftags.IgnoreAWS (tftags.MergeTags (DefaultTagsConfig meta) resource)) in
       ecr.onDescribeRepositories conn (length (calls w))
         {| ecr.RepositoryNames := [rdId (d w)] |} = describes [Some repository] →
       aws.StringValue (ecr.RepositoryName repository) = rdId (d w) →
       ecr.onListTagsForResource conn (S (length (calls w)))
         (aws.StringValue (ecr.RepositoryArn repository)) = (sent, None) →
       let '(r, w') := ecr.resourceRepositoryRead X meta conn w in
       r = Ret []
       ∧ ∀ k, resource !! k = None → rdTags (d w') !! k = None).
Proof.
  assert (∀ X meta (conn : ecr.Conn) (w : World ecr.Request) repository listed,
       let remote := tftags.IgnoreConfig (IgnoreTagsConfig meta)
                       (tftags.IgnoreAWS (KeyValueTags listed)) in
       ecr.onDescribeRepositories conn (length (calls w))
         {| ecr.RepositoryNames := [rdId (d w)] |} = describes [Some repository] →
       aws.StringValue (ecr.RepositoryName repository) = rdId (d w) →
       ecr.onListTagsForResource conn (S (length (calls w)))
         (aws.StringValue (ecr.RepositoryArn repository)) = (listed, None) →
       let '(r, w') := ecr.resourceRepositoryRead X meta conn w in
       r = Ret []
       ∧ ∀ k v, rdTags (d w') !! k = Some v
                ↔ remote !! k = Some v ∧ DefaultTagsConfig meta !! k ≠ Some v) as Hshown.
  { intros X meta conn w repository listed remote Hdescribe Hname Hlist.
    pose proof (resourceRepositoryRead_passes X meta conn w repository listed None
                  Hdescribe Hname Hlist (or_introl eq_refl)) as Hread.
    destruct (ecr.resourceRepositoryRead X meta conn w) as [r w'].
    destruct Hread as (Hr & _ & _ & Htags). split; [exact Hr|].
    intros k v. rewrite (Htags eq_refl). apply RemoveDefaultConfig_lookup. }
  repeat apply conj.
  - apply ecr_resourceRepositoryCreate_issuing.
  - apply ecr_UpdateTags_issuing.
  - apply ssm_UpdateTags_issuing.
  - apply ecr_resourceRepositoryRead_showing.
  - apply ecs_resourceTaskSetRead_showing.
  - intros defaults tags k v Hv. by apply RemoveDefaultConfig_lookup in Hv as [_ Hd].
  - exact Hshown.
  - intros X meta conn w repository resource sent Hdescribe Hname Hlist.
    specialize (Hshown X meta conn w repository sent Hdescribe Hname Hlist).
    destruct (ecr.resourceRepositoryRead X meta conn w) as [r w'].
    destruct Hshown as [Hr Hshown]. split; [exact Hr|].
    intros k Hk. destruct (rdTags (d w') !! k) as [v|] eqn:Hv; [exfalso|done].
    apply Hshown in Hv as [Hremote Hdefault]. apply Hdefault.
    unfold tftags.IgnoreConfig, tftags.IgnoreAWS in Hremote.
    apply map_lookup_filter_Some in Hremote as [Hremote _].
    apply map_lookup_filter_Some in Hremote as [Hremote _].
    unfold sent, Tags in Hremote.
    rewrite KeyValueTags_from_pairs in Hremote by apply NoDup_fst_map_to_list.
    rewrite list_to_map_to_list in Hremote.
    apply map_lookup_filter_Some in Hremote as [Hmerged _].
    unfold tftags.MergeTags in Hmerged.
    apply lookup_union_Some_raw in Hmerged as [Hmerged|[_ Hmerged]]; congruence.
Qed.

Lemma tags_sent_and_shown_witness :
  let resource : gmap string string := {[ "team" := "infra" ]} in
  let conn := {| ecr.PartitionID := "aws";
                 ecr.onDescribeRepositories := λ _ _, describes [Some (sampleRepository "app")];
                 ecr.onCreateRepository := λ _, creates;
                 ecr.onDeleteRepository := λ _ _, None;
                 ecr.onListTagsForResource := λ _ _,
                   (Tags (tftags.IgnoreAWS (tftags.MergeTags {[ "env" := "prod" ]} resource)),
                    None);
                 ecr.onTagResource := λ _ _ _, None;
                 ecr.onUntagResource := λ _ _ _, None |} in
  let '(r, w') := ecr.resourceRepositoryRead sampleExternals isoMeta conn
                    (start (repositoryData "app" false resource)) in
  r = Ret [] ∧ rdTags (d w') !! "env" = None.
Proof.
  intros resource conn.
  destruct tags_sent_and_shown as (_ & _ & _ & _ & _ & _ & _ & Hmerged).
  specialize (Hmerged sampleExternals isoMeta conn
                (start (repositoryData "app" false resource)) (sampleRepository "app")
                resource eq_refl eq_refl eq_refl).
  destruct (ecr.resourceRepositoryRead _ _ _ _) as [r w'].
  destruct Hmerged as [Hr Hmerged]. split; [exact Hr|]. apply Hmerged. reflexivity.
Defined.

(** C8 as stated fails: the resource names no tag, the default tags
    hold [env = prod], and the repository bears [env = dev] remotely;
    Read shows [env], a key that only the default tags have. *)
Lemma tags_shown_default_key_counterexample :
  let conn := {| ecr.PartitionID := "aws";
                 ecr.onDescribeRepositories := λ _ _, describes [Some (sampleRepository "app")];
                 ecr.onCreateRepository := λ _, creates;
                 ecr.onDeleteRepository := λ _ _, None;
                 ecr.onListTagsForResource := λ _ _,
                   ([{| Key := "env"; Value := "dev" |}], None);
                 ecr.onTagResource := λ _ _ _, None;
                 ecr.onUntagResource := λ _ _ _, None |} in
  let w := start (repositoryData "app" false ∅) in
  let '(r, w') := ecr.resourceRepositoryRead sampleExternals isoMeta conn w in
  rdTags (d w) !! "env" = None
  ∧ DefaultTagsConfig isoMeta !! "env" = Some "prod"
  ∧ r = Ret []
  ∧ rdTags (d w') !! "env" = Some "dev".
Proof. vm_compute. repeat split; done. Qed.
